(** * Fibank chatbot: a shallow embedding of the response pipeline

    The development follows the Python sources:
      - [utils/i18n.py]                  language detection,
      - [services/rendering_service.py]  product rendering and summaries,
      - [services/semantic_service.py]   the lazily built embedding index,
      - [services/gemini_service.py]     the generative collaborator,
      - [core/context.py], [core/chatbot.py]  the turn orchestrator.

    Python [str] values are sequences of Unicode code points, dictionaries
    are insertion-ordered association lists, and a method that mutates its
    object is a function from the object to an outcome and the new object.
    An exception that is raised leaves every mutation made before it in
    place, so the outcome and the final state are returned side by side.
    Exceptions are the instances of [Exception]; an interrupt of the process
    is not modelled. Floating-point scores are rationals, so there is no
    NaN. The libraries the program calls are parameters, gathered in one
    record. *)

From Stdlib Require Import String Ascii.
From Stdlib Require Import List Bool Arith NArith ZArith QArith Lia.
From Stdlib Require Import Permutation Sorted.
Import ListNotations.

Close Scope Q_scope.
Open Scope nat_scope.
Open Scope list_scope.

(** ** Python strings *)

Module PyStr.

(** A [str] is the list of its code points. *)
Definition str := list N.

(** Literals are written as UTF-8 text and decoded once. *)
Fixpoint utf8 (bs : list N) : str :=
  match bs with
  | [] => []
  | b :: r =>
      if (b <? 128)%N then b :: utf8 r
      else if (b <? 224)%N then
        match r with
        | b1 :: r1 => (N.land b 31 * 64 + N.land b1 63)%N :: utf8 r1
        | _ => []
        end
      else if (b <? 240)%N then
        match r with
        | b1 :: b2 :: r2 =>
            (N.land b 15 * 4096 + N.land b1 63 * 64 + N.land b2 63)%N :: utf8 r2
        | _ => []
        end
      else
        match r with
        | b1 :: b2 :: b3 :: r3 =>
            (N.land b 7 * 262144 + N.land b1 63 * 4096
             + N.land b2 63 * 64 + N.land b3 63)%N :: utf8 r3
        | _ => []
        end
  end.

Definition lit (s : string) : str :=
  utf8 (map N_of_ascii (list_ascii_of_string s)).

Fixpoint eqb (a b : str) : bool :=
  match a, b with
  | [], [] => true
  | x :: a', y :: b' => (x =? y)%N && eqb a' b'
  | _, _ => false
  end.

Definition cp_in (c : N) (s : str) : bool := existsb (N.eqb c) s.

(** [bool(s)]: a string is falsy exactly when it is empty. *)
Definition nonempty (s : str) : bool :=
  match s with [] => false | _ => true end.

(** The code points [str.strip()] removes (those with [str.isspace()]). *)
Definition isspace (c : N) : bool :=
  ((9 <=? c) && (c <=? 13) || (28 <=? c) && (c <=? 32)
   || (c =? 133) || (c =? 160) || (c =? 5760)
   || (8192 <=? c) && (c <=? 8202)
   || (c =? 8232) || (c =? 8233) || (c =? 8239) || (c =? 8287)
   || (c =? 12288))%N.

Fixpoint lstrip (s : str) : str :=
  match s with
  | c :: r => if isspace c then lstrip r else s
  | [] => []
  end.

Definition rstrip (s : str) : str := rev (lstrip (rev s)).

Definition strip (s : str) : str := rstrip (lstrip s).

Fixpoint startswith (p s : str) : bool :=
  match p, s with
  | [], _ => true
  | a :: p', b :: s' => (a =? b)%N && startswith p' s'
  | _ :: _, [] => false
  end.

Definition endswith (p s : str) : bool := startswith (rev p) (rev s).

(** [sub in s]. *)
Fixpoint contains (sub s : str) : bool :=
  startswith sub s
  || match s with
     | [] => false
     | _ :: r => contains sub r
     end.

(** [s.split(sep)] for a separator that is not empty: [skip] counts the
    code points of a separator just matched that are still to be passed,
    [cur] is the piece being read, last code point first. *)
Fixpoint split_go (sep : str) (skip : nat) (cur s : str) : list str :=
  match s with
  | [] => [rev cur]
  | c :: r =>
      match skip with
      | S k => split_go sep k cur r
      | O =>
          if startswith sep s
          then rev cur :: split_go sep (List.length sep - 1) [] r
          else split_go sep 0 (c :: cur) r
      end
  end.

Definition split (sep s : str) : list str := split_go sep 0 [] s.

(** [sep.join(parts)]. *)
Fixpoint join (sep : str) (parts : list str) : str :=
  match parts with
  | [] => []
  | [p] => p
  | p :: r => p ++ sep ++ join sep r
  end.

(** [s.replace(c, '')] for a one-character [c]. *)
Definition remove_char (c : N) (s : str) : str :=
  filter (fun x => negb (x =? c)%N) s.

(** [str(n)] for a length. *)
Fixpoint digits (fuel n : nat) (acc : str) : str :=
  match fuel with
  | O => acc
  | S f =>
      let acc' := (48 + N.of_nat (n mod 10))%N :: acc in
      if n / 10 =? 0 then acc' else digits f (n / 10) acc'
  end.

Definition of_nat (n : nat) : str := digits (S n) n [].

End PyStr.

Import PyStr.

Arguments lit s%_string.


(** ** Exceptions, outcomes and stateful methods *)

(** The exceptions of class [Exception] the pipeline can meet. *)
Inductive exn : Type :=
| LangDetectException
| KeyError
| IndexError
| TypeError
| AttributeError
| RuntimeError (code : N).

Inductive result (A : Type) : Type :=
| Ok (a : A)
| Raise (e : exn).

Arguments Ok {A} a.
Arguments Raise {A} e.

(** A method of an object of type [S]: the outcome and the object after
    the call. *)
Definition M (S A : Type) : Type := S -> result A * S.

Definition ret {S A} (a : A) : M S A := fun s => (Ok a, s).

Definition raise {S A} (e : exn) : M S A := fun s => (Raise e, s).

Definition bind {S A B} (c : M S A) (k : A -> M S B) : M S B :=
  fun s =>
    match c s with
    | (Ok a, s') => k a s'
    | (Raise e, s') => (Raise e, s')
    end.

(** [try: c  except Exception as e: h e]. *)
Definition try_except {S A} (c : M S A) (h : exn -> M S A) : M S A :=
  fun s =>
    match c s with
    | (Ok a, s') => (Ok a, s')
    | (Raise e, s') => h e s'
    end.

Definition get {S} : M S S := fun s => (Ok s, s).

Definition modify {S} (f : S -> S) : M S unit := fun s => (Ok tt, f s).

(** A computation that raises or returns without touching the object. *)
Definition lift {S A} (r : result A) : M S A := fun s => (r, s).

Declare Scope py_scope.
Delimit Scope py_scope with py.
Notation "x <- c ;; k" := (bind c (fun x => k))
  (at level 61, c at next level, right associativity) : py_scope.
Notation "c ;;; k" := (bind c (fun _ => k))
  (at level 61, right associativity) : py_scope.

(** The same for code that has no object to mutate. *)
Definition rbind {A B} (r : result A) (k : A -> result B) : result B :=
  match r with
  | Ok a => k a
  | Raise e => Raise e
  end.

Definition rcatch {A} (r : result A) (h : exn -> A) : A :=
  match r with
  | Ok a => a
  | Raise e => h e
  end.

(** ** Values read from the JSON documents, and dictionaries *)

#[local] Unset Elimination Schemes.
Inductive value : Type :=
| VNone
| VBool (b : bool)
| VNum (q : Q)
| VStr (s : str)
| VList (l : list value)
| VDict (d : list (str * value)).
#[local] Set Elimination Schemes.

(** [bool(v)]. *)
Definition truthy (v : value) : bool :=
  match v with
  | VNone => false
  | VBool b => b
  | VNum q => negb (Qeq_bool q 0%Q)
  | VStr s => nonempty s
  | VList l => match l with [] => false | _ => true end
  | VDict d => match d with [] => false | _ => true end
  end.

(** A [dict] is the list of its items in iteration order. *)
Definition dict (V : Type) : Type := list (str * V).

(** [d.get(k)], [None] when the key is absent. *)
Fixpoint dict_get {V} (k : str) (d : dict V) : option V :=
  match d with
  | [] => None
  | (k', v) :: r => if eqb k k' then Some v else dict_get k r
  end.

(** [d.get(k, default)]. *)
Definition dict_get_default {V} (k : str) (default : V) (d : dict V) : V :=
  match dict_get k d with
  | Some v => v
  | None => default
  end.

(** [d[k] = v]: an existing key keeps its place, a new key goes last. *)
Fixpoint dict_set {V} (k : str) (v : V) (d : dict V) : dict V :=
  match d with
  | [] => [(k, v)]
  | (k', v') :: r =>
      if eqb k k' then (k', v) :: r else (k', v') :: dict_set k v r
  end.

(** An embedding vector, and a similarity score. *)
Definition vec : Type := list Q.

(** [a < b] on scores. *)
Definition Qltb (a b : Q) : bool := negb (Qle_bool b a).

(** ** The collaborators

    What the sources call but do not define: the Unicode tables behind
    [str.lower] and [str.title], the text of a value that is formatted into
    an f-string, [langdetect.detect], [re.Pattern.search] on a pattern
    compiled with [re.IGNORECASE], the sentence-transformer model (its
    construction and [encode]), scikit-learn's cosine similarity of two
    vectors, and the text of the answer of the generative model at a given
    attempt. *)
Record Collaborators : Type := {
  lower : str -> str;
  title : str -> str;
  format : value -> str;
  detect : str -> result str;
  search : str -> str -> bool;
  SentenceTransformer : str -> result unit;
  encode : list str -> result (list vec);
  cosine_similarity : vec -> vec -> Q;
  generate_content : nat -> str -> result str
}.

(** The attribute mapping of one product, and a source document:
    category, then product name, then attributes. *)
Definition attrs : Type := dict value.
Definition dataset : Type := dict (dict attrs).

(** ** Text constants *)

Definition nl : str := [10%N].
Definition dq : str := [34%N].

(** colorama's [Fore] and [Style] codes. *)
Definition Fore_RED : str := Eval vm_compute in 27%N :: lit "[31m".
Definition Fore_GREEN : str := Eval vm_compute in 27%N :: lit "[32m".
Definition Fore_YELLOW : str := Eval vm_compute in 27%N :: lit "[33m".
Definition Fore_BLUE : str := Eval vm_compute in 27%N :: lit "[34m".
Definition Fore_MAGENTA : str := Eval vm_compute in 27%N :: lit "[35m".
Definition Fore_CYAN : str := Eval vm_compute in 27%N :: lit "[36m".
Definition RESET_ALL : str := Eval vm_compute in 27%N :: lit "[0m".

Definition Fore_WHITE : str := Eval vm_compute in 27%N :: lit "[37m".
Definition Back_BLUE : str := Eval vm_compute in 27%N :: lit "[44m".

Definition en : str := Eval vm_compute in lit "en".
Definition bg : str := Eval vm_compute in lit "bg".

(** [not text or not text.strip()]. *)
Definition blank (text : str) : bool :=
  negb (nonempty text) || negb (nonempty (strip text)).

Definition key_info : str := Eval vm_compute in lit "информация за продукта".
Definition key_link : str := Eval vm_compute in lit "link".

(** The section delimiter of a description: a newline, a dash, a space. *)
Definition sep_section : str := Eval vm_compute in nl ++ lit "- ".

(** The text an f-string puts for a value: a [str] stands for itself. *)
Definition fstr (E : Collaborators) (v : value) : str :=
  match v with
  | VStr s => s
  | _ => format E v
  end.

(** [v[:200]]: strings and lists can be sliced, the rest cannot. *)
Definition slice200 (v : value) : result value :=
  match v with
  | VStr s => Ok (VStr (firstn 200 s))
  | VList l => Ok (VList (firstn 200 l))
  | _ => Raise TypeError
  end.

(** ** The catalog

    A product is the dictionary [_combine_products] builds, with its five
    keys; the knowledge base holds the merged products and the two source
    documents. *)
Record Product : Type := {
  name : str;
  type : str;
  category : str;
  description : value;
  raw_data : attrs
}.

Record KnowledgeBase : Type := {
  products : dict Product;
  credit_cards : dataset;
  credits : dataset
}.

(** ** utils/i18n.py *)

Module I18n.

Definition bulgarian_chars : str :=
  Eval vm_compute in lit "абвгдежзийклмнопрстуфхцчшщъьюя".

Definition bulgarian_words : list str :=
  Eval vm_compute in
    [lit "заем"; lit "кредит"; lit "карта"; lit "лихва"; lit "банка";
     lit "пари"; lit "плащане"; lit "ипотека"; lit "потребителски";
     lit "овърдрафт"; lit "филиал"; lit "клан"; lit "документи";
     lit "заявка"; lit "процес"; lit "онлайн"; lit "помощ";
     lit "информация"].

Section Detect.

Variable E : Collaborators.

Definition detect_language (text : str) : result str :=
  if blank text then Ok en
  else
    let text_lower := lower E text in
    if existsb (fun char => cp_in char bulgarian_chars) text_lower then Ok bg
    else if existsb (fun word => contains word text_lower) bulgarian_words
    then Ok bg
    else
      match detect E text with
      | Ok detected =>
          Ok (if existsb (eqb detected) [en; bg] then detected else en)
      | Raise LangDetectException => Ok en
      | Raise e => Raise e
      end.

End Detect.

End I18n.

(** ** services/rendering_service.py *)

Module RenderingService.

Section Render.

Variable E : Collaborators.


Definition render_item (summary_fn : attrs -> result str)
    (link_label language : str) (response : str) (item : str * attrs) : str :=
  let (name, info) := item in
  let response := response ++ lit "🔹 **" ++ name ++ lit "**" ++ nl in
  let response :=
    match summary_fn info with
    | Ok summary =>
        if nonempty summary
        then response ++ lit "   " ++ summary ++ nl
        else response
    | Raise _ => response
    end in
  let link := dict_get_default key_link (VStr []) info in
  if truthy link then
    if eqb language bg
    then response ++ lit "   🔗 " ++ link_label ++ lit ": " ++ fstr E link ++ nl ++ nl
    else response ++ lit "   🔗 " ++ link_label ++ lit ": " ++ fstr E link ++ nl ++ nl
  else response ++ nl.

Definition render_product_list (header : str) (items : dict attrs)
    (summary_fn : attrs -> result str) (link_label language : str) : str :=
  rcatch
    (let response := Fore_BLUE ++ lit "💳 " ++ header ++ RESET_ALL ++ nl ++ nl in
     match items with
     | [] =>
         if eqb language bg
         then Ok (response ++ Fore_YELLOW
                  ++ lit "Няма налични продукти в тази категория." ++ RESET_ALL)
         else Ok (response ++ Fore_YELLOW
                  ++ lit "No products available in this category." ++ RESET_ALL)
     | _ =>
         let response :=
           fold_left (render_item summary_fn link_label language) items response in
         if eqb language bg
         then Ok (response ++ Fore_YELLOW
                  ++ lit "За повече детайли за конкретен продукт, просто го споменете по име."
                  ++ RESET_ALL)
         else Ok (response ++ Fore_YELLOW
                  ++ lit "For more details about a specific product, just mention it by name."
                  ++ RESET_ALL)
     end)
    (fun _ =>
       if eqb language bg
       then Fore_RED ++ lit "Съжалявам, възникна грешка при показването на продуктите."
            ++ RESET_ALL
       else Fore_RED ++ lit "Sorry, an error occurred while displaying the products."
            ++ RESET_ALL).

(** One turn of [for i, section in enumerate(sections)]. *)
Definition render_section (language : str) (i : nat) (section : str) : str :=
  match i with
  | O =>
      if eqb language bg
      then lit "**Основни предимства:**" ++ nl ++ strip section ++ nl ++ nl
      else lit "**Key Benefits:**" ++ nl ++ strip section ++ nl ++ nl
  | S _ =>
      if eqb language bg
      then lit "**Технически детайли:**" ++ nl ++ lit "- " ++ strip section ++ nl ++ nl
      else lit "**Technical Details:**" ++ nl ++ lit "- " ++ strip section ++ nl ++ nl
  end.

Fixpoint render_sections (language : str) (i : nat) (sections : list str) : str :=
  match sections with
  | [] => []
  | section :: r => render_section language i section ++ render_sections language (S i) r
  end.

Definition render_specific_product (product_name : str) (product_data : attrs)
    (language : str) : str :=
  rcatch
    (let response :=
       if eqb language bg
       then Fore_BLUE ++ lit "💳 Информация за " ++ product_name ++ lit ":"
            ++ RESET_ALL ++ nl ++ nl
       else Fore_BLUE ++ lit "💳 Information about " ++ product_name ++ lit ":"
            ++ RESET_ALL ++ nl ++ nl in
     let info := dict_get_default key_info (VStr []) product_data in
     rbind
       (if truthy info then
          match info with
          | VStr s => Ok (response ++ render_sections language 0 (split sep_section s))
          | _ => Raise AttributeError
          end
        else Ok response)
       (fun response =>
          let link := dict_get_default key_link (VStr []) product_data in
          let response :=
            if truthy link then
              if eqb language bg
              then response ++ Fore_GREEN ++ lit "🔗 За повече информация: "
                   ++ fstr E link ++ RESET_ALL ++ nl ++ nl
              else response ++ Fore_GREEN ++ lit "🔗 For more information: "
                   ++ fstr E link ++ RESET_ALL ++ nl ++ nl
            else response in
          if eqb language bg
          then Ok (response ++ Fore_YELLOW
                   ++ lit "💡 Можете да попитате за други продукти или да сравните с друг продукт."
                   ++ RESET_ALL)
          else Ok (response ++ Fore_YELLOW
                   ++ lit "💡 You can ask about other products or compare with another product."
                   ++ RESET_ALL)))
    (fun _ =>
       if eqb language bg
       then Fore_RED
            ++ lit "Съжалявам, възникна грешка при показването на информацията за продукта."
            ++ RESET_ALL
       else Fore_RED ++ lit "Sorry, an error occurred while showing the product information."
            ++ RESET_ALL).

Definition render_category (language : str) (response : str)
    (item : str * dict attrs) : str :=
  let (category_name, products) := item in
  let response :=
    response ++ lit "🔹 **" ++ category_name ++ lit "** ("
    ++ of_nat (List.length products) ++ lit " " in
  let response :=
    if eqb language bg
    then response ++ lit "продукта)" ++ nl
    else response ++ lit "products)" ++ nl in
  let product_names := firstn 3 (map fst products) in
  let response :=
    fold_left (fun response name => response ++ lit "   • " ++ name ++ nl)
      product_names response in
  let response :=
    if 3 <? List.length products then
      if eqb language bg
      then response ++ lit "   • и още " ++ of_nat (List.length products - 3)
           ++ lit " продукта..." ++ nl
      else response ++ lit "   • and " ++ of_nat (List.length products - 3)
           ++ lit " more products..." ++ nl
    else response in
  response ++ nl.

Definition render_category_overview (categories : dict (dict attrs))
    (language : str) : str :=
  rcatch
    (let response :=
       if eqb language bg
       then Fore_BLUE ++ lit "💰 Предлагаме продукти в следните категории:"
            ++ RESET_ALL ++ nl ++ nl
       else Fore_BLUE ++ lit "💰 We offer products in the following categories:"
            ++ RESET_ALL ++ nl ++ nl in
     Ok (fold_left (render_category language) categories response))
    (fun _ =>
       if eqb language bg
       then Fore_RED ++ lit "Съжалявам, възникна грешка при показването на категориите."
            ++ RESET_ALL
       else Fore_RED ++ lit "Sorry, an error occurred while displaying the categories."
            ++ RESET_ALL).

Definition card_summary_keywords : list str :=
  Eval vm_compute in [lit "лимит:"; lit "годишна такса:"; lit "cashback:"].

Definition get_credit_card_summary (card_info : attrs) : str :=
  rcatch
    (let info := dict_get_default key_info (VStr []) card_info in
     if negb (truthy info) then Ok []
     else
       match info with
       | VStr s =>
           let lines := split (lit ";") s in
           let key_info :=
             filter
               (fun line =>
                  existsb (fun keyword => contains keyword (lower E line))
                    card_summary_keywords)
               (map strip lines) in
           Ok (join (nl ++ lit "   ") (firstn 3 key_info))
       | _ => Raise AttributeError
       end)
    (fun _ => []).

Definition get_loan_summary (loan_info : attrs) : str :=
  rcatch
    (let info := dict_get_default key_info (VStr []) loan_info in
     if negb (truthy info) then Ok []
     else
       match info with
       | VStr s =>
           let lines := split nl s in
           let key_info :=
             filter
               (fun line => nonempty line && negb (startswith (lit "-") line))
               (map strip (firstn 2 lines)) in
           Ok (join (nl ++ lit "   ") key_info)
       | _ => Raise AttributeError
       end)
    (fun _ => []).

End Render.

End RenderingService.

(** ** services/semantic_service.py *)

Module SemanticService.

(** The object: [_model] tells whether the sentence-transformer model has
    been constructed, [_embeddings] is [None] until the index is built. *)
Record t : Type := {
  model_name : str;
  _model : bool;
  _embeddings : option (list vec);
  _product_texts : list str;
  _product_keys : list str;
  _knowledge_base : option KnowledgeBase
}.

Definition __init__ (model_name : str) : t :=
  {| model_name := model_name; _model := false; _embeddings := None;
     _product_texts := []; _product_keys := []; _knowledge_base := None |}.

Definition with_model (self : t) : t :=
  {| model_name := model_name self; _model := true;
     _embeddings := _embeddings self;
     _product_texts := _product_texts self;
     _product_keys := _product_keys self;
     _knowledge_base := _knowledge_base self |}.

Definition with_embeddings (embeddings : list vec) (self : t) : t :=
  {| model_name := model_name self; _model := _model self;
     _embeddings := Some embeddings;
     _product_texts := _product_texts self;
     _product_keys := _product_keys self;
     _knowledge_base := _knowledge_base self |}.

(** [self._product_texts.append(text); self._product_keys.append(key)]. *)
Definition append_product (text key : str) (self : t) : t :=
  {| model_name := model_name self; _model := _model self;
     _embeddings := _embeddings self;
     _product_texts := _product_texts self ++ [text];
     _product_keys := _product_keys self ++ [key];
     _knowledge_base := _knowledge_base self |}.

Definition set_knowledge_base (knowledge_base : KnowledgeBase) : M t unit :=
  modify (fun self =>
    {| model_name := model_name self; _model := _model self;
       _embeddings := None; _product_texts := []; _product_keys := [];
       _knowledge_base := Some knowledge_base |}).

(** [' '.join(l)]: every item has to be a [str]. *)
Fixpoint strs_of (l : list value) : result (list str) :=
  match l with
  | [] => Ok []
  | VStr s :: r => rbind (strs_of r) (fun t => Ok (s :: t))
  | _ :: _ => Raise TypeError
  end.

(** [np.argsort(similarities)]: the indices in ascending order of their
    values. NumPy leaves the order of indices with equal values open; here
    the smaller index comes first, and the properties proved below rest on
    the ascending order alone. *)
Fixpoint insert_index (similarities : list Q) (i : nat) (sorted : list nat)
  : list nat :=
  match sorted with
  | [] => [i]
  | j :: r =>
      if Qle_bool (nth i similarities 0%Q) (nth j similarities 0%Q)
      then i :: j :: r
      else j :: insert_index similarities i r
  end.

Definition argsort (similarities : list Q) : list nat :=
  fold_right (insert_index similarities) [] (seq 0 (List.length similarities)).

(** [l[:k]] for an [int] k: a negative k counts from the end. *)
Definition slice_to {A} (k : Z) (l : list A) : list A :=
  if (k <? 0)%Z then firstn (List.length l - Z.to_nat (- k)) l
  else firstn (Z.to_nat k) l.

(** [embeddings.size]. *)
Definition size (embeddings : list vec) : nat :=
  fold_right (fun v n => List.length v + n) 0 embeddings.

Section Service.

Variable E : Collaborators.

(** The [model] property. *)
Definition model : M t unit :=
  fun self =>
    if _model self then (Ok tt, self)
    else
      match SentenceTransformer E (model_name self) with
      | Ok _ => (Ok tt, with_model self)
      | Raise e => (Raise e, self)
      end.

(** The text of one field, [features] or [benefits]. *)
Definition field_text (v : value) : result str :=
  match v with
  | VList l => rbind (strs_of l) (fun ss => Ok (lit " " ++ join (lit " ") ss))
  | _ => Ok (lit " " ++ fstr E v)
  end.

Definition product_text (product : Product) : result str :=
  let text := name product ++ lit " " ++ fstr E (description product) in
  let raw := raw_data product in
  let text :=
    match dict_get key_info raw with
    | Some v => text ++ lit " " ++ fstr E v
    | None => text
    end in
  rbind
    (match dict_get (lit "features") raw with
     | Some v => rbind (field_text v) (fun f => Ok (text ++ f))
     | None => Ok text
     end)
    (fun text =>
       match dict_get (lit "benefits") raw with
       | Some v => rbind (field_text v) (fun f => Ok (text ++ f))
       | None => Ok text
       end).

(** [for key, product in products.items()]. *)
Fixpoint prepare_loop (items : dict Product) : M t unit :=
  match items with
  | [] => ret tt
  | (key, product) :: r =>
      (text <- lift (product_text product) ;;
       modify (append_product text key) ;;;
       prepare_loop r)%py
  end.

Definition _prepare_product_texts : M t unit :=
  fun self =>
    match _product_texts self, _knowledge_base self with
    | _ :: _, _ => (Ok tt, self)
    | [], None => (Ok tt, self)
    | [], Some kb =>
        match products kb with
        | [] => (Ok tt, self)
        | items => prepare_loop items self
        end
    end.

Definition build_embeddings : M t (list vec) :=
  fun self =>
    match _embeddings self with
    | Some embeddings => (Ok embeddings, self)
    | None =>
        (_prepare_product_texts ;;;
         self <- get ;;
         match _product_texts self with
         | [] => ret []
         | texts =>
             try_except
               (model ;;;
                embeddings <- lift (encode E texts) ;;
                modify (with_embeddings embeddings) ;;;
                ret embeddings)
               (fun _ => ret [])
         end)%py self
    end.

(** [for idx in top_indices]. *)
Fixpoint collect (self : t) (threshold : Q) (similarities : list Q)
    (top_indices : list nat) : result (list (str * Product * Q)) :=
  match top_indices with
  | [] => Ok []
  | idx :: r =>
      match nth_error similarities idx with
      | None => Raise IndexError
      | Some similarity =>
          if Qltb threshold similarity then
            match nth_error (_product_keys self) idx with
            | None => Raise IndexError
            | Some product_key =>
                match _knowledge_base self with
                | None => Raise TypeError
                | Some kb =>
                    match dict_get product_key (products kb) with
                    | None => Raise KeyError
                    | Some product_data =>
                        rbind (collect self threshold similarities r)
                          (fun results =>
                             Ok ((product_key, product_data, similarity) :: results))
                    end
                end
            end
          else collect self threshold similarities r
      end
  end.

Definition find_similar_products (query : str) (top_k : Z) (threshold : Q)
  : M t (list (str * Product * Q)) :=
  try_except
    (embeddings <- build_embeddings ;;
     if size embeddings =? 0 then ret []
     else
       model ;;;
       query_embedding <- lift (encode E [query]) ;;
       similarities <-
         lift (match query_embedding with
               | q :: _ => Ok (map (cosine_similarity E q) embeddings)
               | [] => Raise IndexError
               end) ;;
       let top_indices := slice_to top_k (rev (argsort similarities)) in
       self <- get ;;
       lift (collect self threshold similarities top_indices))%py
    (fun _ => ret []).

(** The dictionary [get_embedding_stats] returns. *)
Inductive stats : Type :=
| no_embeddings
| ready (num_products embedding_dimension : nat) (model_name : str)
    (total_texts_length : nat).

Definition get_embedding_stats : M t stats :=
  (embeddings <- build_embeddings ;;
   if size embeddings =? 0 then ret no_embeddings
   else
     self <- get ;;
     ret (ready
            (List.length (_product_keys self))
            (match embeddings with
             | v :: _ => List.length v
             | [] => 0
             end)
            (model_name self)
            (fold_right (fun text n => List.length text + n) 0
               (_product_texts self))))%py.

End Service.

End SemanticService.

(** ** core/context.py *)

(** One entry of the conversation history. *)
Record HistoryRecord : Type := {
  user : str;
  timestamp : str;
  language : str;
  intent : str;
  confidence : Q
}.

Module ConversationContext.

Record t : Type := {
  user_language : str;
  current_topic : option str;
  user_preferences : dict value;
  conversation_history : list HistoryRecord;
  conversation_memory : dict value;
  last_products_discussed : list str;
  user_interests : list str
}.

Definition __init__ : t :=
  {| user_language := en; current_topic := None; user_preferences := [];
     conversation_history := []; conversation_memory := [];
     last_products_discussed := []; user_interests := [] |}.

(** [self.user_language = language]. *)
Definition set_user_language (language : str) (self : t) : t :=
  {| user_language := language;
     current_topic := current_topic self;
     user_preferences := user_preferences self;
     conversation_history := conversation_history self;
     conversation_memory := conversation_memory self;
     last_products_discussed := last_products_discussed self;
     user_interests := user_interests self |}.

(** [self.conversation_history.append(record)]. *)
Definition append_history (record : HistoryRecord) (self : t) : t :=
  {| user_language := user_language self;
     current_topic := current_topic self;
     user_preferences := user_preferences self;
     conversation_history := conversation_history self ++ [record];
     conversation_memory := conversation_memory self;
     last_products_discussed := last_products_discussed self;
     user_interests := user_interests self |}.

(** [l[-n:]]: the last n items, and the whole list when n is 0. *)
Definition last_items {A} (n : nat) (l : list A) : list A :=
  match n with
  | O => l
  | _ => skipn (List.length l - n) l
  end.

Definition get_recent_context (self : t) (turns : nat) : list HistoryRecord :=
  match conversation_history self with
  | [] => []
  | history => last_items turns history
  end.

(** [self.conversation_memory[key] = value]. *)
Definition add_to_memory (key : str) (v : value) (self : t) : t :=
  {| user_language := user_language self;
     current_topic := current_topic self;
     user_preferences := user_preferences self;
     conversation_history := conversation_history self;
     conversation_memory := dict_set key v (conversation_memory self);
     last_products_discussed := last_products_discussed self;
     user_interests := user_interests self |}.

Definition get_from_memory (self : t) (key : str) (default : value) : value :=
  dict_get_default key default (conversation_memory self).

Definition add_product_interest (product_key : str) (self : t) : t :=
  if existsb (eqb product_key) (user_interests self) then self
  else
    {| user_language := user_language self;
       current_topic := current_topic self;
       user_preferences := user_preferences self;
       conversation_history := conversation_history self;
       conversation_memory := conversation_memory self;
       last_products_discussed := last_products_discussed self;
       user_interests := user_interests self ++ [product_key] |}.

End ConversationContext.

(** ** services/gemini_service.py *)

Module GeminiService.

(** [model] tells whether a generative model is configured. *)
Record t : Type := {
  model_name : str;
  model : bool;
  is_available : bool
}.

(** [_setup_model]: [configure] is [genai.configure(api_key=...)] and
    [GenerativeModel] is [genai.GenerativeModel(model_name)]; a key that is
    missing, empty or the placeholder of the sample configuration leaves
    the service unavailable, and so does any failure of the two calls. *)
Definition _setup_model (configure GenerativeModel : str -> result unit)
    (model_name : str) (api_key : option str) : t :=
  let unavailable :=
    {| model_name := model_name; model := false; is_available := false |} in
  rcatch
    (match api_key with
     | None => Ok unavailable
     | Some key =>
         if negb (nonempty key) || eqb key (lit "your_gemini_api_key_here")
         then Ok unavailable
         else
           rbind (configure key)
             (fun _ =>
                rbind (GenerativeModel model_name)
                  (fun _ =>
                     Ok {| model_name := model_name; model := true;
                           is_available := true |}))
     end)
    (fun _ => unavailable).

(** [__init__]: [genai] tells whether the client library could be
    imported, [getenv] is the value of the environment variable
    [GOOGLE_GEMINI_API_KEY]. *)
Definition __init__ (genai : bool) (getenv : option str)
    (configure GenerativeModel : str -> result unit)
    (api_key : option str) (model_name : str) : t :=
  if negb genai
  then {| model_name := model_name; model := false; is_available := false |}
  else
    let api_key :=
      match api_key with
      | None => getenv
      | Some key => Some key
      end in
    _setup_model configure GenerativeModel model_name api_key.

Definition system_prompt_bg : str :=
  Eval vm_compute in
    lit "Ти си AI асистент на Първа инвестиционна банка АД (Fibank). 
            Отговаряй на въпросите на клиентите относно кредитни карти и кредити.
            Бъди професионален, полезен и приветлив. Използвай информацията за продуктите, която ти е предоставена.
            Винаги предоставяй точна информация и насърчавай клиентите да се свържат с банката за повече детайли.".

Definition system_prompt_en : str :=
  Eval vm_compute in
    lit "You are an AI assistant for First Investment Bank AD (Fibank).
            Answer customer questions about credit cards and loans.
            Be professional, helpful, and friendly. Use the product information provided to you.
            Always provide accurate information and encourage customers to contact the bank for more details.".

Definition guidelines_bg : str :=
  Eval vm_compute in
    lit "
            
Указания:
- Отговори директно на въпроса на клиента
- Ако питането е за конкретен продукт, предостави подробна информация
- Ако не знаеш точен отговор, препоръчай да се свържат с банката
- Винаги завършвай с информация за контакт: *2265 или 119 клона в България
- Бъди кратък и ясен в отговорите си".

Definition guidelines_en : str :=
  Eval vm_compute in
    lit "
            
Guidelines:
- Answer the customer's question directly
- If asking about a specific product, provide detailed information
- If you don't know the exact answer, recommend contacting the bank
- Always end with contact information: *2265 or 119 branches in Bulgaria
- Keep responses concise and clear".

Section Service.

Variable E : Collaborators.

(** [for attempt in range(max_retries + 1)]. *)
Fixpoint attempts (prompt : str) (max_retries : nat) (todo : list nat)
  : option str :=
  match todo with
  | [] => None
  | attempt :: r =>
      match generate_content E attempt prompt with
      | Ok text =>
          if nonempty text then Some (strip text)
          else attempts prompt max_retries r
      | Raise _ =>
          if attempt =? max_retries then None
          else attempts prompt max_retries r
      end
  end.

Definition generate_response (self : t) (prompt : str) (max_retries : nat)
  : option str :=
  if negb (is_available self) || negb (model self) then None
  else attempts prompt max_retries (seq 0 (max_retries + 1)).

(** [for turn in recent_context[-3:]]. *)
Definition context_turn (context_text : str) (turn : HistoryRecord) : str :=
  let user_msg := user turn in
  if nonempty user_msg
  then context_text ++ lit "User: " ++ user_msg ++ nl
  else context_text.

(** [for _, product, score in relevant_products[:3]]. *)
Fixpoint product_lines (products_text : str)
    (relevant_products : list (str * Product * Q)) : result str :=
  match relevant_products with
  | [] => Ok products_text
  | (_, product, _) :: r =>
      rbind (slice200 (description product))
        (fun d =>
           product_lines
             (products_text ++ lit "- " ++ name product ++ lit ": "
              ++ fstr E d ++ lit "..." ++ nl) r)
  end.

Definition create_structured_prompt (user_input language : str)
    (relevant_products : list (str * Product * Q))
    (recent_context : list HistoryRecord) : result str :=
  let system_prompt :=
    if eqb language bg then system_prompt_bg else system_prompt_en in
  let context_text :=
    match recent_context with
    | [] => []
    | _ =>
        fold_left context_turn (ConversationContext.last_items 3 recent_context)
          (nl ++ lit "Recent conversation:" ++ nl)
    end in
  rbind
    (match relevant_products with
     | [] => Ok []
     | _ =>
         let products_text :=
           if eqb language bg
           then nl ++ lit "Релевантни продукти на Fibank:" ++ nl
           else nl ++ lit "Relevant Fibank products:" ++ nl in
         product_lines products_text (firstn 3 relevant_products)
     end)
    (fun products_text =>
       let guidelines :=
         if eqb language bg then guidelines_bg else guidelines_en in
       Ok (system_prompt ++ nl ++ lit "        " ++ nl
           ++ context_text ++ nl
           ++ products_text ++ nl
           ++ guidelines ++ nl ++ nl
           ++ lit "User question: " ++ user_input ++ nl ++ nl
           ++ lit "Response:")).

End Service.

End GeminiService.

(** ** core/chatbot.py *)

Module FibankChatbot.

(** The object, after [__init__]: the conversation context, the two
    stateful services, the knowledge base, the compiled intent patterns
    (a pattern is kept as its source text) and the keyword configuration.
    The rendering service has no state. *)
Record t : Type := {
  context : ConversationContext.t;
  gemini_service : GeminiService.t;
  semantic_service : SemanticService.t;
  knowledge_base : KnowledgeBase;
  intent_patterns : dict (list str);
  keywords : dict (dict (list str))
}.

Definition with_context (f : ConversationContext.t -> ConversationContext.t)
    (self : t) : t :=
  {| context := f (context self);
     gemini_service := gemini_service self;
     semantic_service := semantic_service self;
     knowledge_base := knowledge_base self;
     intent_patterns := intent_patterns self;
     keywords := keywords self |}.

Definition with_semantic_service (s : SemanticService.t) (self : t) : t :=
  {| context := context self;
     gemini_service := gemini_service self;
     semantic_service := s;
     knowledge_base := knowledge_base self;
     intent_patterns := intent_patterns self;
     keywords := keywords self |}.

(** A call of a method of [self.semantic_service]. *)
Definition on_semantic_service {A} (c : M SemanticService.t A) : M t A :=
  fun self =>
    let (r, s) := c (semantic_service self) in
    (r, with_semantic_service s self).

Definition user_language (self : t) : str :=
  ConversationContext.user_language (context self).

Definition loan_hint_bg : str :=
  Eval vm_compute in
    lit "За да видите конкретна категория, моля уточнете:
• " ++ dq ++ lit "Жилищни кредити" ++ dq ++ lit " или " ++ dq ++ lit "ипотечни кредити" ++ dq ++ lit "
• " ++ dq ++ lit "Потребителски кредити" ++ dq ++ lit "  
• " ++ dq ++ lit "Овърдрафт" ++ dq ++ lit "
• " ++ dq ++ lit "Други кредити" ++ dq ++ lit "

Или можете да споменете конкретен продукт по име.".

Definition loan_hint_en : str :=
  Eval vm_compute in
    lit "To see a specific category, please specify:
• " ++ dq ++ lit "Housing loans" ++ dq ++ lit " or " ++ dq ++ lit "mortgage loans" ++ dq ++ lit "
• " ++ dq ++ lit "Consumer loans" ++ dq ++ lit "
• " ++ dq ++ lit "Overdraft" ++ dq ++ lit "
• " ++ dq ++ lit "Other loans" ++ dq ++ lit "

Or you can mention a specific product by name.".

Definition contact_footer (language : str) : str :=
  if eqb language bg
  then nl ++ nl ++ Fore_CYAN
       ++ lit "📞 За повече информация: *2265 или посетете някой от нашите 119 клона в България."
       ++ RESET_ALL
  else nl ++ nl ++ Fore_CYAN
       ++ lit "📞 For more information: *2265 or visit any of our 119 branches in Bulgaria."
       ++ RESET_ALL.

Definition enter_question_prompt : str :=
  Fore_YELLOW ++ lit "💡 Please enter your question." ++ RESET_ALL.

Definition category_mapping : dict str :=
  Eval vm_compute in
    [(lit "housing", lit "Жилищни и ипотечни кредити");
     (lit "consumer", lit "Потребителски кредити");
     (lit "overdraft", lit "Овърдрафт");
     (lit "other", lit "Други кредити")].

(** The two halves of [_combine_products]: the entries of one source
    document written into [combined] with the source kind as [type]. *)
Definition combine_entry (kind category : str) (combined : dict Product)
    (item : str * attrs) : dict Product :=
  let (product_name, info) := item in
  let key :=
    remove_char 34 (remove_char 8222 (remove_char 34 product_name)) in
  dict_set key
    {| name := product_name;
       type := kind;
       category := category;
       description := dict_get_default key_info (VStr []) info;
       raw_data := info |}
    combined.

Definition combine_dataset (kind : str) (combined : dict Product)
    (data : dataset) : dict Product :=
  fold_left
    (fun combined (entry : str * dict attrs) =>
       let (category, items) := entry in
       fold_left (combine_entry kind category) items combined)
    data combined.

Definition _combine_products (credit_cards credits : dataset) : dict Product :=
  let combined := [] in
  let combined := combine_dataset (lit "credit_card") combined credit_cards in
  let combined := combine_dataset (lit "credit") combined credits in
  combined.

Definition _generate_error_response (self : t) : str :=
  if eqb (user_language self) bg
  then Fore_RED ++ lit "Съжалявам, възникна грешка. Моля, опитайте отново."
       ++ RESET_ALL
  else Fore_RED ++ lit "Sorry, an error occurred. Please try again." ++ RESET_ALL.

Section Bot.

Variable E : Collaborators.

(** [for pattern in patterns], with its [break]. *)
Fixpoint match_patterns (text_lower intent : str) (patterns : list str)
    (best : str * Q) : str * Q :=
  match patterns with
  | [] => best
  | pattern :: r =>
      if search E pattern text_lower then
        let score := (8 # 10)%Q in
        if Qltb (snd best) score then (intent, score)
        else match_patterns text_lower intent r best
      else match_patterns text_lower intent r best
  end.

Definition find_intent (self : t) (text : str) : str * Q :=
  let text_lower := lower E text in
  fold_left
    (fun best (entry : str * list str) =>
       let (intent, patterns) := entry in
       match_patterns text_lower intent patterns best)
    (intent_patterns self) (lit "general", 0%Q).

(** [any(keyword.lower() in user_input_lower for keyword in keywords)]. *)
Definition mentioned (user_input_lower : str) (keywords : list str) : bool :=
  existsb (fun keyword => contains (lower E keyword) user_input_lower) keywords.

Definition _show_specific_card (self : t) (brand card_name : str) : str :=
  rcatch
    (let card_data :=
       dict_get_default card_name []
         (dict_get_default brand [] (credit_cards (knowledge_base self))) in
     match card_data with
     | [] =>
         if eqb (user_language self) bg
         then Ok (Fore_RED ++ lit "Съжалявам, не намерих информация за "
                  ++ card_name ++ lit "." ++ RESET_ALL)
         else Ok (Fore_RED ++ lit "Sorry, I couldn't find information for "
                  ++ card_name ++ lit "." ++ RESET_ALL)
     | _ =>
         Ok (RenderingService.render_specific_product E card_name card_data
               (user_language self))
     end)
    (fun _ => _generate_error_response self).

Definition _show_brand_cards (self : t) (brand : str) : str :=
  rcatch
    (let cards := dict_get_default brand [] (credit_cards (knowledge_base self)) in
     let (header, link_label) :=
       if eqb (user_language self) bg
       then (lit "Всички налични " ++ brand ++ lit " карти от Fibank",
             lit "Повече информация")
       else (lit "All available " ++ brand ++ lit " cards from Fibank",
             lit "More information") in
     Ok (RenderingService.render_product_list E header cards
           (fun info => Ok (RenderingService.get_credit_card_summary E info))
           link_label (user_language self)))
    (fun _ => _generate_error_response self).

Definition show_card (self : t) (response : str) (item : str * attrs) : str :=
  let (card_name, card_info) := item in
  let response := response ++ lit "🔹 **" ++ card_name ++ lit "**" ++ nl in
  let summary := RenderingService.get_credit_card_summary E card_info in
  let response :=
    if nonempty summary then response ++ lit "   " ++ summary ++ nl
    else response in
  let link := dict_get_default key_link (VStr []) card_info in
  if truthy link then
    if eqb (user_language self) bg
    then response ++ lit "   🔗 Повече информация: " ++ fstr E link ++ nl ++ nl
    else response ++ lit "   🔗 More info: " ++ fstr E link ++ nl ++ nl
  else response ++ nl.

Definition show_brand (self : t) (response : str) (entry : str * dict attrs)
  : str :=
  let (brand, cards) := entry in
  let response :=
    if eqb (user_language self) bg
    then response ++ Fore_MAGENTA ++ lit "📱 " ++ brand ++ lit " карти:"
         ++ RESET_ALL ++ nl
    else response ++ Fore_MAGENTA ++ lit "📱 " ++ brand ++ lit " cards:"
         ++ RESET_ALL ++ nl in
  fold_left (show_card self) cards response.

Definition _show_all_credit_cards (self : t) : str :=
  rcatch
    (let credit_cards := credit_cards (knowledge_base self) in
     let response :=
       if eqb (user_language self) bg
       then Fore_BLUE ++ lit "💳 Всички налични кредитни карти от Fibank:"
            ++ RESET_ALL ++ nl ++ nl
       else Fore_BLUE ++ lit "💳 All available credit cards from Fibank:"
            ++ RESET_ALL ++ nl ++ nl in
     let response := fold_left (show_brand self) credit_cards response in
     if eqb (user_language self) bg
     then Ok (response ++ Fore_YELLOW
              ++ lit "За повече детайли за конкретна карта, просто я споменете по име."
              ++ RESET_ALL)
     else Ok (response ++ Fore_YELLOW
              ++ lit "For more details about a specific card, just mention it by name."
              ++ RESET_ALL))
    (fun _ => _generate_error_response self).

Definition _show_loan_category (self : t) (category_name : str) : str :=
  rcatch
    (let loans := dict_get_default category_name [] (credits (knowledge_base self)) in
     let (header, link_label) :=
       if eqb (user_language self) bg
       then (lit "Продукти от категория " ++ dq ++ category_name ++ dq,
             lit "За повече информация посетете")
       else (lit "Products from category " ++ dq ++ category_name ++ dq,
             lit "For more information visit") in
     Ok (RenderingService.render_product_list E header loans
           (fun info => Ok (RenderingService.get_loan_summary info))
           link_label (user_language self)))
    (fun _ => _generate_error_response self).

Definition _show_all_loan_categories (self : t) : str :=
  rcatch
    (let credits := credits (knowledge_base self) in
     let response :=
       RenderingService.render_category_overview credits (user_language self) in
     if eqb (user_language self) bg
     then Ok (response ++ Fore_YELLOW ++ loan_hint_bg ++ RESET_ALL)
     else Ok (response ++ Fore_YELLOW ++ loan_hint_en ++ RESET_ALL))
    (fun _ => _generate_error_response self).

Definition handle_credit_card_inquiry (self : t) (user_input : str) : str :=
  rcatch
    (let user_input_lower := lower E user_input in
     let visa_keywords := dict_get_default (lit "visa") [] (keywords self) in
     let mastercard_keywords :=
       dict_get_default (lit "mastercard") [] (keywords self) in
     match find (fun entry => mentioned user_input_lower (snd entry))
             visa_keywords with
     | Some (card_type, _) =>
         Ok (_show_specific_card self (lit "Visa")
               (lit "Visa " ++ title E card_type))
     | None =>
         match find (fun entry => mentioned user_input_lower (snd entry))
                 mastercard_keywords with
         | Some (card_type, _) =>
             if eqb card_type (lit "first_lady")
             then Ok (_show_specific_card self (lit "Mastercard")
                        (lit "Mastercard Platinum First Lady"))
             else Ok (_show_specific_card self (lit "Mastercard")
                        (lit "Mastercard " ++ title E card_type))
         | None =>
             let brand_keywords :=
               dict_get_default (lit "brands") [] (keywords self) in
             let visa_mentioned :=
               mentioned user_input_lower
                 (dict_get_default (lit "visa") [] brand_keywords) in
             let mastercard_mentioned :=
               mentioned user_input_lower
                 (dict_get_default (lit "mastercard") [] brand_keywords) in
             if visa_mentioned && negb mastercard_mentioned
             then Ok (_show_brand_cards self (lit "Visa"))
             else if mastercard_mentioned && negb visa_mentioned
             then Ok (_show_brand_cards self (lit "Mastercard"))
             else Ok (_show_all_credit_cards self)
         end
     end)
    (fun _ => _generate_error_response self).

Definition handle_loan_inquiry (self : t) (user_input : str) : str :=
  rcatch
    (let user_input_lower := lower E user_input in
     let loan_keywords := dict_get_default (lit "loans") [] (keywords self) in
     let mentioned_types :=
       map fst
         (filter (fun entry => mentioned user_input_lower (snd entry))
            loan_keywords) in
     match mentioned_types with
     | [loan_type] =>
         match dict_get loan_type category_mapping with
         | Some category =>
             if nonempty category then Ok (_show_loan_category self category)
             else Ok (_show_all_loan_categories self)
         | None => Ok (_show_all_loan_categories self)
         end
     | _ => Ok (_show_all_loan_categories self)
     end)
    (fun _ => _generate_error_response self).

(** [for i, (_, product, score) in enumerate(relevant_products[:3], 1)]. *)
Fixpoint fallback_items (i : nat) (response : str)
    (relevant_products : list (str * Product * Q)) : result str :=
  match relevant_products with
  | [] => Ok response
  | (_, product, _) :: r =>
      let response :=
        response ++ of_nat i ++ lit ". **" ++ name product ++ lit "**" ++ nl in
      rbind
        (if truthy (description product) then
           match description product with
           | VStr d =>
               let desc := firstn 200 d in
               let desc :=
                 if 200 <? List.length d then desc ++ lit "..." else desc in
               Ok (response ++ lit "   " ++ desc ++ nl ++ nl)
           | VList l =>
               let desc := firstn 200 l in
               let desc :=
                 if 200 <? List.length l
                 then desc ++ [VStr (lit "."); VStr (lit "."); VStr (lit ".")]
                 else desc in
               Ok (response ++ lit "   " ++ fstr E (VList desc) ++ nl ++ nl)
           | _ => Raise TypeError
           end
         else Ok response)
        (fun response => fallback_items (S i) response r)
  end.

Definition _generate_semantic_fallback_response (user_input : str) : M t str :=
  try_except
    (relevant_products <-
       on_semantic_service
         (SemanticService.find_similar_products E user_input 5 (3 # 10)%Q) ;;
     self <- get ;;
     match relevant_products with
     | [] =>
         if eqb (user_language self) bg
         then ret (Fore_YELLOW
                   ++ lit "Съжалявам, не намерих релевантна информация за вашия въпрос. "
                   ++ lit "Можете да попитате за кредитни карти или кредити."
                   ++ RESET_ALL)
         else ret (Fore_YELLOW
                   ++ lit "Sorry, I couldn't find relevant information for your question. "
                   ++ lit "You can ask about credit cards or loans." ++ RESET_ALL)
     | _ =>
         let response :=
           if eqb (user_language self) bg
           then Fore_BLUE
                ++ lit "Въз основа на вашия въпрос, ето някои продукти, които биха могли да ви интересуват:"
                ++ RESET_ALL ++ nl ++ nl
           else Fore_BLUE
                ++ lit "Based on your question, here are some products that might interest you:"
                ++ RESET_ALL ++ nl ++ nl in
         response <- lift (fallback_items 1 response (firstn 3 relevant_products)) ;;
         if eqb (user_language self) bg
         then ret (response ++ Fore_YELLOW
                   ++ lit "Искате ли да научите повече за някой от тези продукти?"
                   ++ RESET_ALL)
         else ret (response ++ Fore_YELLOW
                   ++ lit "Would you like to learn more about any of these products?"
                   ++ RESET_ALL)
     end)%py
    (fun _ => self <- get ;; ret (_generate_error_response self))%py.

Definition _generate_ai_or_fallback_response (user_input intent : str)
    (confidence : Q) : M t str :=
  try_except
    (self <- get ;;
     ai_response <-
       (if GeminiService.is_available (gemini_service self) then
          relevant_products <-
            on_semantic_service
              (SemanticService.find_similar_products E user_input 3 (3 # 10)%Q) ;;
          self <- get ;;
          let recent_context :=
            ConversationContext.get_recent_context (context self) 3 in
          prompt <-
            lift (GeminiService.create_structured_prompt E user_input
                    (user_language self) relevant_products recent_context) ;;
          ret (GeminiService.generate_response E (gemini_service self) prompt 2)
        else ret None) ;;
     match ai_response with
     | Some text =>
         if nonempty text then ret text
         else _generate_semantic_fallback_response user_input
     | None => _generate_semantic_fallback_response user_input
     end)%py
    (fun _ => _generate_semantic_fallback_response user_input).

(** The body of the [try] of [generate_response]; [now] is
    [datetime.now().isoformat()] as read during the turn. *)
Definition generate_response_body (now user_input : str) : M t str :=
  (if blank user_input then ret enter_question_prompt
   else
     language <- lift (I18n.detect_language E user_input) ;;
     modify (with_context (ConversationContext.set_user_language language)) ;;;
     self <- get ;;
     let (intent, confidence) := find_intent self user_input in
     modify (with_context (ConversationContext.append_history
               {| user := user_input;
                  timestamp := now;
                  language := user_language self;
                  intent := intent;
                  confidence := confidence |})) ;;;
     response <-
       (if eqb intent (lit "credit_cards") then
          self <- get ;; ret (handle_credit_card_inquiry self user_input)
        else if eqb intent (lit "loans") then
          self <- get ;; ret (handle_loan_inquiry self user_input)
        else _generate_ai_or_fallback_response user_input intent confidence) ;;
     self <- get ;;
     ret (response ++ contact_footer (user_language self)))%py.

Definition generate_response (now user_input : str) : M t str :=
  try_except (generate_response_body now user_input)
    (fun _ => self <- get ;; ret (_generate_error_response self))%py.

(** What the console delivers to [input]: a line, with the clock reading
    of the turn it starts, the end of the input, or an interrupt. *)
Inductive console : Type :=
| Line (text now : str)
| EOFError
| KeyboardInterrupt.

(** [print(text)], and [print(text, end="")]. *)
Definition print (out text : str) : str := out ++ text ++ nl.
Definition print_end (out text : str) : str := out ++ text.

Definition exit_commands : list str :=
  Eval vm_compute in
    [lit "quit"; lit "exit"; lit "bye"; lit "довиждане"; lit "чао"; lit "изход"].

Definition welcome_banner : str :=
  let out := [] in
  let out :=
    print out (nl ++ Back_BLUE ++ Fore_WHITE
               ++ lit " FIBANK ВИРТУАЛЕН АСИСТЕНТ (МОДУЛНА ВЕРСИЯ) " ++ RESET_ALL) in
  let out :=
    print out (Fore_CYAN ++ lit "Добре дошли във виртуелния асистент на Fibank!") in
  let out :=
    print out (lit "Мога да ви помогна с информация за нашите кредитни карти и кредити.") in
  let out :=
    print out (lit "Можете да задавате въпроси на български или английски език.") in
  let out :=
    print out (lit "Напишете 'help' или 'помощ' за насоки, 'quit', 'exit' или 'довиждане' за край."
               ++ nl ++ RESET_ALL) in
  print out (Fore_YELLOW
             ++ lit "[TIP] Опитайте: 'Какви кредитни карти предлагате?' или 'Разкажете ми за кредитите'"
             ++ RESET_ALL ++ nl).

(** [while True]: the text written so far, the chatbot, and whether the
    loop has been left; with no event left the loop waits in [input].
    [exn_text] is the text of an exception in an f-string. *)
Fixpoint conversation_loop (exn_text : exn -> str) (events : list console)
    (out : str) (self : t) : str * t * bool :=
  let out := print_end out (Fore_GREEN ++ lit "You: " ++ RESET_ALL) in
  match events with
  | [] => (out, self, false)
  | EOFError :: _ =>
      (print out (nl ++ nl ++ Fore_BLUE ++ lit "[BOT] Довиждане! 🌟" ++ RESET_ALL),
       self, true)
  | KeyboardInterrupt :: _ =>
      (print out (nl ++ nl ++ Fore_BLUE ++ lit "[BOT] Довиждане! 🌟" ++ RESET_ALL),
       self, true)
  | Line text now :: rest =>
      let user_input := strip text in
      if existsb (eqb (lower E user_input)) exit_commands then
        let out :=
          print_end out
            (nl ++ Fore_BLUE ++ lit "[BOT] Fibank Assistant: " ++ RESET_ALL) in
        if eqb (user_language self) bg
        then (print out (lit "Довиждане! Благодарим ви, че избрахте Fibank! 🌟"),
              self, true)
        else (print out (lit "Goodbye! Thank you for choosing Fibank! 🌟"),
              self, true)
      else if negb (nonempty user_input) then
        conversation_loop exn_text rest out self
      else
        match generate_response now user_input self with
        | (Ok response, self) =>
            let out :=
              print out (nl ++ Fore_BLUE ++ lit "[BOT] Fibank Assistant:" ++ RESET_ALL) in
            let out := print out response in
            let out := print out (nl ++ repeat 45%N 60) in
            conversation_loop exn_text rest out self
        | (Raise e, self) =>
            let out :=
              print out (nl ++ Fore_RED ++ lit "❌ An error occurred: "
                         ++ exn_text e ++ RESET_ALL) in
            conversation_loop exn_text rest out self
        end
  end.

Definition start_conversation (exn_text : exn -> str) (events : list console)
    (self : t) : str * t * bool :=
  conversation_loop exn_text events welcome_banner self.

End Bot.

End FibankChatbot.

(** ** Concrete collaborators and objects for the examples *)

Module Demo.

(** Lowercasing restricted to Basic Latin and Cyrillic capitals. *)
Definition lower_cp (c : N) : N :=
  if ((65 <=? c) && (c <=? 90))%N then (c + 32)%N
  else if ((1040 <=? c) && (c <=? 1071))%N then (c + 32)%N
  else if ((1024 <=? c) && (c <=? 1039))%N then (c + 80)%N
  else c.

(** A detector that answers Russian for a text with one of the letters
    that Russian has and Bulgarian has not, fails with an error of its own
    on the text [boom], and answers English otherwise. *)
Definition detector (text : str) : result str :=
  if eqb text (lit "boom") then Raise (RuntimeError 1)
  else if existsb (fun c => cp_in c (lit "ыэё")) text then Ok (lit "ru")
  else Ok en.

(** One-dimensional embeddings: the length of the text. *)
Definition encoder (texts : list str) : result (list vec) :=
  Ok (map (fun text => [inject_Z (Z.of_nat (List.length text))]) texts).

Definition similarity (q v : vec) : Q :=
  match q, v with
  | a :: _, b :: _ => if Qeq_bool a b then 1%Q else (1 # 4)%Q
  | _, _ => 0%Q
  end.

(** Patterns are matched as plain substrings; no generative model. *)
Definition collaborators : Collaborators :=
  {| lower := map lower_cp;
     title := fun s => s;
     format := fun _ => lit "?";
     detect := detector;
     search := contains;
     SentenceTransformer := fun _ => Ok tt;
     encode := encoder;
     cosine_similarity := similarity;
     generate_content := fun _ _ => Raise (RuntimeError 2) |}.

Definition product (product_name : str) : Product :=
  {| name := product_name; type := lit "credit"; category := lit "loans";
     description := VStr []; raw_data := [] |}.

(** Three products whose texts have the same length. *)
Definition kb : KnowledgeBase :=
  {| products :=
       [(lit "A", product (lit "A")); (lit "B", product (lit "B"));
        (lit "C", product (lit "C"))];
     credit_cards := [];
     credits := [] |}.

Definition service : SemanticService.t :=
  {| SemanticService.model_name := lit "paraphrase-multilingual-MiniLM-L12-v2";
     SemanticService._model := false;
     SemanticService._embeddings := None;
     SemanticService._product_texts := [];
     SemanticService._product_keys := [];
     SemanticService._knowledge_base := Some kb |}.

Definition patterns : dict (list str) :=
  [(lit "credit_cards", [lit "card"; lit "карта"]);
   (lit "loans", [lit "loan"; lit "кредит"]);
   (lit "rates", [lit "rate"; lit "price"])].

Definition bot (language : str) : FibankChatbot.t :=
  {| FibankChatbot.context :=
       ConversationContext.set_user_language language
         ConversationContext.__init__;
     FibankChatbot.gemini_service :=
       {| GeminiService.model_name := lit "gemini-1.5-flash";
          GeminiService.model := false;
          GeminiService.is_available := false |};
     FibankChatbot.semantic_service := service;
     FibankChatbot.knowledge_base := kb;
     FibankChatbot.intent_patterns := patterns;
     FibankChatbot.keywords := [] |}.

Definition now : str := lit "2024-01-01T00:00:00".

End Demo.

(** ** Further sample objects *)

Module Samples.

Definition record (text : str) : HistoryRecord :=
  {| user := text; timestamp := Demo.now; language := en;
     intent := lit "general"; confidence := 0%Q |}.

(** A context with four turns behind it. *)
Definition context : ConversationContext.t :=
  fold_left
    (fun self text => ConversationContext.append_history (record text) self)
    [lit "a"; lit "b"; lit "c"; lit "d"] ConversationContext.__init__.

(** Two cards of one brand. *)
Definition classic : attrs :=
  [(key_info, VStr (lit "Лимит: 1000 лв; Годишна такса: 20 лв"))].

Definition gold : attrs :=
  [(key_info, VStr (lit "Лимит: 5000 лв; Cashback: 1%; Годишна такса: 50 лв; Застраховка"));
   (key_link, VStr (lit "https://www.fibank.bg"))].

Definition cards : dict attrs :=
  [(lit "Visa Classic", classic); (lit "Visa Gold", gold)].

(** A catalog whose second product has a feature that is not a string. *)
Definition broken : Product :=
  {| name := lit "B"; type := lit "credit"; category := lit "loans";
     description := VStr [];
     raw_data := [(lit "features", VList [VStr (lit "fast"); VNum 3])] |}.

Definition kb : KnowledgeBase :=
  {| products :=
       [(lit "A", Demo.product (lit "A")); (lit "B", broken);
        (lit "C", Demo.product (lit "C"))];
     credit_cards := [];
     credits := [] |}.

(** Collaborators whose sentence-transformer model cannot be constructed. *)
Definition offline : Collaborators :=
  {| lower := lower Demo.collaborators;
     title := title Demo.collaborators;
     format := format Demo.collaborators;
     detect := detect Demo.collaborators;
     search := search Demo.collaborators;
     SentenceTransformer := fun _ => Raise (RuntimeError 3);
     encode := encode Demo.collaborators;
     cosine_similarity := cosine_similarity Demo.collaborators;
     generate_content := generate_content Demo.collaborators |}.

(** A generative model that fails once, answers blank once, then answers. *)
Definition talkative : Collaborators :=
  {| lower := lower Demo.collaborators;
     title := title Demo.collaborators;
     format := format Demo.collaborators;
     detect := detect Demo.collaborators;
     search := search Demo.collaborators;
     SentenceTransformer := SentenceTransformer Demo.collaborators;
     encode := encode Demo.collaborators;
     cosine_similarity := cosine_similarity Demo.collaborators;
     generate_content :=
       fun attempt _ =>
         match attempt with
         | 0 => Raise (RuntimeError 4)
         | 1 => Ok []
         | _ => Ok (lit " Visa Gold has no annual fee. ")
         end |}.

Definition gemini : GeminiService.t :=
  {| GeminiService.model_name := lit "gemini-1.5-flash";
     GeminiService.model := true;
     GeminiService.is_available := true |}.

(** A chatbot with keywords of the default configuration. *)
Definition banker : FibankChatbot.t :=
  {| FibankChatbot.context := ConversationContext.__init__;
     FibankChatbot.gemini_service := FibankChatbot.gemini_service (Demo.bot en);
     FibankChatbot.semantic_service := Demo.service;
     FibankChatbot.knowledge_base := Demo.kb;
     FibankChatbot.intent_patterns := Demo.patterns;
     FibankChatbot.keywords :=
       [(lit "visa",
         [(lit "classic", [lit "visa classic"; lit "виза класик"]);
          (lit "gold", [lit "visa gold"; lit "виза голд"; lit "златна виза"])]);
        (lit "mastercard",
         [(lit "gold", [lit "mastercard gold"; lit "мастеркард златна"]);
          (lit "first_lady", [lit "first lady"; lit "за дами"])]);
        (lit "loans",
         [(lit "housing", [lit "жилищен"; lit "ипотечен"; lit "ипотека"; lit "mortgage"]);
          (lit "consumer", [lit "потребителски"; lit "consumer"; lit "personal loan"]);
          (lit "overdraft", [lit "овърдрафт"; lit "overdraft"])])] |}.

End Samples.

(** ** Notions the statements use *)

(** A Cyrillic letter, in the words of the specification: a letter of the
    Unicode Cyrillic block, U+0400 to U+04FF without the signs U+0482 to
    U+0489. *)
Definition cyrillic_letter (c : N) : bool :=
  ((1024 <=? c) && (c <=? 1153) || (1162 <=? c) && (c <=? 1279))%N.

(** The loan summary in the words of the specification: the first two
    lines of the description that are not empty and do not start with the
    bullet marker, joined by newlines; the lines are read stripped, as the
    code reads them. *)
Definition summary_line (line : str) : bool :=
  nonempty line && negb (startswith (lit "-") line).

Definition loan_summary_as_claimed (loan_info : attrs) : str :=
  match dict_get key_info loan_info with
  | Some (VStr s) => join nl (firstn 2 (filter summary_line (map strip (split nl s))))
  | _ => []
  end.

(** The catalog in the words of the specification: a sequence of writes,
    the cards document before the loans document, each write keyed by the
    product name without the quote characters U+0022 and U+201E; the last
    write of a key is the one that is found. *)
Definition strip_quotes (product_name : str) : str :=
  filter (fun c => negb (c =? 34)%N && negb (c =? 8222)%N) product_name.

Definition product_of (kind category product_name : str) (info : attrs) : Product :=
  {| name := product_name;
     type := kind;
     category := category;
     description :=
       match dict_get key_info info with
       | Some v => v
       | None => VStr []
       end;
     raw_data := info |}.

Definition writes_of (kind : str) (data : dataset) : list (str * Product) :=
  flat_map
    (fun entry : str * dict attrs =>
       map (fun item : str * attrs =>
              (strip_quotes (fst item),
               product_of kind (fst entry) (fst item) (snd item)))
         (snd entry))
    data.

Definition catalog_writes (cards loans : dataset) : list (str * Product) :=
  writes_of (lit "credit_card") cards ++ writes_of (lit "credit") loans.

Definition last_write_from (key : str) (writes : list (str * Product))
    (found : option Product) : option Product :=
  fold_left
    (fun found (w : str * Product) =>
       if eqb key (fst w) then Some (snd w) else found)
    writes found.

Definition last_write (key : str) (writes : list (str * Product)) : option Product :=
  last_write_from key writes None.

(** The calls a client can make on the semantic service, and the object
    after a sequence of them. *)
Inductive call : Type :=
| SetKnowledgeBase (knowledge_base : KnowledgeBase)
| BuildEmbeddings
| FindSimilarProducts (query : str) (top_k : Z) (threshold : Q).

Definition run_call (E : Collaborators) (c : call) (self : SemanticService.t)
  : SemanticService.t :=
  match c with
  | SetKnowledgeBase knowledge_base =>
      snd (SemanticService.set_knowledge_base knowledge_base self)
  | BuildEmbeddings => snd (SemanticService.build_embeddings E self)
  | FindSimilarProducts query top_k threshold =>
      snd (SemanticService.find_similar_products E query top_k threshold self)
  end.

Definition run_calls (E : Collaborators) (calls : list call)
    (self : SemanticService.t) : SemanticService.t :=
  fold_left (fun self c => run_call E c self) calls self.

(** The parallel arrays of the index have one length. *)
Definition aligned (self : SemanticService.t) : Prop :=
  List.length (SemanticService._product_keys self)
  = List.length (SemanticService._product_texts self)
  /\ forall embeddings,
       SemanticService._embeddings self = Some embeddings ->
       List.length embeddings = List.length (SemanticService._product_keys self).

(** The value [similarities[i]]. *)
Definition value_at (similarities : list Q) (i : nat) : Q :=
  nth i similarities 0%Q.

(** One write of the catalog build. *)
Definition write (combined : dict Product) (w : str * Product) : dict Product :=
  dict_set (fst w) (snd w) combined.

(** What a turn may change in the semantic service: everything but the
    model name and the knowledge base it was given. *)
Definition service_frame (a b : SemanticService.t) : Prop :=
  SemanticService.model_name b = SemanticService.model_name a
  /\ SemanticService._knowledge_base b = SemanticService._knowledge_base a.

(** A chatbot that differs from [self] in the cache of its semantic
    service only. *)
Definition service_step (self self' : FibankChatbot.t) : Prop :=
  exists s,
    self' = FibankChatbot.with_semantic_service s self
    /\ service_frame (FibankChatbot.semantic_service self) s.

(** The chatbot after the language and the history record of a turn have
    been written. *)
Definition recorded (now user_input language intent : str) (confidence : Q)
    (self : FibankChatbot.t) : FibankChatbot.t :=
  FibankChatbot.with_context
    (ConversationContext.append_history
       {| user := user_input; timestamp := now; language := language;
          intent := intent; confidence := confidence |})
    (FibankChatbot.with_context
       (ConversationContext.set_user_language language) self).


(** An extractor that fails on an item counts as one without a summary. *)
Definition guarded (summary_fn : attrs -> result str) (info : attrs)
  : result str :=
  Ok (rcatch (summary_fn info) (fun _ => [])).

(** The part of a catalog that [_prepare_product_texts] gets into the
    index: the keys and texts of the products before the first one whose
    text cannot be built. *)
Fixpoint prepared (E : Collaborators) (items : dict Product)
  : list (str * str) :=
  match items with
  | [] => []
  | (key, product) :: r =>
      match SemanticService.product_text E product with
      | Ok text => (key, text) :: prepared E r
      | Raise _ => []
      end
  end.

(** A call that is not [set_knowledge_base]. *)
Definition is_query (c : call) : Prop :=
  match c with
  | SetKnowledgeBase _ => False
  | _ => True
  end.

(** The index holds the prepared part of the catalog [kb]. *)
Definition indexes (E : Collaborators) (kb : KnowledgeBase) (self : SemanticService.t) : Prop :=
  SemanticService._knowledge_base self = Some kb
  /\ SemanticService._product_keys self = map fst (prepared E (products kb))
  /\ SemanticService._product_texts self = map snd (prepared E (products kb)).

(** An attempt of the generative model that gives nothing to return: it
    raises, or its text is empty. *)
Definition unanswered (E : Collaborators) (prompt : str) (attempt : nat)
  : Prop :=
  forall raw, generate_content E attempt prompt = Ok raw -> raw = [].


(** An event at which the conversation loop is left: the end of the
    input, an interrupt, or a line that is an exit command once stripped
    and lowercased. *)
Definition stops (E : Collaborators) (ev : FibankChatbot.console) : bool :=
  match ev with
  | FibankChatbot.Line text _ =>
      existsb (eqb (lower E (strip text))) FibankChatbot.exit_commands
  | _ => true
  end.

(** The turns of a session: the stripped lines that are not empty, with
    their clock readings, up to the first event that stops the loop. *)
Fixpoint turns (E : Collaborators) (events : list FibankChatbot.console)
  : list (str * str) :=
  match events with
  | [] => []
  | ev :: rest =>
      if stops E ev then []
      else
        match ev with
        | FibankChatbot.Line text now =>
            if nonempty (strip text) then (strip text, now) :: turns E rest
            else turns E rest
        | _ => []
        end
  end.


(** * Properties *)

(** ** Strings and dictionaries *)

Example split_on_semicolons :
  split (lit ";") (lit "a;b;;c") = [lit "a"; lit "b"; []; lit "c"].
Proof. reflexivity. Qed.

Example split_empty_string : split nl [] = [[]].
Proof. reflexivity. Qed.

Example split_on_section_delimiter :
  split sep_section (lit "x" ++ sep_section ++ lit "y" ++ sep_section ++ lit "z")
  = [lit "x"; lit "y"; lit "z"].
Proof. reflexivity. Qed.

Example strip_both_ends : strip (lit "  a b " ++ nl) = lit "a b".
Proof. reflexivity. Qed.

Example slice_negative_stop :
  SemanticService.slice_to (-1) [1; 2; 3] = [1; 2].
Proof. reflexivity. Qed.

Example argsort_ascending :
  SemanticService.argsort [(1 # 2)%Q; (1 # 4)%Q; 1%Q; (1 # 4)%Q] = [1; 3; 0; 2].
Proof. reflexivity. Qed.

Example length_as_text : of_nat 119 = lit "119".
Proof. reflexivity. Qed.

Lemma eqb_eq (a b : str) : eqb a b = true <-> a = b.
Proof.
  revert b. induction a as [|x a IH]; intros [|y b]; simpl;
    try (split; [discriminate | discriminate]); try tauto.
  rewrite Bool.andb_true_iff, N.eqb_eq, IH.
  split; [intros [-> ->]; reflexivity | intros H; inversion H; auto].
Qed.

Lemma eqb_refl (a : str) : eqb a a = true.
Proof. apply eqb_eq; reflexivity. Qed.

Lemma eqb_neq (a b : str) : eqb a b = false <-> a <> b.
Proof.
  split.
  - intros H Heq. apply eqb_eq in Heq. congruence.
  - intros H. destruct (eqb a b) eqn:Heq; [apply eqb_eq in Heq; tauto | reflexivity].
Qed.

Lemma Qltb_lt (a b : Q) : Qltb a b = true <-> (a < b)%Q.
Proof.
  unfold Qltb. rewrite Bool.negb_true_iff.
  split.
  - intros H. apply Qnot_le_lt. intros Hle.
    apply Qle_bool_iff in Hle. congruence.
  - intros H. destruct (Qle_bool b a) eqn:Hle; [|reflexivity].
    apply Qle_bool_iff in Hle. exfalso. exact (Qlt_not_le _ _ H Hle).
Qed.

(** ** Language detection *)

Section DetectLanguage.

Variable E : Collaborators.

(** C4, as the code has it: a text that is not blank and whose lowercased
    form contains one of the thirty letters of [bulgarian_chars] is
    Bulgarian, whatever the keyword list and the statistical detector
    would say. *)
Theorem detect_language_bulgarian_chars (text : str) :
  blank text = false ->
  existsb (fun char => cp_in char I18n.bulgarian_chars) (lower E text) = true ->
  I18n.detect_language E text = Ok bg.
Proof.
  intros Hblank Hchar. unfold I18n.detect_language.
  rewrite Hblank, Hchar. reflexivity.
Qed.

End DetectLanguage.

Lemma detect_language_bulgarian_chars_witness :
  I18n.detect_language Demo.collaborators (lit "Карта") = Ok bg.
Proof.
  apply detect_language_bulgarian_chars; vm_compute; reflexivity.
Defined.

(** C4, as stated, fails: the letter U+044B is Cyrillic and is not in
    [bulgarian_chars]; the text falls through to the detector, whose answer
    [ru] is turned into [en]. *)
Lemma detect_language_cyrillic_counterexample :
  existsb cyrillic_letter (lit "ы") = true
  /\ I18n.detect_language Demo.collaborators (lit "ы") = Ok en
  /\ I18n.detect_language Demo.collaborators (lit "ы") <> Ok bg.
Proof.
  split; [vm_compute; reflexivity|].
  split; [vm_compute; reflexivity|].
  vm_compute. discriminate.
Qed.

(** ** Intent classification *)

Section FindIntent.

Variable E : Collaborators.

Lemma match_patterns_no_match text_lower intent patterns best :
  (forall pattern, In pattern patterns -> search E pattern text_lower = false) ->
  FibankChatbot.match_patterns E text_lower intent patterns best = best.
Proof.
  induction patterns as [|p r IH]; intros Hno; simpl; [reflexivity|].
  rewrite (Hno p) by (left; reflexivity).
  apply IH. intros q Hq. apply Hno. right. exact Hq.
Qed.

Lemma match_patterns_first_match text_lower intent patterns best :
  (exists pattern, In pattern patterns /\ search E pattern text_lower = true) ->
  Qltb (snd best) (8 # 10)%Q = true ->
  FibankChatbot.match_patterns E text_lower intent patterns best
  = (intent, (8 # 10)%Q).
Proof.
  intros Hex Hlow. induction patterns as [|p r IH]; simpl.
  - destruct Hex as [q [[] _]].
  - destruct (search E p text_lower) eqn:Hp.
    + rewrite Hlow. reflexivity.
    + apply IH. destruct Hex as [q [[Hq | Hq] Hs]].
      * subst q. congruence.
      * exists q. split; assumption.
Qed.

(** Once a category has matched, no later pattern can replace it: its
    score would have to be strictly greater than 0.8. *)
Lemma match_patterns_kept text_lower intent patterns best_intent :
  FibankChatbot.match_patterns E text_lower intent patterns
    (best_intent, (8 # 10)%Q)
  = (best_intent, (8 # 10)%Q).
Proof.
  induction patterns as [|p r IH]; simpl; [reflexivity|].
  destruct (search E p text_lower); [|exact IH].
  replace (Qltb (8 # 10) (8 # 10)) with false by reflexivity. exact IH.
Qed.

Lemma classify_fold_no_match text_lower (config : dict (list str)) best :
  (forall intent patterns pattern,
      In (intent, patterns) config -> In pattern patterns ->
      search E pattern text_lower = false) ->
  fold_left
    (fun best (entry : str * list str) =>
       let (intent, patterns) := entry in
       FibankChatbot.match_patterns E text_lower intent patterns best)
    config best = best.
Proof.
  revert best. induction config as [|[i ps] r IH]; intros best Hno; simpl;
    [reflexivity|].
  rewrite match_patterns_no_match.
  - apply IH. intros i' ps' p Hin Hp.
    apply (Hno i' ps' p); [right; exact Hin | exact Hp].
  - intros p Hp. apply (Hno i ps p); [left; reflexivity | exact Hp].
Qed.

Lemma classify_fold_kept text_lower (config : dict (list str)) best_intent :
  fold_left
    (fun best (entry : str * list str) =>
       let (intent, patterns) := entry in
       FibankChatbot.match_patterns E text_lower intent patterns best)
    config (best_intent, (8 # 10)%Q)
  = (best_intent, (8 # 10)%Q).
Proof.
  induction config as [|[i ps] r IH]; simpl; [reflexivity|].
  rewrite match_patterns_kept. exact IH.
Qed.

(** C3: with no matching pattern the classifier answers [general] with
    confidence 0.0; otherwise it answers the first category, in the
    iteration order of the configuration, that has a matching pattern,
    with confidence 0.8. *)
Theorem find_intent_first_matching_category (self : FibankChatbot.t) (text : str) :
  ((forall intent patterns pattern,
       In (intent, patterns) (FibankChatbot.intent_patterns self) ->
       In pattern patterns ->
       search E pattern (lower E text) = false) ->
   FibankChatbot.find_intent E self text = (lit "general", 0%Q))
  /\
  (forall before intent patterns after,
      FibankChatbot.intent_patterns self = before ++ (intent, patterns) :: after ->
      (forall intent' patterns' pattern,
          In (intent', patterns') before -> In pattern patterns' ->
          search E pattern (lower E text) = false) ->
      (exists pattern,
          In pattern patterns /\ search E pattern (lower E text) = true) ->
      FibankChatbot.find_intent E self text = (intent, (8 # 10)%Q)).
Proof.
  unfold FibankChatbot.find_intent. split.
  - intros Hno. apply classify_fold_no_match. exact Hno.
  - intros before intent patterns after Hcfg Hbefore Hmatch.
    rewrite Hcfg, fold_left_app. simpl.
    rewrite (classify_fold_no_match _ _ _ Hbefore).
    rewrite match_patterns_first_match by (auto; reflexivity).
    apply classify_fold_kept.
Qed.

End FindIntent.

Lemma find_intent_first_matching_category_witness :
  FibankChatbot.find_intent Demo.collaborators (Demo.bot en) (lit "hello")
  = (lit "general", 0%Q)
  /\ FibankChatbot.find_intent Demo.collaborators (Demo.bot en)
       (lit "Loan rate") = (lit "loans", (8 # 10)%Q).
Proof.
  split.
  - apply (proj1 (find_intent_first_matching_category Demo.collaborators
                    (Demo.bot en) (lit "hello"))).
    intros intent patterns pattern Hin Hp. simpl in Hin.
    repeat (destruct Hin as [Hin | Hin]; [inversion Hin; subst; clear Hin|]);
      try contradiction;
      simpl in Hp;
      repeat (destruct Hp as [Hp | Hp]; [subst; vm_compute; reflexivity|]);
      contradiction.
  - apply (proj2 (find_intent_first_matching_category Demo.collaborators
                    (Demo.bot en) (lit "Loan rate"))
             [(lit "credit_cards", [lit "card"; lit "карта"])]
             (lit "loans") [lit "loan"; lit "кредит"]
             [(lit "rates", [lit "rate"; lit "price"])]).
    + reflexivity.
    + intros intent patterns pattern Hin Hp. simpl in Hin.
      destruct Hin as [Hin | []]. inversion Hin; subst; clear Hin.
      simpl in Hp.
      repeat (destruct Hp as [Hp | Hp]; [subst; vm_compute; reflexivity|]);
        contradiction.
    + exists (lit "loan"). split; [left; reflexivity | vm_compute; reflexivity].
Defined.

(** ** The loan summary *)

(** C7, as the code has it: the summary keeps, of the first two lines of
    the description, those that are neither empty once stripped nor start
    with a dash, and joins them with a newline and three spaces; a field
    that is absent, falsy or not a string gives the empty summary. *)
Theorem get_loan_summary_first_two_lines (loan_info : attrs) :
  RenderingService.get_loan_summary loan_info
  = match dict_get key_info loan_info with
    | Some (VStr s) =>
        join (nl ++ lit "   ")
          (filter summary_line (map strip (firstn 2 (split nl s))))
    | _ => []
    end.
Proof.
  unfold RenderingService.get_loan_summary, dict_get_default.
  destruct (dict_get key_info loan_info) as [v|]; [|reflexivity].
  destruct v as [|b|q|s|l|d]; simpl; try reflexivity.
  - destruct b; reflexivity.
  - destruct (Qeq_bool q 0); reflexivity.
  - destruct s; reflexivity.
  - destruct l; reflexivity.
  - destruct d; reflexivity.
Qed.

(** The summary never has more than two lines. *)
Lemma loan_summary_at_most_two_lines (s : str) :
  List.length (filter summary_line (map strip (firstn 2 (split nl s)))) <= 2.
Proof.
  eapply Nat.le_trans; [apply filter_length_le|].
  rewrite length_map. apply firstn_le_length.
Qed.

(** C7, as stated, fails: a blank second line is counted among the two
    lines that are read, so the third line never reaches the summary; and
    two kept lines are joined with a newline and three spaces. *)
Lemma get_loan_summary_counterexample :
  let report := [(key_info, VStr (lit "Title" ++ nl ++ nl ++ lit "Body"))] in
  let pair := [(key_info, VStr (lit "First" ++ nl ++ lit "Second"))] in
  RenderingService.get_loan_summary report = lit "Title"
  /\ loan_summary_as_claimed report = lit "Title" ++ nl ++ lit "Body"
  /\ RenderingService.get_loan_summary report <> loan_summary_as_claimed report
  /\ RenderingService.get_loan_summary pair
     = lit "First" ++ nl ++ lit "   Second"
  /\ RenderingService.get_loan_summary pair <> loan_summary_as_claimed pair.
Proof.
  repeat split; try (vm_compute; reflexivity); vm_compute; discriminate.
Qed.

(** ** The catalog build *)

Lemma dict_get_set {V} (key k : str) (v : V) (d : dict V) :
  dict_get key (dict_set k v d) = if eqb key k then Some v else dict_get key d.
Proof.
  induction d as [|[k' v'] r IH]; simpl.
  - destruct (eqb key k); reflexivity.
  - destruct (eqb k k') eqn:Hkk'; simpl.
    + apply eqb_eq in Hkk'. subst k'.
      destruct (eqb key k); reflexivity.
    + rewrite IH. destruct (eqb key k') eqn:Hk'; [|reflexivity].
      apply eqb_eq in Hk'. subst k'.
      destruct (eqb key k) eqn:Hk; [|reflexivity].
      apply eqb_eq in Hk. subst k. rewrite eqb_refl in Hkk'. discriminate.
Qed.

Lemma strip_quotes_replace (product_name : str) :
  remove_char 34 (remove_char 8222 (remove_char 34 product_name))
  = strip_quotes product_name.
Proof.
  unfold remove_char, strip_quotes.
  induction product_name as [|c r IH]; simpl; [reflexivity|].
  destruct (c =? 34)%N eqn:H34; simpl; [exact IH|].
  destruct (c =? 8222)%N eqn:H8222; simpl; [exact IH|].
  rewrite H34. simpl. rewrite IH. reflexivity.
Qed.

Lemma combine_entry_write kind category combined (item : str * attrs) :
  FibankChatbot.combine_entry kind category combined item
  = write combined
      (strip_quotes (fst item), product_of kind category (fst item) (snd item)).
Proof.
  destruct item as [n info]. unfold FibankChatbot.combine_entry, write.
  simpl. rewrite strip_quotes_replace. reflexivity.
Qed.

Lemma combine_dataset_writes kind (data : dataset) combined :
  FibankChatbot.combine_dataset kind combined data
  = fold_left write (writes_of kind data) combined.
Proof.
  unfold FibankChatbot.combine_dataset.
  revert combined. induction data as [|[category items] r IH]; intros combined;
    simpl; [reflexivity|].
  rewrite fold_left_app, IH. f_equal.
  clear IH. revert combined.
  induction items as [|item items IH]; intros combined; simpl; [reflexivity|].
  rewrite combine_entry_write. apply IH.
Qed.

Lemma fold_write_get key (writes : list (str * Product)) combined :
  dict_get key (fold_left write writes combined)
  = last_write_from key writes (dict_get key combined).
Proof.
  unfold last_write_from. revert combined.
  induction writes as [|w r IH]; intros combined; simpl; [reflexivity|].
  rewrite IH. unfold write. rewrite dict_get_set. reflexivity.
Qed.

Lemma last_write_from_written key (writes : list (str * Product)) found :
  (exists p, In (key, p) writes) ->
  exists p, In (key, p) writes /\ last_write_from key writes found = Some p.
Proof.
  unfold last_write_from. revert found.
  induction writes as [|[k p0] r IH] using rev_ind; intros found [p Hin].
  - destruct Hin.
  - rewrite fold_left_app. simpl.
    destruct (eqb key k) eqn:Hk.
    + apply eqb_eq in Hk. subst k. exists p0. split; [|reflexivity].
      apply in_or_app. right. left. reflexivity.
    + apply in_app_or in Hin. destruct Hin as [Hin | [Heq | []]].
      * destruct (IH found (ex_intro _ p Hin)) as [p' [Hin' Hp']].
        exists p'. split; [apply in_or_app; left; exact Hin' | exact Hp'].
      * inversion Heq. subst. rewrite eqb_refl in Hk. discriminate.
Qed.

Lemma writes_of_fields kind (data : dataset) key p :
  In (key, p) (writes_of kind data) ->
  key = strip_quotes (name p) /\ type p = kind
  /\ description p = dict_get_default key_info (VStr []) (raw_data p)
  /\ exists items, In (category p, items) data /\ In (name p, raw_data p) items.
Proof.
  unfold writes_of. intros Hin. apply in_flat_map in Hin.
  destruct Hin as [[category items] [Hdata Hin]]. simpl in Hin.
  apply in_map_iff in Hin. destruct Hin as [[n info] [Heq Hitem]].
  simpl in Heq. inversion Heq. subst. simpl.
  repeat split; try reflexivity.
  exists items. split; assumption.
Qed.

(** C8: a lookup in the built catalog finds the last write of its key,
    the writes being those of the cards document followed by those of the
    loans document; every source entry is found under its name without the
    quote characters; a stored product carries the name, the source kind,
    the category and the attributes of a source entry and, as description,
    the product-information attribute or the empty string; and a key that
    the loans document writes holds a product of kind [credit]. *)
Theorem combine_products_last_write_wins (cards loans : dataset) :
  let combined := FibankChatbot._combine_products cards loans in
  (forall key, dict_get key combined = last_write key (catalog_writes cards loans))
  /\ (forall key p, In (key, p) (catalog_writes cards loans) ->
        exists stored, dict_get key combined = Some stored)
  /\ (forall key p, dict_get key combined = Some p ->
        key = strip_quotes (name p)
        /\ description p = dict_get_default key_info (VStr []) (raw_data p)
        /\ ((type p = lit "credit_card"
             /\ exists items, In (category p, items) cards
                              /\ In (name p, raw_data p) items)
            \/ (type p = lit "credit"
                /\ exists items, In (category p, items) loans
                                 /\ In (name p, raw_data p) items)))
  /\ (forall key p, In (key, p) (writes_of (lit "credit") loans) ->
        exists stored, dict_get key combined = Some stored
                       /\ type stored = lit "credit").
Proof.
  assert (Hget : forall key,
             dict_get key (FibankChatbot._combine_products cards loans)
             = last_write key (catalog_writes cards loans)).
  { intros key. unfold FibankChatbot._combine_products.
    rewrite !combine_dataset_writes, <- fold_left_app, fold_write_get.
    reflexivity. }
  assert (Hin : forall key p,
             last_write key (catalog_writes cards loans) = Some p ->
             In (key, p) (catalog_writes cards loans)).
  { intros key p. unfold last_write, last_write_from.
    generalize (catalog_writes cards loans). intros ws.
    induction ws as [|[k p0] r IH] using rev_ind; [discriminate|].
    rewrite fold_left_app. simpl. destruct (eqb key k) eqn:Hk.
    - intros Heq. inversion Heq. subst. apply eqb_eq in Hk. subst.
      apply in_or_app. right. left. reflexivity.
    - intros Heq. apply in_or_app. left. apply IH. exact Heq. }
  simpl. split; [exact Hget|]. split; [|split].
  - intros key p Hp. rewrite Hget.
    destruct (last_write_from_written key (catalog_writes cards loans) None
                (ex_intro _ p Hp)) as [p' [_ Hp']].
    exists p'. exact Hp'.
  - intros key p Hp. rewrite Hget in Hp. apply Hin in Hp.
    unfold catalog_writes in Hp. apply in_app_or in Hp.
    destruct Hp as [Hp | Hp]; apply writes_of_fields in Hp;
      destruct Hp as [Hk [Ht [Hd Hsrc]]]; repeat split; auto.
  - intros key p Hp. rewrite Hget. unfold last_write, catalog_writes, last_write_from.
    rewrite fold_left_app.
    destruct (last_write_from_written key (writes_of (lit "credit") loans)
                (last_write_from key (writes_of (lit "credit_card") cards) None)
                (ex_intro _ p Hp)) as [p' [Hp' Hlast]].
    exists p'. split; [exact Hlast|].
    apply writes_of_fields in Hp'. tauto.
Qed.

(** ** Sorted lists *)

Section SortedLists.

Variable A : Type.

Lemma StronglySorted_snoc (R : A -> A -> Prop) (l : list A) (x : A) :
  StronglySorted R l -> Forall (fun y => R y x) l -> StronglySorted R (l ++ [x]).
Proof.
  induction l as [|a l IH]; intros Hs Hall; simpl.
  - constructor; constructor.
  - apply StronglySorted_inv in Hs. destruct Hs as [Hs Ha].
    inversion Hall; subst. constructor.
    + apply IH; assumption.
    + apply Forall_app. split; [exact Ha | constructor; [assumption | constructor]].
Qed.

Lemma StronglySorted_rev (R : A -> A -> Prop) (l : list A) :
  StronglySorted R l -> StronglySorted (fun a b => R b a) (rev l).
Proof.
  induction l as [|a l IH]; intros Hs; simpl; [constructor|].
  apply StronglySorted_inv in Hs. destruct Hs as [Hs Ha].
  apply StronglySorted_snoc; [apply IH; exact Hs|].
  apply Forall_rev. exact Ha.
Qed.

Lemma StronglySorted_firstn (R : A -> A -> Prop) (n : nat) (l : list A) :
  StronglySorted R l -> StronglySorted R (firstn n l).
Proof.
  revert l. induction n as [|n IH]; intros [|a l] Hs; simpl; try constructor.
  - apply IH. apply StronglySorted_inv in Hs. tauto.
  - apply StronglySorted_inv in Hs. destruct Hs as [_ Ha].
    rewrite Forall_forall in *. intros x Hx. apply Ha.
    rewrite <- (firstn_skipn n l). apply in_or_app. left. exact Hx.
Qed.

Lemma StronglySorted_filter (R : A -> A -> Prop) (f : A -> bool) (l : list A) :
  StronglySorted R l -> StronglySorted R (filter f l).
Proof.
  induction l as [|a l IH]; intros Hs; simpl; [constructor|].
  apply StronglySorted_inv in Hs. destruct Hs as [Hs Ha].
  destruct (f a); [|apply IH; exact Hs].
  constructor; [apply IH; exact Hs|].
  rewrite Forall_forall in *. intros x Hx. apply Ha.
  apply filter_In in Hx. tauto.
Qed.

End SortedLists.

Lemma StronglySorted_by_key {A A' B} (R : B -> B -> Prop) (f : A -> B)
    (g : A' -> B) (l : list A) :
  StronglySorted (fun a b => R (f a) (f b)) l ->
  forall l' : list A', map g l' = map f l ->
  StronglySorted (fun a b => R (g a) (g b)) l'.
Proof.
  induction 1 as [|a l Hs IH Ha]; intros [|a' l'] Hmap; simpl in Hmap;
    try discriminate; [constructor|].
  inversion Hmap as [[Hhd Htl]]. constructor; [apply IH; exact Htl|].
  rewrite Forall_forall in *. intros x Hx.
  apply (in_map g) in Hx. rewrite Htl in Hx.
  apply in_map_iff in Hx. destruct Hx as [y [Hy Hin]].
  rewrite Hhd, <- Hy. apply Ha. exact Hin.
Qed.

(** ** The semantic retriever *)

Lemma insert_index_Forall (P : nat -> Prop) similarities i sorted :
  P i -> Forall P sorted ->
  Forall P (SemanticService.insert_index similarities i sorted).
Proof.
  intros Hi. induction sorted as [|j r IH]; intros Hall; simpl.
  - constructor; [exact Hi | constructor].
  - inversion Hall; subst.
    destruct (Qle_bool (nth i similarities 0%Q) (nth j similarities 0%Q)).
    + constructor; assumption.
    + constructor; [assumption | apply IH; assumption].
Qed.

Lemma insert_index_sorted similarities i sorted :
  StronglySorted
    (fun a b => (value_at similarities a <= value_at similarities b)%Q) sorted ->
  StronglySorted
    (fun a b => (value_at similarities a <= value_at similarities b)%Q)
    (SemanticService.insert_index similarities i sorted).
Proof.
  induction sorted as [|j r IH]; intros Hs; simpl.
  - constructor; constructor.
  - apply StronglySorted_inv in Hs. destruct Hs as [Hs Hj].
    destruct (Qle_bool (nth i similarities 0%Q) (nth j similarities 0%Q)) eqn:Hle.
    + apply Qle_bool_iff in Hle.
      constructor; [constructor; assumption|].
      constructor; [exact Hle|].
      rewrite Forall_forall in *. intros x Hx.
      eapply Qle_trans; [exact Hle | apply Hj; exact Hx].
    + constructor; [apply IH; exact Hs|].
      apply insert_index_Forall; [|exact Hj].
      apply Qlt_le_weak. apply Qnot_le_lt. intros H.
      apply Qle_bool_iff in H. unfold value_at in H. congruence.
Qed.

(** [np.argsort] lists the indices in ascending order of their values. *)
Lemma argsort_sorted similarities :
  StronglySorted
    (fun a b => (value_at similarities a <= value_at similarities b)%Q)
    (SemanticService.argsort similarities).
Proof.
  unfold SemanticService.argsort.
  induction (seq 0 (List.length similarities)) as [|i r IH]; simpl.
  - constructor.
  - apply insert_index_sorted. exact IH.
Qed.

Lemma slice_to_length {A} (k : Z) (l : list A) :
  (0 <= k)%Z -> (Z.of_nat (List.length (SemanticService.slice_to k l)) <= k)%Z.
Proof.
  intros Hk. unfold SemanticService.slice_to.
  destruct (k <? 0)%Z eqn:Hneg; [apply Z.ltb_lt in Hneg; lia|].
  pose proof (firstn_le_length (Z.to_nat k) l). lia.
Qed.

Lemma slice_to_sorted {A} (R : A -> A -> Prop) (k : Z) (l : list A) :
  StronglySorted R l -> StronglySorted R (SemanticService.slice_to k l).
Proof.
  intros Hs. unfold SemanticService.slice_to.
  destruct (k <? 0)%Z; apply StronglySorted_firstn; exact Hs.
Qed.

(** What the selection loop returns: the scores are those of the indices
    whose similarity exceeds the threshold, in the order of the indices. *)
Lemma collect_scores self threshold similarities top_indices results :
  SemanticService.collect self threshold similarities top_indices = Ok results ->
  map snd results
  = map (value_at similarities)
      (filter (fun i => Qltb threshold (value_at similarities i)) top_indices).
Proof.
  revert results. induction top_indices as [|idx r IH]; intros results; simpl.
  - intros H. inversion H. reflexivity.
  - destruct (nth_error similarities idx) as [similarity|] eqn:Hnth;
      [|discriminate].
    assert (Hval : value_at similarities idx = similarity)
      by (unfold value_at; apply nth_error_nth; exact Hnth).
    rewrite Hval.
    destruct (Qltb threshold similarity); [|apply IH].
    destruct (nth_error (SemanticService._product_keys self) idx);
      [|discriminate].
    destruct (SemanticService._knowledge_base self) as [kb|]; [|discriminate].
    destruct (dict_get s (products kb)); [|discriminate].
    destruct (SemanticService.collect self threshold similarities r)
      as [rest|e]; simpl; [|discriminate].
    intros H. inversion H. simpl. rewrite Hval, (IH rest eq_refl). reflexivity.
Qed.

Section Retriever.

Variable E : Collaborators.

(** A query returns: every exception is turned into the empty result; and
    what it returns is empty or the outcome of the selection loop on the
    leading indices of the reversed ascending order. *)
Lemma find_similar_products_cases query top_k threshold self :
  exists results self',
    SemanticService.find_similar_products E query top_k threshold self
    = (Ok results, self')
    /\ (results = []
        \/ exists s similarities,
             SemanticService.collect s threshold similarities
               (SemanticService.slice_to top_k
                  (rev (SemanticService.argsort similarities)))
             = Ok results).
Proof.
  unfold SemanticService.find_similar_products, try_except, bind.
  destruct (SemanticService.build_embeddings E self) as [[embeddings|e] s1];
    [|do 2 eexists; split; [reflexivity | left; reflexivity]].
  destruct (SemanticService.size embeddings =? 0);
    [do 2 eexists; split; [reflexivity | left; reflexivity]|].
  destruct (SemanticService.model E s1) as [[[]|e] s2];
    [|do 2 eexists; split; [reflexivity | left; reflexivity]].
  unfold lift, get.
  destruct (encode E [query]) as [[|q r]|e];
    try (do 2 eexists; split; [reflexivity | left; reflexivity]).
  destruct (SemanticService.collect s2 threshold
              (map (cosine_similarity E q) embeddings)
              (SemanticService.slice_to top_k
                 (rev (SemanticService.argsort
                         (map (cosine_similarity E q) embeddings)))))
    as [results|e] eqn:Hcollect.
  - do 2 eexists. split; [reflexivity|]. right. eauto.
  - do 2 eexists. split; [reflexivity | left; reflexivity].
Qed.

(** C2, as the code has it: for a top-k that is not negative the query
    returns at most top-k triples, every score is strictly above the
    threshold, and the scores never increase along the result (equal
    scores may follow each other). *)
Theorem find_similar_products_bounded query (top_k : Z) (threshold : Q) self :
  (0 <= top_k)%Z ->
  exists results self',
    SemanticService.find_similar_products E query top_k threshold self
    = (Ok results, self')
    /\ (Z.of_nat (List.length results) <= top_k)%Z
    /\ Forall (fun r => (threshold < snd r)%Q) results
    /\ StronglySorted (fun a b => (snd b <= snd a)%Q) results.
Proof.
  intros Hk.
  destruct (find_similar_products_cases query top_k threshold self)
    as [results [self' [Hrun Hres]]].
  exists results, self'. split; [exact Hrun|].
  destruct Hres as [-> | [s [similarities Hcollect]]].
  - simpl. repeat split; [lia | constructor | constructor].
  - apply collect_scores in Hcollect.
    set (top_indices :=
           SemanticService.slice_to top_k
             (rev (SemanticService.argsort similarities))) in *.
    set (kept := filter (fun i => Qltb threshold (value_at similarities i))
                   top_indices) in *.
    repeat split.
    + rewrite <- (length_map snd results), Hcollect, length_map.
      pose proof (filter_length_le
                    (fun i => Qltb threshold (value_at similarities i))
                    top_indices) as Hle.
      pose proof (slice_to_length top_k
                    (rev (SemanticService.argsort similarities)) Hk) as Hlen.
      fold top_indices in Hlen. fold kept in Hle. lia.
    + apply Forall_map with (f := snd) (P := fun x => (threshold < x)%Q).
      rewrite Hcollect. apply Forall_map. apply Forall_forall.
      intros i Hi. apply filter_In in Hi. apply Qltb_lt. tauto.
    + apply StronglySorted_by_key
        with (R := fun x y => (y <= x)%Q) (f := value_at similarities)
             (l := kept); [|exact Hcollect].
      apply StronglySorted_filter. apply slice_to_sorted.
      apply StronglySorted_rev with
        (R := fun a b => (value_at similarities a <= value_at similarities b)%Q).
      apply argsort_sorted.
Qed.

End Retriever.

Lemma find_similar_products_bounded_witness :
  exists results self',
    SemanticService.find_similar_products Demo.collaborators (lit "ab") 2
      (3 # 10)%Q Demo.service = (Ok results, self')
    /\ (Z.of_nat (List.length results) <= 2)%Z
    /\ Forall (fun r => (3 # 10 < snd r)%Q) results
    /\ StronglySorted (fun a b => (snd b <= snd a)%Q) results.
Proof.
  apply (find_similar_products_bounded Demo.collaborators (lit "ab") 2
           (3 # 10)%Q Demo.service).
  lia.
Defined.

(** C2, as stated, fails twice: a negative top-k drops that many
    candidates from the end of the ranking, so two results come back for
    top-k -1; and products with equal similarity come back next to each
    other, so the scores are not strictly descending. *)
Lemma find_similar_products_counterexample :
  (exists results self',
      SemanticService.find_similar_products Demo.collaborators (lit "ab") (-1)
        (3 # 10)%Q Demo.service = (Ok results, self')
      /\ List.length results = 2
      /\ ~ (Z.of_nat (List.length results) <= -1)%Z)
  /\ (exists results self',
         SemanticService.find_similar_products Demo.collaborators (lit "ab") 2
           (3 # 10)%Q Demo.service = (Ok results, self')
         /\ map snd results = [1%Q; 1%Q]
         /\ ~ StronglySorted (fun a b => (snd b < snd a)%Q) results).
Proof.
  split.
  - do 2 eexists. split; [vm_compute; reflexivity|].
    split; [reflexivity | simpl; lia].
  - do 2 eexists. split; [vm_compute; reflexivity|].
    split; [reflexivity|].
    intros Hs. apply StronglySorted_inv in Hs. destruct Hs as [_ Hhd].
    inversion Hhd as [|x l Hlt _]; subst. simpl in Hlt.
    revert Hlt. apply Qlt_irrefl.
Qed.

(** ** The embedding index *)

Section EmbeddingIndex.

Variable E : Collaborators.

(** The contract of the embedding model: one vector per text. *)
Hypothesis encode_length :
  forall texts embeddings,
    encode E texts = Ok embeddings ->
    List.length embeddings = List.length texts.

Lemma prepare_loop_aligned items self r self' :
  SemanticService.prepare_loop E items self = (r, self') ->
  List.length (SemanticService._product_keys self)
  = List.length (SemanticService._product_texts self) ->
  List.length (SemanticService._product_keys self')
  = List.length (SemanticService._product_texts self')
  /\ SemanticService._embeddings self' = SemanticService._embeddings self.
Proof.
  revert self. induction items as [|[key product] rest IH]; intros self; simpl.
  - unfold ret. intros H Hlen. inversion H; subst. auto.
  - unfold bind, lift, modify.
    destruct (SemanticService.product_text E product) as [text|e].
    + intros H Hlen. apply IH in H.
      * simpl in H. exact H.
      * simpl. rewrite !length_app. simpl. lia.
    + intros H Hlen. inversion H; subst. auto.
Qed.

Lemma _prepare_product_texts_aligned self r self' :
  SemanticService._prepare_product_texts E self = (r, self') ->
  List.length (SemanticService._product_keys self)
  = List.length (SemanticService._product_texts self) ->
  List.length (SemanticService._product_keys self')
  = List.length (SemanticService._product_texts self')
  /\ SemanticService._embeddings self' = SemanticService._embeddings self.
Proof.
  unfold SemanticService._prepare_product_texts.
  destruct (SemanticService._product_texts self) eqn:Htexts.
  - destruct (SemanticService._knowledge_base self) as [kb|].
    + destruct (products kb) as [|item items] eqn:Hitems.
      * intros H Hlen. inversion H; subst. rewrite Htexts. auto.
      * intros H Hlen. apply prepare_loop_aligned in H; [exact H|].
        rewrite Htexts. exact Hlen.
    + intros H Hlen. inversion H; subst. rewrite Htexts. auto.
  - intros H Hlen. inversion H; subst. rewrite Htexts. auto.
Qed.

(** Constructing the model touches nothing but the model handle. *)
Lemma model_frame self r self' :
  SemanticService.model E self = (r, self') ->
  SemanticService._product_keys self' = SemanticService._product_keys self
  /\ SemanticService._product_texts self' = SemanticService._product_texts self
  /\ SemanticService._embeddings self' = SemanticService._embeddings self
  /\ SemanticService._knowledge_base self' = SemanticService._knowledge_base self
  /\ SemanticService.model_name self' = SemanticService.model_name self.
Proof.
  unfold SemanticService.model.
  destruct (SemanticService._model self).
  - intros H. inversion H; subst. auto.
  - destruct (SentenceTransformer E (SemanticService.model_name self));
      intros H; inversion H; subst; simpl; auto.
Qed.

Lemma build_embeddings_aligned self r self' :
  SemanticService.build_embeddings E self = (r, self') ->
  aligned self -> aligned self'.
Proof.
  unfold SemanticService.build_embeddings.
  destruct (SemanticService._embeddings self) as [embeddings|] eqn:Hemb.
  - intros H Hal. inversion H; subst. exact Hal.
  - unfold bind at 1.
    destruct (SemanticService._prepare_product_texts E self) as [r1 s1]
      eqn:Hprep.
    intros H [Hlen _].
    apply _prepare_product_texts_aligned in Hprep; [|exact Hlen].
    destruct Hprep as [Hlen1 Hemb1]. rewrite Hemb in Hemb1.
    assert (Hs1 : aligned s1) by (split; [exact Hlen1 | congruence]).
    destruct r1 as [[]|e]; [|inversion H; subst; exact Hs1].
    unfold bind, get in H.
    destruct (SemanticService._product_texts s1) as [|text texts] eqn:Htexts;
      [inversion H; subst; exact Hs1|].
    unfold try_except, bind, lift, modify, ret in H.
    destruct (SemanticService.model E s1) as [r2 s2] eqn:Hmodel.
    apply model_frame in Hmodel. destruct Hmodel as [Hk [Ht [He _]]].
    assert (Hs2 : aligned s2)
      by (split; [congruence | rewrite He; congruence]).
    destruct r2 as [[]|e]; [|inversion H; subst; exact Hs2].
    destruct (encode E (text :: texts)) as [embeddings|e] eqn:Henc;
      [|inversion H; subst; exact Hs2].
    inversion H; subst. unfold aligned. simpl.
    split; [congruence|].
    intros embeddings' Heq. inversion Heq; subst.
    rewrite (encode_length _ _ Henc), Hk, Hlen1. reflexivity.
Qed.

Lemma find_similar_products_aligned query top_k threshold self r self' :
  SemanticService.find_similar_products E query top_k threshold self = (r, self') ->
  aligned self -> aligned self'.
Proof.
  unfold SemanticService.find_similar_products, try_except, bind.
  destruct (SemanticService.build_embeddings E self) as [[embeddings|e] s1]
    eqn:Hbuild; intros H Hal;
    apply build_embeddings_aligned in Hbuild; try exact Hal.
  - destruct (SemanticService.size embeddings =? 0);
      [inversion H; subst; exact Hbuild|].
    destruct (SemanticService.model E s1) as [[[]|e] s2] eqn:Hmodel;
      apply model_frame in Hmodel; destruct Hmodel as [Hk [Ht [He _]]].
    + assert (Hs2 : aligned s2).
      { destruct Hbuild as [Hlen Hv]. split; [congruence|].
        intros v Hv'. rewrite He in Hv'. rewrite Hk. apply Hv. exact Hv'. }
      unfold lift, get, ret in H.
      destruct (encode E [query]) as [[|q qs]|e];
        try (inversion H; subst; exact Hs2).
      destruct (SemanticService.collect s2 threshold
                  (map (cosine_similarity E q) embeddings)
                  (SemanticService.slice_to top_k
                     (rev (SemanticService.argsort
                             (map (cosine_similarity E q) embeddings)))));
        inversion H; subst; exact Hs2.
    + inversion H; subst. destruct Hbuild as [Hlen Hv]. split; [congruence|].
      intros v Hv'. rewrite He in Hv'. rewrite Hk. apply Hv. exact Hv'.
  - inversion H; subst. exact Hbuild.
Qed.

Lemma run_call_aligned c self : aligned self -> aligned (run_call E c self).
Proof.
  intros Hal. destruct c as [kb| |query top_k threshold]; simpl.
  - split; [reflexivity | discriminate].
  - destruct (SemanticService.build_embeddings E self) as [r s] eqn:H.
    simpl. exact (build_embeddings_aligned _ _ _ H Hal).
  - destruct (SemanticService.find_similar_products E query top_k threshold self)
      as [r s] eqn:H.
    simpl. exact (find_similar_products_aligned _ _ _ _ _ _ H Hal).
Qed.

(** C9: from the freshly constructed service, and after any sequence of
    [set_knowledge_base], [build_embeddings] and [find_similar_products]
    calls, the keys and the texts have the same length, which is also the
    number of embedding vectors once the embeddings exist; and replacing
    the knowledge base empties keys, texts and embeddings. *)
Theorem embedding_index_aligned (model_name : str) (calls : list call) :
  aligned (run_calls E calls (SemanticService.__init__ model_name))
  /\ forall knowledge_base self,
       let self' := snd (SemanticService.set_knowledge_base knowledge_base self) in
       SemanticService._product_keys self' = []
       /\ SemanticService._product_texts self' = []
       /\ SemanticService._embeddings self' = None
       /\ SemanticService._knowledge_base self' = Some knowledge_base.
Proof.
  split.
  - assert (Hinit : aligned (SemanticService.__init__ model_name))
      by (split; [reflexivity | discriminate]).
    revert Hinit. generalize (SemanticService.__init__ model_name).
    unfold run_calls. induction calls as [|c rest IH]; intros self Hal; simpl.
    + exact Hal.
    + apply IH. apply run_call_aligned. exact Hal.
  - intros knowledge_base self. simpl. auto.
Qed.

End EmbeddingIndex.

Lemma embedding_index_aligned_witness :
  aligned
    (run_calls Demo.collaborators
       [SetKnowledgeBase Demo.kb; FindSimilarProducts (lit "ab") 2 (3 # 10)%Q;
        BuildEmbeddings]
       (SemanticService.__init__ (lit "paraphrase-multilingual-MiniLM-L12-v2"))).
Proof.
  apply (embedding_index_aligned Demo.collaborators).
  intros texts embeddings H. simpl in H. unfold Demo.encoder in H.
  inversion H. apply length_map.
Defined.

(** ** The turn orchestrator *)

Section Orchestrator.

Variable E : Collaborators.

Lemma service_frame_refl a : service_frame a a.
Proof. split; reflexivity. Qed.

Lemma service_frame_trans a b c :
  service_frame a b -> service_frame b c -> service_frame a c.
Proof. unfold service_frame. intros [] []. split; congruence. Qed.

Lemma prepare_loop_frame items self r self' :
  SemanticService.prepare_loop E items self = (r, self') ->
  service_frame self self'.
Proof.
  revert self. induction items as [|[key product] rest IH]; intros self; simpl.
  - unfold ret. intros H. inversion H; subst. apply service_frame_refl.
  - unfold bind, lift, modify.
    destruct (SemanticService.product_text E product) as [text|e]; intros H.
    + apply IH in H. exact H.
    + inversion H; subst. apply service_frame_refl.
Qed.

Lemma build_embeddings_frame self r self' :
  SemanticService.build_embeddings E self = (r, self') ->
  service_frame self self'.
Proof.
  unfold SemanticService.build_embeddings.
  destruct (SemanticService._embeddings self);
    [intros H; inversion H; subst; apply service_frame_refl|].
  unfold bind at 1.
  destruct (SemanticService._prepare_product_texts E self) as [r1 s1] eqn:Hprep.
  assert (Hs1 : service_frame self s1).
  { revert Hprep. unfold SemanticService._prepare_product_texts.
    destruct (SemanticService._product_texts self);
      [|intros H; inversion H; subst; apply service_frame_refl].
    destruct (SemanticService._knowledge_base self) as [kb|];
      [|intros H; inversion H; subst; apply service_frame_refl].
    destruct (products kb);
      [intros H; inversion H; subst; apply service_frame_refl|].
    apply prepare_loop_frame. }
  destruct r1 as [[]|e]; [|intros H; inversion H; subst; exact Hs1].
  unfold bind, get.
  destruct (SemanticService._product_texts s1) as [|text texts];
    [intros H; inversion H; subst; exact Hs1|].
  unfold try_except, bind, lift, modify, ret.
  destruct (SemanticService.model E s1) as [r2 s2] eqn:Hmodel.
  apply model_frame in Hmodel. destruct Hmodel as [_ [_ [_ [Hkb Hname]]]].
  assert (Hs2 : service_frame self s2)
    by (apply (service_frame_trans _ _ _ Hs1); split; assumption).
  destruct r2 as [[]|e]; [|intros H; inversion H; subst; exact Hs2].
  destruct (encode E (text :: texts)); intros H; inversion H; subst;
    exact Hs2.
Qed.

Lemma find_similar_products_frame query top_k threshold self r self' :
  SemanticService.find_similar_products E query top_k threshold self = (r, self') ->
  service_frame self self'.
Proof.
  unfold SemanticService.find_similar_products, try_except, bind.
  destruct (SemanticService.build_embeddings E self) as [r1 s1] eqn:Hbuild.
  apply build_embeddings_frame in Hbuild.
  destruct r1 as [embeddings|e]; [|intros H; inversion H; subst; exact Hbuild].
  destruct (SemanticService.size embeddings =? 0);
    [intros H; inversion H; subst; exact Hbuild|].
  destruct (SemanticService.model E s1) as [r2 s2] eqn:Hmodel.
  apply model_frame in Hmodel. destruct Hmodel as [_ [_ [_ [Hkb Hname]]]].
  assert (Hs2 : service_frame self s2)
    by (apply (service_frame_trans _ _ _ Hbuild); split; assumption).
  destruct r2 as [[]|e]; [|intros H; inversion H; subst; exact Hs2].
  unfold lift, get, ret.
  destruct (encode E [query]) as [[|q qs]|e];
    try (intros H; inversion H; subst; exact Hs2).
  destruct (SemanticService.collect s2 threshold
              (map (cosine_similarity E q) embeddings)
              (SemanticService.slice_to top_k
                 (rev (SemanticService.argsort
                         (map (cosine_similarity E q) embeddings)))));
    intros H; inversion H; subst; exact Hs2.
Qed.

Lemma service_step_refl self : service_step self self.
Proof.
  exists (FibankChatbot.semantic_service self).
  split; [destruct self; reflexivity | apply service_frame_refl].
Qed.

Lemma service_step_trans a b c :
  service_step a b -> service_step b c -> service_step a c.
Proof.
  intros [s1 [-> H1]] [s2 [-> H2]]. exists s2. split; [reflexivity|].
  simpl in H2. exact (service_frame_trans _ _ _ H1 H2).
Qed.

Lemma on_semantic_service_find query top_k threshold self :
  exists results self',
    FibankChatbot.on_semantic_service
      (SemanticService.find_similar_products E query top_k threshold) self
    = (Ok results, self')
    /\ service_step self self'.
Proof.
  unfold FibankChatbot.on_semantic_service.
  destruct (find_similar_products_cases E query top_k threshold
              (FibankChatbot.semantic_service self))
    as [results [s [Hrun _]]].
  rewrite Hrun. exists results, (FibankChatbot.with_semantic_service s self).
  split; [reflexivity|]. exists s. split; [reflexivity|].
  exact (find_similar_products_frame _ _ _ _ _ _ Hrun).
Qed.

(** The semantic fallback answers, and touches the semantic service only. *)
Lemma semantic_fallback_returns user_input self :
  exists response self',
    FibankChatbot._generate_semantic_fallback_response E user_input self
    = (Ok response, self')
    /\ service_step self self'.
Proof.
  unfold FibankChatbot._generate_semantic_fallback_response, try_except.
  unfold bind at 1.
  destruct (on_semantic_service_find user_input 5 (3 # 10)%Q self)
    as [results [s1 [Hrun Hstep]]].
  rewrite Hrun. unfold bind, get, ret, lift.
  destruct results as [|r rs].
  - destruct (eqb (FibankChatbot.user_language s1) bg);
      do 2 eexists; (split; [reflexivity | exact Hstep]).
  - destruct (FibankChatbot.fallback_items E 1 _ (firstn 3 (r :: rs)))
      as [response|e].
    + destruct (eqb (FibankChatbot.user_language s1) bg);
        do 2 eexists; (split; [reflexivity | exact Hstep]).
    + do 2 eexists. split; [reflexivity | exact Hstep].
Qed.

(** So does the generative path with its fallbacks. *)
Lemma ai_or_fallback_returns user_input intent confidence self :
  exists response self',
    FibankChatbot._generate_ai_or_fallback_response E user_input intent
      confidence self
    = (Ok response, self')
    /\ service_step self self'.
Proof.
  unfold FibankChatbot._generate_ai_or_fallback_response, try_except.
  unfold bind at 1. unfold get at 1.
  destruct (GeminiService.is_available (FibankChatbot.gemini_service self)).
  - unfold bind at 1. unfold bind at 1.
    destruct (on_semantic_service_find user_input 3 (3 # 10)%Q self)
      as [results [s1 [Hrun Hstep]]].
    rewrite Hrun. unfold bind, get, lift, ret.
    destruct (GeminiService.create_structured_prompt E user_input
                (FibankChatbot.user_language s1) results
                (ConversationContext.get_recent_context
                   (FibankChatbot.context s1) 3)) as [prompt|e].
    + destruct (GeminiService.generate_response E
                  (FibankChatbot.gemini_service s1) prompt 2) as [text|].
      * destruct (nonempty text).
        -- do 2 eexists. split; [reflexivity | exact Hstep].
        -- destruct (semantic_fallback_returns user_input s1)
             as [response [s2 [Hfb Hstep2]]].
           rewrite Hfb. do 2 eexists.
           split; [reflexivity | exact (service_step_trans _ _ _ Hstep Hstep2)].
      * destruct (semantic_fallback_returns user_input s1)
          as [response [s2 [Hfb Hstep2]]].
        rewrite Hfb. do 2 eexists.
        split; [reflexivity | exact (service_step_trans _ _ _ Hstep Hstep2)].
    + destruct (semantic_fallback_returns user_input s1)
        as [response [s2 [Hfb Hstep2]]].
      rewrite Hfb. do 2 eexists.
      split; [reflexivity | exact (service_step_trans _ _ _ Hstep Hstep2)].
  - unfold bind, ret.
    destruct (semantic_fallback_returns user_input self)
      as [response [s2 [Hfb Hstep2]]].
    rewrite Hfb. do 2 eexists. split; [reflexivity | exact Hstep2].
Qed.

End Orchestrator.

(** ** Blank input *)

Lemma lstrip_empty (s : str) : lstrip s = [] <-> forallb isspace s = true.
Proof.
  induction s as [|c r IH]; simpl; [tauto|].
  destruct (isspace c); simpl; [exact IH|].
  split; discriminate.
Qed.

Lemma lstrip_head (s : str) :
  lstrip s = [] \/ exists c r, lstrip s = c :: r /\ isspace c = false.
Proof.
  induction s as [|c r IH]; simpl; [left; reflexivity|].
  destruct (isspace c) eqn:Hc; [exact IH|].
  right. exists c, r. split; [reflexivity | exact Hc].
Qed.

(** [not text or not text.strip()] holds exactly for the empty string and
    the strings of whitespace. *)
Lemma blank_whitespace_only (text : str) :
  blank text = true <-> forallb isspace text = true.
Proof.
  unfold blank, strip, rstrip. split.
  - intros H. apply Bool.orb_true_iff in H. destruct H as [H | H].
    + destruct text; [reflexivity | discriminate].
    + destruct (rev (lstrip (rev (lstrip text)))) eqn:Hrev; [|discriminate].
      apply (f_equal (@rev N)) in Hrev. rewrite rev_involutive in Hrev.
      simpl in Hrev. apply lstrip_empty in Hrev.
      destruct (lstrip_head text) as [Hnil | [c [r [Hcr Hc]]]].
      * apply lstrip_empty. exact Hnil.
      * rewrite Hcr in Hrev. simpl in Hrev.
        rewrite forallb_app in Hrev. simpl in Hrev. rewrite Hc in Hrev.
        rewrite Bool.andb_false_r in Hrev. discriminate.
  - intros H. apply lstrip_empty in H. rewrite H. simpl.
    apply Bool.orb_true_r.
Qed.

Section Turn.

Variable E : Collaborators.

(** The body of a turn on an input that is not blank and whose language
    is detected: the language and the history record are written, the
    answer of the branch is followed by the footer of that language, and
    beyond the record only the semantic service has changed. *)
Lemma generate_response_body_recorded now user_input self language intent
    confidence :
  blank user_input = false ->
  I18n.detect_language E user_input = Ok language ->
  FibankChatbot.find_intent E
    (FibankChatbot.with_context
       (ConversationContext.set_user_language language) self) user_input
  = (intent, confidence) ->
  exists response self',
    FibankChatbot.generate_response_body E now user_input self
    = (Ok (response ++ FibankChatbot.contact_footer language), self')
    /\ service_step
         (recorded now user_input language intent confidence self) self'.
Proof.
  intros Hblank Hdetect Hintent.
  unfold FibankChatbot.generate_response_body.
  rewrite Hblank. unfold bind, lift, modify, get, ret.
  rewrite Hdetect. cbv beta iota. rewrite Hintent. cbv beta iota.
  replace (FibankChatbot.user_language
             (FibankChatbot.with_context
                (ConversationContext.set_user_language language) self))
    with language by reflexivity.
  fold (recorded now user_input language intent confidence self).
  set (s2 := recorded now user_input language intent confidence self).
  assert (Hlang : forall s3, service_step s2 s3 ->
                             FibankChatbot.user_language s3 = language).
  { intros s3 [s [-> _]]. reflexivity. }
  destruct (eqb intent (lit "credit_cards")).
  - do 2 eexists. split; [reflexivity | apply service_step_refl].
  - destruct (eqb intent (lit "loans")).
    + do 2 eexists. split; [reflexivity | apply service_step_refl].
    + destruct (ai_or_fallback_returns E user_input intent confidence s2)
        as [response [s3 [Hrun Hstep]]].
      rewrite Hrun. rewrite (Hlang s3 Hstep).
      do 2 eexists. split; [reflexivity | exact Hstep].
Qed.

Lemma generate_response_body_blank now user_input self :
  blank user_input = true ->
  FibankChatbot.generate_response_body E now user_input self
  = (Ok FibankChatbot.enter_question_prompt, self).
Proof.
  intros Hblank. unfold FibankChatbot.generate_response_body.
  rewrite Hblank. reflexivity.
Qed.


(** C1: a turn always returns a response string, whatever the input and
    whatever the collaborators do, and never an exception; when the body
    of the turn raises, the response is the generic error message, the
    Bulgarian text when the language of the conversation at that moment is
    [bg] and the English text otherwise, in red, and the chatbot is the
    one the body left; when the body returns, the response and the chatbot
    are the ones of the body. *)
Theorem generate_response_never_raises now user_input self :
  exists response self',
    FibankChatbot.generate_response E now user_input self = (Ok response, self')
    /\ (forall e s,
          FibankChatbot.generate_response_body E now user_input self = (Raise e, s) ->
          response
          = (if eqb (FibankChatbot.user_language s) bg
             then Fore_RED
                  ++ lit "Съжалявам, възникна грешка. Моля, опитайте отново."
                  ++ RESET_ALL
             else Fore_RED ++ lit "Sorry, an error occurred. Please try again."
                  ++ RESET_ALL)
          /\ self' = s)
    /\ (forall r s,
          FibankChatbot.generate_response_body E now user_input self = (Ok r, s) ->
          response = r /\ self' = s).
Proof.
  unfold FibankChatbot.generate_response, try_except.
  destruct (FibankChatbot.generate_response_body E now user_input self)
    as [[response|e] s].
  - exists response, s. split; [reflexivity|].
    split; [intros e' s' H; discriminate|].
    intros r' s' H. inversion H; subst. auto.
  - unfold bind, get, ret.
    exists (FibankChatbot._generate_error_response s), s.
    split; [reflexivity|].
    split; [|intros r' s' H; discriminate].
    intros e' s' H. inversion H; subst.
    split; [|reflexivity].
    unfold FibankChatbot._generate_error_response.
    destruct (eqb (FibankChatbot.user_language s') bg); reflexivity.
Qed.

(** C5, as the code has it: on an input that is empty or made of
    whitespace only the turn returns the one prompt the code has, the
    English one, and leaves the chatbot as it was: no history record is
    appended and the language is not touched. *)
Theorem generate_response_blank_input now user_input self :
  forallb isspace user_input = true ->
  FibankChatbot.generate_response E now user_input self
  = (Ok FibankChatbot.enter_question_prompt, self)
  /\ ConversationContext.conversation_history
       (FibankChatbot.context
          (snd (FibankChatbot.generate_response E now user_input self)))
     = ConversationContext.conversation_history (FibankChatbot.context self).
Proof.
  intros Hspace. apply blank_whitespace_only in Hspace.
  assert (H : FibankChatbot.generate_response E now user_input self
              = (Ok FibankChatbot.enter_question_prompt, self)).
  { unfold FibankChatbot.generate_response, try_except.
    rewrite (generate_response_body_blank now _ self Hspace). reflexivity. }
  rewrite H. split; reflexivity.
Qed.

Lemma contact_footer_number language :
  contains (lit "*2265") (FibankChatbot.contact_footer language) = true.
Proof.
  unfold FibankChatbot.contact_footer.
  destruct (eqb language bg); vm_compute; reflexivity.
Qed.

(** C6, as the code has it: on an input that is not blank and whose
    language is detected, the response is the answer of the branch
    followed by the contact footer of that language, which names *2265. *)
Theorem generate_response_contact_footer now user_input self language :
  blank user_input = false ->
  I18n.detect_language E user_input = Ok language ->
  exists response self',
    FibankChatbot.generate_response E now user_input self
    = (Ok (response ++ FibankChatbot.contact_footer language), self')
    /\ FibankChatbot.user_language self' = language
    /\ contains (lit "*2265") (FibankChatbot.contact_footer language) = true.
Proof.
  intros Hblank Hdetect.
  destruct (FibankChatbot.find_intent E
              (FibankChatbot.with_context
                 (ConversationContext.set_user_language language) self)
              user_input) as [intent confidence] eqn:Hintent.
  destruct (generate_response_body_recorded now _ self _ _ _ Hblank Hdetect Hintent)
    as [response [self' [Hbody Hstep]]].
  exists response, self'.
  unfold FibankChatbot.generate_response, try_except. rewrite Hbody.
  split; [reflexivity|]. split; [|apply contact_footer_number].
  destruct Hstep as [s [-> _]]. reflexivity.
Qed.


End Turn.

Lemma generate_response_never_raises_witness :
  exists response self',
    FibankChatbot.generate_response Demo.collaborators Demo.now (lit "boom")
      (Demo.bot bg) = (Ok response, self')
    /\ response
       = Fore_RED ++ lit "Съжалявам, възникна грешка. Моля, опитайте отново."
         ++ RESET_ALL
    /\ self' = Demo.bot bg.
Proof.
  destruct (generate_response_never_raises Demo.collaborators Demo.now
              (lit "boom") (Demo.bot bg)) as [response [self' [Hrun [Herr _]]]].
  exists response, self'. split; [exact Hrun|].
  apply (Herr (RuntimeError 1) (Demo.bot bg)). vm_compute. reflexivity.
Defined.

Lemma generate_response_blank_input_witness :
  FibankChatbot.generate_response Demo.collaborators Demo.now
    (lit "  " ++ nl) (Demo.bot bg)
  = (Ok FibankChatbot.enter_question_prompt, Demo.bot bg).
Proof.
  apply (generate_response_blank_input Demo.collaborators Demo.now
           (lit "  " ++ nl) (Demo.bot bg)).
  vm_compute. reflexivity.
Defined.

(** C5, as stated, fails: in a Bulgarian conversation the prompt for a
    blank input is the English text, the same as in an English
    conversation, where the generic error message is chosen by language. *)
Lemma blank_prompt_not_localized :
  FibankChatbot.user_language (Demo.bot bg) = bg
  /\ fst (FibankChatbot.generate_response Demo.collaborators Demo.now []
            (Demo.bot bg))
     = Ok (Fore_YELLOW ++ lit "💡 Please enter your question." ++ RESET_ALL)
  /\ fst (FibankChatbot.generate_response Demo.collaborators Demo.now []
            (Demo.bot bg))
     = fst (FibankChatbot.generate_response Demo.collaborators Demo.now []
              (Demo.bot en))
  /\ FibankChatbot._generate_error_response (Demo.bot bg)
     <> FibankChatbot._generate_error_response (Demo.bot en).
Proof.
  repeat split; try (vm_compute; reflexivity).
  vm_compute. discriminate.
Qed.

Lemma generate_response_contact_footer_witness :
  exists response self',
    FibankChatbot.generate_response Demo.collaborators Demo.now (lit "hello")
      (Demo.bot bg)
    = (Ok (response ++ FibankChatbot.contact_footer en), self')
    /\ FibankChatbot.user_language self' = en
    /\ contains (lit "*2265") (FibankChatbot.contact_footer en) = true.
Proof.
  apply (generate_response_contact_footer Demo.collaborators Demo.now
           (lit "hello") (Demo.bot bg) en);
    vm_compute; reflexivity.
Defined.

(** C6, as stated, fails: the prompt for a blank input and the generic
    error message are returned without the footer. *)
Lemma contact_footer_counterexample :
  fst (FibankChatbot.generate_response Demo.collaborators Demo.now []
         (Demo.bot en))
  = Ok FibankChatbot.enter_question_prompt
  /\ endswith (FibankChatbot.contact_footer en)
       FibankChatbot.enter_question_prompt = false
  /\ endswith (FibankChatbot.contact_footer bg)
       FibankChatbot.enter_question_prompt = false
  /\ contains (lit "*2265") FibankChatbot.enter_question_prompt = false
  /\ fst (FibankChatbot.generate_response Demo.collaborators Demo.now
            (lit "boom") (Demo.bot en))
     = Ok (FibankChatbot._generate_error_response (Demo.bot en))
  /\ contains (lit "*2265")
       (FibankChatbot._generate_error_response (Demo.bot en)) = false.
Proof.
  repeat split; vm_compute; reflexivity.
Qed.


(** * Further properties of the code *)

(** ** The conversation context *)

(** X1: what [add_to_memory] stores under a key is what [get_from_memory]
    returns for it, whatever the default; every other key reads as before;
    and the history, the language and the interests are not touched. *)
Theorem memory_round_trip (key : str) (v : value)
    (self : ConversationContext.t) :
  let self' := ConversationContext.add_to_memory key v self in
  (forall default, ConversationContext.get_from_memory self' key default = v)
  /\ (forall key' default,
         key' <> key ->
         ConversationContext.get_from_memory self' key' default
         = ConversationContext.get_from_memory self key' default)
  /\ ConversationContext.conversation_history self'
     = ConversationContext.conversation_history self
  /\ ConversationContext.user_language self'
     = ConversationContext.user_language self
  /\ ConversationContext.user_interests self'
     = ConversationContext.user_interests self.
Proof.
  simpl. unfold ConversationContext.get_from_memory, dict_get_default. simpl.
  split; [|split; [|auto]].
  - intros default. rewrite dict_get_set, eqb_refl. reflexivity.
  - intros key' default Hneq. rewrite dict_get_set.
    apply eqb_neq in Hneq. rewrite Hneq. reflexivity.
Qed.

Lemma memory_round_trip_witness :
  let self :=
    ConversationContext.add_to_memory (lit "card") (VStr (lit "Visa Gold"))
      (ConversationContext.add_to_memory (lit "loan") (VNum 5)
         ConversationContext.__init__) in
  ConversationContext.get_from_memory self (lit "loan") VNone = VNum 5.
Proof.
  simpl.
  rewrite (proj1 (proj2 (memory_round_trip (lit "card") (VStr (lit "Visa Gold"))
                           (ConversationContext.add_to_memory (lit "loan")
                              (VNum 5) ConversationContext.__init__)))
             (lit "loan") VNone) by (vm_compute; discriminate).
  apply (proj1 (memory_round_trip (lit "loan") (VNum 5)
                  ConversationContext.__init__)).
Defined.

Lemma existsb_eqb_In (k : str) (l : list str) :
  existsb (eqb k) l = true <-> In k l.
Proof.
  rewrite existsb_exists. split.
  - intros [x [Hin Heq]]. apply eqb_eq in Heq. subst. exact Hin.
  - intros Hin. exists k. split; [exact Hin | apply eqb_refl].
Qed.

Lemma NoDup_snoc {A} (l : list A) (k : A) :
  NoDup l -> ~ In k l -> NoDup (l ++ [k]).
Proof.
  induction l as [|a l IH]; intros Hnd Hk; simpl.
  - constructor; [intros [] | constructor].
  - inversion Hnd; subst. constructor.
    + rewrite in_app_iff. simpl. intros [H | [H | []]]; [contradiction|].
      subst. apply Hk. left. reflexivity.
    + apply IH; [assumption|]. intros H. apply Hk. right. exact H.
Qed.

Lemma add_product_interest_spec (k : str) (self : ConversationContext.t) :
  let self' := ConversationContext.add_product_interest k self in
  (NoDup (ConversationContext.user_interests self) ->
   NoDup (ConversationContext.user_interests self'))
  /\ (forall k', In k' (ConversationContext.user_interests self')
                 <-> k' = k \/ In k' (ConversationContext.user_interests self)).
Proof.
  simpl. unfold ConversationContext.add_product_interest.
  destruct (existsb (eqb k) (ConversationContext.user_interests self)) eqn:Hk.
  - apply existsb_eqb_In in Hk. split; [auto|].
    intros k'. split; [auto|]. intros [-> | H]; assumption.
  - simpl. split.
    + intros Hnd. apply NoDup_snoc; [exact Hnd|].
      intros Hin. apply existsb_eqb_In in Hin. congruence.
    + intros k'. rewrite in_app_iff. simpl. intuition auto.
Qed.

(** X2: the interests tracked from a fresh context hold every product key
    that was added exactly once, and nothing else; adding a key that is
    already tracked changes nothing. *)
Theorem product_interests_distinct (keys : list str) :
  let self :=
    fold_left (fun self k => ConversationContext.add_product_interest k self)
      keys ConversationContext.__init__ in
  NoDup (ConversationContext.user_interests self)
  /\ (forall k, In k (ConversationContext.user_interests self) <-> In k keys)
  /\ (forall k, In k keys ->
                ConversationContext.add_product_interest k self = self).
Proof.
  assert (H : forall keys self0,
             NoDup (ConversationContext.user_interests self0) ->
             let self :=
               fold_left
                 (fun self k => ConversationContext.add_product_interest k self)
                 keys self0 in
             NoDup (ConversationContext.user_interests self)
             /\ (forall k, In k (ConversationContext.user_interests self)
                           <-> In k keys
                               \/ In k (ConversationContext.user_interests self0))).
  { clear keys. induction keys as [|k0 keys IH]; intros self0 Hnd; simpl.
    - split; [exact Hnd | intros k; tauto].
    - destruct (add_product_interest_spec k0 self0) as [Hnd' Hin'].
      destruct (IH (ConversationContext.add_product_interest k0 self0)
                  (Hnd' Hnd)) as [Hnd'' Hin''].
      split; [exact Hnd''|]. intros k. rewrite Hin'', Hin'.
      intuition auto. }
  destruct (H keys ConversationContext.__init__ (NoDup_nil _)) as [Hnd Hin].
  simpl. split; [exact Hnd|]. split.
  - intros k. rewrite Hin. simpl. tauto.
  - intros k Hk. unfold ConversationContext.add_product_interest.
    replace (existsb (eqb k) _) with true; [reflexivity|].
    symmetry. apply existsb_eqb_In. apply Hin. left. exact Hk.
Qed.

Lemma product_interests_distinct_witness :
  ConversationContext.user_interests
    (fold_left (fun self k => ConversationContext.add_product_interest k self)
       [lit "Visa Gold"; lit "Overdraft"; lit "Visa Gold"]
       ConversationContext.__init__)
  = [lit "Visa Gold"; lit "Overdraft"]
  /\ ConversationContext.add_product_interest (lit "Overdraft")
       (fold_left (fun self k => ConversationContext.add_product_interest k self)
          [lit "Visa Gold"; lit "Overdraft"; lit "Visa Gold"]
          ConversationContext.__init__)
     = fold_left (fun self k => ConversationContext.add_product_interest k self)
         [lit "Visa Gold"; lit "Overdraft"; lit "Visa Gold"]
         ConversationContext.__init__.
Proof.
  split; [vm_compute; reflexivity|].
  apply (proj2 (proj2 (product_interests_distinct
                         [lit "Visa Gold"; lit "Overdraft"; lit "Visa Gold"]))).
  simpl. right. left. reflexivity.
Defined.

(** X3: for a positive number of turns the recent context is the tail of
    the history, of that many records or of all of them when the history
    is shorter; for zero turns the slice [[-0:]] is the whole history. *)
Theorem recent_context_is_tail (self : ConversationContext.t) (turns : nat) :
  (0 < turns ->
   exists earlier,
     ConversationContext.conversation_history self
     = earlier ++ ConversationContext.get_recent_context self turns
     /\ List.length (ConversationContext.get_recent_context self turns)
        = Nat.min turns
            (List.length (ConversationContext.conversation_history self)))
  /\ ConversationContext.get_recent_context self 0
     = ConversationContext.conversation_history self.
Proof.
  unfold ConversationContext.get_recent_context. split.
  - intros Hpos.
    destruct (ConversationContext.conversation_history self) as [|r rs] eqn:Hh.
    + exists []. split; [reflexivity | simpl; lia].
    + destruct turns as [|n]; [lia|].
      unfold ConversationContext.last_items.
      exists (firstn (List.length (r :: rs) - S n) (r :: rs)).
      split; [symmetry; apply firstn_skipn|].
      rewrite length_skipn. lia.
  - destruct (ConversationContext.conversation_history self); reflexivity.
Qed.

Lemma recent_context_is_tail_witness :
  exists earlier,
    ConversationContext.conversation_history Samples.context
    = earlier ++ ConversationContext.get_recent_context Samples.context 3
    /\ List.length (ConversationContext.get_recent_context Samples.context 3)
       = Nat.min 3
           (List.length (ConversationContext.conversation_history Samples.context)).
Proof.
  apply (proj1 (recent_context_is_tail Samples.context 3)). lia.
Defined.

(** ** Language detection *)

Section DetectLanguageRange.

Variable E : Collaborators.

(** X4: language detection answers [en] or [bg] and nothing else; it
    raises only what the statistical detector raised on a text that is not
    blank, and never the detector's own [LangDetectException], which is
    answered by [en]. *)
Theorem detect_language_outcomes (text : str) :
  match I18n.detect_language E text with
  | Ok language => language = en \/ language = bg
  | Raise e =>
      detect E text = Raise e /\ e <> LangDetectException
      /\ blank text = false
  end.
Proof.
  unfold I18n.detect_language.
  destruct (blank text); [left; reflexivity|].
  destruct (existsb _ (lower E text)); [right; reflexivity|].
  destruct (existsb _ I18n.bulgarian_words); [right; reflexivity|].
  destruct (detect E text) as [detected|e].
  - simpl. destruct (eqb detected en) eqn:Hen; simpl.
    + apply eqb_eq in Hen. left. exact Hen.
    + destruct (eqb detected bg) eqn:Hbg; simpl.
      * apply eqb_eq in Hbg. right. exact Hbg.
      * left. reflexivity.
  - destruct e; try (repeat split; [discriminate]); left; reflexivity.
Qed.

Lemma contains_head (c : N) (w t : str) :
  contains (c :: w) t = true -> cp_in c t = true.
Proof.
  unfold cp_in. induction t as [|x t IH]; simpl.
  - discriminate.
  - intros H. apply Bool.orb_true_iff in H. apply Bool.orb_true_iff.
    destruct H as [H | H].
    + left. apply Bool.andb_true_iff in H. tauto.
    + right. apply IH. destruct t; exact H.
Qed.

(** Every word of the keyword list begins with a letter of
    [bulgarian_chars]. *)
Lemma bulgarian_words_heads :
  Forall (fun word => match word with
                      | c :: _ => cp_in c I18n.bulgarian_chars = true
                      | [] => False
                      end) I18n.bulgarian_words.
Proof. repeat constructor. Qed.

Lemma keyword_step_never_fires (text_lower : str) :
  existsb (fun char => cp_in char I18n.bulgarian_chars) text_lower = false ->
  existsb (fun word => contains word text_lower) I18n.bulgarian_words = false.
Proof.
  intros Hchars.
  destruct (existsb (fun word => contains word text_lower) I18n.bulgarian_words)
    eqn:Hwords; [|reflexivity].
  apply existsb_exists in Hwords. destruct Hwords as [word [Hin Hcontains]].
  pose proof bulgarian_words_heads as Hheads.
  rewrite Forall_forall in Hheads. specialize (Hheads word Hin).
  destruct word as [|c w]; [contradiction|].
  apply contains_head in Hcontains. unfold cp_in in Hcontains.
  apply existsb_exists in Hcontains. destruct Hcontains as [x [Hx Hcx]].
  apply N.eqb_eq in Hcx. subst x.
  assert (Hex : existsb (fun char => cp_in char I18n.bulgarian_chars) text_lower
                = true)
    by (apply existsb_exists; exists c; split; assumption).
  congruence.
Qed.

(** X5: the list of Bulgarian banking terms never decides: a text that
    is not blank and has no letter of [bulgarian_chars] once lowercased
    contains none of the terms, so its language is the answer of the
    statistical detector, turned into [en] unless it is [en] or [bg]. *)
Theorem detect_language_without_bulgarian_chars (text : str) :
  blank text = false ->
  existsb (fun char => cp_in char I18n.bulgarian_chars) (lower E text) = false ->
  existsb (fun word => contains word (lower E text)) I18n.bulgarian_words = false
  /\ I18n.detect_language E text
     = match detect E text with
       | Ok detected =>
           Ok (if existsb (eqb detected) [en; bg] then detected else en)
       | Raise LangDetectException => Ok en
       | Raise e => Raise e
       end.
Proof.
  intros Hblank Hchars.
  pose proof (keyword_step_never_fires _ Hchars) as Hwords.
  split; [exact Hwords|].
  unfold I18n.detect_language. rewrite Hblank, Hchars, Hwords. reflexivity.
Qed.

End DetectLanguageRange.

Lemma detect_language_without_bulgarian_chars_witness :
  I18n.detect_language Demo.collaborators (lit "Hello") = Ok en.
Proof.
  rewrite (proj2 (detect_language_without_bulgarian_chars Demo.collaborators
                    (lit "Hello") eq_refl eq_refl)).
  vm_compute. reflexivity.
Defined.

(** ** Rendering *)

Lemma startswith_app (p rest : str) : startswith p (p ++ rest) = true.
Proof.
  induction p as [|c p IH]; simpl; [reflexivity|].
  rewrite N.eqb_refl. exact IH.
Qed.

Lemma startswith_app_l (p s rest : str) :
  startswith p s = true -> startswith p (s ++ rest) = true.
Proof.
  revert s. induction p as [|c p IH]; intros s; simpl; [reflexivity|].
  destruct s as [|x s]; simpl; [discriminate|].
  intros H. apply Bool.andb_true_iff in H. destruct H as [Hc Hp].
  rewrite Hc. simpl. apply IH. exact Hp.
Qed.

Lemma contains_app_l (sub s rest : str) :
  contains sub s = true -> contains sub (s ++ rest) = true.
Proof.
  induction s as [|x s IH]; simpl.
  - intros H. rewrite Bool.orb_false_r in H.
    destruct sub; [|discriminate].
    destruct rest; reflexivity.
  - intros H. apply Bool.orb_true_iff in H. apply Bool.orb_true_iff.
    destruct H as [H | H].
    + left. apply (startswith_app_l sub (x :: s) rest). exact H.
    + right. apply IH. exact H.
Qed.

Lemma contains_app_r (sub before s : str) :
  contains sub s = true -> contains sub (before ++ s) = true.
Proof.
  induction before as [|x before IH]; simpl; [auto|].
  intros H. apply Bool.orb_true_iff. right. apply IH. exact H.
Qed.

Lemma contains_prefix (sub rest : str) : contains sub (sub ++ rest) = true.
Proof.
  destruct (sub ++ rest) eqn:Heq; simpl;
    apply Bool.orb_true_iff; left; rewrite <- Heq; apply startswith_app.
Qed.

(** A text that occurs between two others. *)
Lemma contains_middle (sub before rest : str) :
  contains sub (before ++ sub ++ rest) = true.
Proof. apply contains_app_r. apply contains_prefix. Qed.

Section RenderingProperties.

Variable E : Collaborators.

Lemma render_item_guarded summary_fn link_label language response item :
  RenderingService.render_item E summary_fn link_label language response item
  = RenderingService.render_item E (guarded summary_fn) link_label language
      response item.
Proof.
  destruct item as [name info]. unfold RenderingService.render_item, guarded.
  destruct (summary_fn info) as [summary|e]; reflexivity.
Qed.

(** What one item adds to the list: its bullet line comes first. *)
Lemma render_item_appends summary_fn link_label language response
    (name : str) (info : attrs) :
  exists rest,
    RenderingService.render_item E summary_fn link_label language response
      (name, info)
    = response ++ (lit "🔹 **" ++ name ++ lit "**" ++ nl) ++ rest.
Proof.
  unfold RenderingService.render_item.
  destruct (summary_fn info) as [summary|e];
    [destruct (nonempty summary)|];
    destruct (truthy (dict_get_default key_link (VStr []) info));
    try destruct (eqb language bg);
    eexists; repeat rewrite <- app_assoc; reflexivity.
Qed.

Lemma render_items_extend summary_fn link_label language
    (items : list (str * attrs)) response :
  exists rest,
    fold_left (RenderingService.render_item E summary_fn link_label language)
      items response
    = response ++ rest.
Proof.
  revert response. induction items as [|[name info] items IH]; intros response;
    cbn [fold_left].
  - exists []. symmetry. apply app_nil_r.
  - destruct (render_item_appends summary_fn link_label language response
                name info) as [rest1 Hitem].
    rewrite Hitem.
    destruct (IH (response ++ (lit "🔹 **" ++ name ++ lit "**" ++ nl) ++ rest1))
      as [rest2 Hrest].
    rewrite Hrest. eexists. rewrite <- !app_assoc. reflexivity.
Qed.

Lemma render_items_bullets summary_fn link_label language
    (items : list (str * attrs)) response (name : str) (info : attrs) :
  In (name, info) items ->
  contains (lit "🔹 **" ++ name ++ lit "**" ++ nl)
    (fold_left (RenderingService.render_item E summary_fn link_label language)
       items response) = true.
Proof.
  revert response. induction items as [|[name0 info0] items IH];
    intros response Hin; cbn [fold_left]; [destruct Hin|].
  destruct Hin as [Heq | Hin]; [|apply IH; exact Hin].
  injection Heq as Hname Hinfo. subst name0 info0.
  destruct (render_item_appends summary_fn link_label language response
              name info) as [rest1 Hitem].
  rewrite Hitem.
  destruct (render_items_extend summary_fn link_label language items
              (response ++ (lit "🔹 **" ++ name ++ lit "**" ++ nl) ++ rest1))
    as [rest2 Hrest].
  rewrite Hrest.
  generalize (lit "🔹 **" ++ name ++ lit "**" ++ nl). intros marker.
  rewrite <- !app_assoc. apply contains_middle.
Qed.

(** X6: the product list absorbs a failing summary extractor item by
    item: the list rendered with an extractor is the list rendered with
    the extractor that answers the empty summary wherever the first one
    raises. *)
Theorem render_product_list_skips_failed_summaries (header : str)
    (items : dict attrs) (summary_fn : attrs -> result str)
    (link_label language : str) :
  RenderingService.render_product_list E header items summary_fn link_label
    language
  = RenderingService.render_product_list E header items (guarded summary_fn)
      link_label language.
Proof.
  unfold RenderingService.render_product_list.
  destruct items as [|item items]; [reflexivity|].
  assert (Hfold : forall l response,
             fold_left
               (RenderingService.render_item E summary_fn link_label language)
               l response
             = fold_left
                 (RenderingService.render_item E (guarded summary_fn)
                    link_label language) l response).
  { induction l as [|x l IH]; intros response; cbn [fold_left];
      [reflexivity|].
    rewrite <- render_item_guarded. apply IH. }
  rewrite Hfold. reflexivity.
Qed.

(** X7: the product list names every product it is given: the bullet line
    of each item occurs in the text; and for no items the text is the
    header followed by the notice that the category has no products. *)
Theorem render_product_list_names_every_product (header : str)
    (items : dict attrs) (summary_fn : attrs -> result str)
    (link_label language : str) :
  (forall name info,
      In (name, info) items ->
      contains (lit "🔹 **" ++ name ++ lit "**" ++ nl)
        (RenderingService.render_product_list E header items summary_fn
           link_label language) = true)
  /\ (items = [] ->
      RenderingService.render_product_list E header items summary_fn
        link_label language
      = Fore_BLUE ++ lit "💳 " ++ header ++ RESET_ALL ++ nl ++ nl
        ++ Fore_YELLOW
        ++ (if eqb language bg
            then lit "Няма налични продукти в тази категория."
            else lit "No products available in this category.")
        ++ RESET_ALL).
Proof.
  split.
  - intros name info Hin. unfold RenderingService.render_product_list.
    destruct items as [|item items]; [destruct Hin|].
    pose proof (render_items_bullets summary_fn link_label language
                  (item :: items)
                  (Fore_BLUE ++ lit "💳 " ++ header ++ RESET_ALL ++ nl ++ nl)
                  name info Hin) as Hbullet.
    destruct (eqb language bg); simpl rcatch;
      apply contains_app_l; exact Hbullet.
  - intros ->. unfold RenderingService.render_product_list.
    destruct (eqb language bg); simpl rcatch;
      repeat rewrite <- app_assoc; reflexivity.
Qed.

(** X8: the credit-card summary has at most three lines, joined by a
    newline and three spaces; each is a stripped segment of the
    description, cut at semicolons, whose lowercase form contains one of
    the three keywords; and a description that is absent, falsy or not a
    string gives the empty summary. *)
Theorem get_credit_card_summary_lines (card_info : attrs) :
  exists lines,
    RenderingService.get_credit_card_summary E card_info
    = join (nl ++ lit "   ") lines
    /\ List.length lines <= 3
    /\ (forall line,
           In line lines ->
           (exists s segment,
               dict_get key_info card_info = Some (VStr s)
               /\ In segment (split (lit ";") s) /\ line = strip segment)
           /\ exists keyword,
                In keyword RenderingService.card_summary_keywords
                /\ contains keyword (lower E line) = true)
    /\ ((forall s, dict_get key_info card_info <> Some (VStr s)) ->
        lines = []).
Proof.
  unfold RenderingService.get_credit_card_summary, dict_get_default.
  assert (Hempty :
            forall P : str -> Prop, forall Q : Prop,
              join (nl ++ lit "   ") [] = []
              /\ List.length (@nil str) <= 3
              /\ (forall line, In line [] -> P line)
              /\ (Q -> @nil str = [])).
  { intros P Q. repeat split; auto. intros line []. }
  destruct (dict_get key_info card_info) as [v|];
    [|exists []; apply Hempty].
  destruct v as [|b|q|s|l|d];
    try (exists []; simpl;
         repeat match goal with
                | |- context [if ?c then _ else _] => destruct c
                end;
         apply Hempty).
  destruct (truthy (VStr s)) eqn:Hs; simpl negb; cbv iota.
  - set (kept :=
           filter
             (fun line =>
                existsb (fun keyword => contains keyword (lower E line))
                  RenderingService.card_summary_keywords)
             (map strip (split (lit ";") s))).
    exists (firstn 3 kept). simpl rcatch. split; [reflexivity|].
    split; [apply firstn_le_length|]. split.
    + intros line Hline.
      assert (Hkept : In line kept).
      { rewrite <- (firstn_skipn 3 kept). apply in_or_app. left. exact Hline. }
      apply filter_In in Hkept. destruct Hkept as [Hmap Hkey].
      apply in_map_iff in Hmap. destruct Hmap as [segment [Hstrip Hseg]].
      split.
      * exists s, segment. repeat split; auto.
      * apply existsb_exists in Hkey. exact Hkey.
    + intros Hno. exfalso. apply (Hno s). reflexivity.
  - exists []. simpl rcatch. apply Hempty.
Qed.

End RenderingProperties.

Lemma render_product_list_names_every_product_witness :
  contains (lit "🔹 **" ++ lit "Visa Gold" ++ lit "**" ++ nl)
    (RenderingService.render_product_list Demo.collaborators
       (lit "All available Visa cards from Fibank") Samples.cards
       (fun info => Raise TypeError) (lit "More information") en) = true.
Proof.
  apply (proj1 (render_product_list_names_every_product Demo.collaborators
                  (lit "All available Visa cards from Fibank") Samples.cards
                  (fun info => Raise TypeError) (lit "More information") en)
           (lit "Visa Gold") Samples.gold).
  simpl. right. left. reflexivity.
Defined.

(** ** The semantic service, beyond the alignment of its arrays *)

Section RetrieverProperties.

Variable E : Collaborators.

Lemma find_similar_products_collect query top_k threshold self r self' :
  SemanticService.find_similar_products E query top_k threshold self = (r, self') ->
  exists results,
    r = Ok results
    /\ (results = []
        \/ exists similarities,
             SemanticService.collect self' threshold similarities
               (SemanticService.slice_to top_k
                  (rev (SemanticService.argsort similarities)))
             = Ok results).
Proof.
  unfold SemanticService.find_similar_products, try_except, bind.
  destruct (SemanticService.build_embeddings E self) as [[embeddings|e] s1];
    [|intros H; inversion H; subst; exists []; auto].
  destruct (SemanticService.size embeddings =? 0);
    [intros H; inversion H; subst; exists []; auto|].
  destruct (SemanticService.model E s1) as [[[]|e] s2];
    [|intros H; inversion H; subst; exists []; auto].
  unfold lift, get.
  destruct (encode E [query]) as [[|q qs]|e];
    try solve [intros H; inversion H; subst; exists []; auto].
  destruct (SemanticService.collect s2 threshold
              (map (cosine_similarity E q) embeddings)
              (SemanticService.slice_to top_k
                 (rev (SemanticService.argsort
                         (map (cosine_similarity E q) embeddings)))))
    as [results|e] eqn:Hcollect; intros H; inversion H; subst.
  - exists results. split; [reflexivity|]. right. eauto.
  - exists []. auto.
Qed.

Lemma collect_entries self threshold similarities top_indices results :
  SemanticService.collect self threshold similarities top_indices = Ok results ->
  forall key product score,
    In (key, product, score) results ->
    In key (SemanticService._product_keys self)
    /\ (threshold < score)%Q
    /\ exists kb,
         SemanticService._knowledge_base self = Some kb
         /\ dict_get key (products kb) = Some product.
Proof.
  revert results. induction top_indices as [|idx r IH]; intros results; simpl.
  - intros H. inversion H. intros key product score [].
  - destruct (nth_error similarities idx) as [similarity|]; [|discriminate].
    destruct (Qltb threshold similarity) eqn:Hlt; [|apply IH].
    destruct (nth_error (SemanticService._product_keys self) idx)
      as [product_key|] eqn:Hkey; [|discriminate].
    destruct (SemanticService._knowledge_base self) as [kb|] eqn:Hkb;
      [|discriminate].
    destruct (dict_get product_key (products kb)) as [product_data|] eqn:Hget;
      [|discriminate].
    destruct (SemanticService.collect self threshold similarities r)
      as [rest|e]; simpl; [|discriminate].
    intros H. inversion H; subst. intros key product score [Heq | Hin].
    + inversion Heq; subst. split; [eapply nth_error_In; exact Hkey|].
      split; [apply Qltb_lt; exact Hlt|]. exists kb. auto.
    + apply (IH rest eq_refl key product score Hin).
Qed.

(** X9: every triple a query returns is an entry of the catalog: its key
    is a key of the index, and its product is what the knowledge base of
    the service, the one it had before the query, holds under that key. *)
Theorem find_similar_products_returns_catalog_entries query top_k threshold
    self results self' key product score :
  SemanticService.find_similar_products E query top_k threshold self
  = (Ok results, self') ->
  In (key, product, score) results ->
  In key (SemanticService._product_keys self')
  /\ exists kb,
       SemanticService._knowledge_base self = Some kb
       /\ dict_get key (products kb) = Some product.
Proof.
  intros Hrun Hin.
  pose proof (find_similar_products_frame E _ _ _ _ _ _ Hrun) as [_ Hkb].
  apply find_similar_products_collect in Hrun.
  destruct Hrun as [results' [Heq [-> | [similarities Hcollect]]]];
    inversion Heq; subst; [destruct Hin|].
  destruct (collect_entries _ _ _ _ _ Hcollect key product score Hin)
    as [Hkey [_ [kb [Hkb' Hget]]]].
  split; [exact Hkey|]. exists kb. split; [congruence | exact Hget].
Qed.

(** What preparing the texts leaves alone. *)
Lemma prepare_loop_keeps items self r self' :
  SemanticService.prepare_loop E items self = (r, self') ->
  SemanticService._model self' = SemanticService._model self
  /\ SemanticService._embeddings self' = SemanticService._embeddings self
  /\ SemanticService.model_name self' = SemanticService.model_name self
  /\ SemanticService._knowledge_base self' = SemanticService._knowledge_base self
  /\ SemanticService._product_keys self'
     = SemanticService._product_keys self ++ map fst (prepared E items)
  /\ SemanticService._product_texts self'
     = SemanticService._product_texts self ++ map snd (prepared E items).
Proof.
  revert self. induction items as [|[key product] rest IH]; intros self; simpl.
  - unfold ret. intros H. inversion H; subst.
    rewrite !app_nil_r. repeat split; reflexivity.
  - unfold bind, lift, modify.
    destruct (SemanticService.product_text E product) as [text|e]; intros H.
    + apply IH in H. simpl in H.
      destruct H as [Hm [He [Hn [Hk [Hkeys Htexts]]]]].
      rewrite Hkeys, Htexts, <- !app_assoc. simpl. repeat split; assumption.
    + inversion H; subst. simpl. rewrite !app_nil_r.
      repeat split; reflexivity.
Qed.

Lemma _prepare_product_texts_keeps self r self' :
  SemanticService._prepare_product_texts E self = (r, self') ->
  SemanticService._model self' = SemanticService._model self
  /\ SemanticService._embeddings self' = SemanticService._embeddings self
  /\ SemanticService.model_name self' = SemanticService.model_name self
  /\ SemanticService._knowledge_base self' = SemanticService._knowledge_base self.
Proof.
  unfold SemanticService._prepare_product_texts.
  destruct (SemanticService._product_texts self);
    [|intros H; inversion H; subst; repeat split; congruence].
  destruct (SemanticService._knowledge_base self) as [kb|] eqn:Hkb;
    [|intros H; inversion H; subst; repeat split; congruence].
  destruct (products kb); [intros H; inversion H; subst; repeat split; congruence|].
  intros H. apply prepare_loop_keeps in H.
  destruct H as [Hm [He [Hn [Hk _]]]]. repeat split; congruence.
Qed.

(** An outcome of [build_embeddings] that is not empty has been stored. *)
Lemma build_embeddings_stored self embeddings self' :
  SemanticService.build_embeddings E self = (Ok embeddings, self') ->
  embeddings <> [] ->
  SemanticService._embeddings self' = Some embeddings.
Proof.
  unfold SemanticService.build_embeddings.
  destruct (SemanticService._embeddings self) as [cached|] eqn:Hemb.
  - intros H _. inversion H; subst. exact Hemb.
  - unfold bind at 1.
    destruct (SemanticService._prepare_product_texts E self) as [[[]|e] s1];
      [|discriminate].
    unfold bind, get.
    destruct (SemanticService._product_texts s1) as [|text texts].
    + intros H Hne. inversion H; subst. contradiction.
    + unfold try_except, bind, lift, modify, ret.
      destruct (SemanticService.model E s1) as [[[]|e] s2].
      * destruct (encode E (text :: texts)) as [vectors|e];
          intros H Hne; inversion H; subst; [reflexivity | contradiction].
      * intros H Hne. inversion H; subst. contradiction.
Qed.

(** X10: the embeddings are built once: after [build_embeddings] has
    returned vectors, every later call returns the same vectors and
    changes nothing, whatever the model would answer by then. *)
Theorem build_embeddings_memoized self embeddings self' :
  SemanticService.build_embeddings E self = (Ok embeddings, self') ->
  embeddings <> [] ->
  forall E' : Collaborators,
    SemanticService.build_embeddings E' self' = (Ok embeddings, self').
Proof.
  intros Hrun Hne E'.
  apply build_embeddings_stored in Hrun; [|exact Hne].
  unfold SemanticService.build_embeddings. rewrite Hrun. reflexivity.
Qed.

(** X11: a service without a catalog (no knowledge base, or one with no
    products) and with an empty index answers every query with the empty
    result and stays as it is: the model is neither constructed nor
    asked. *)
Theorem find_similar_products_without_catalog query top_k threshold self :
  (SemanticService._knowledge_base self = None
   \/ exists kb, SemanticService._knowledge_base self = Some kb
                 /\ products kb = []) ->
  SemanticService._embeddings self = None ->
  SemanticService._product_texts self = [] ->
  SemanticService.find_similar_products E query top_k threshold self
  = (Ok [], self).
Proof.
  intros Hkb Hemb Htexts.
  assert (Hprep : SemanticService._prepare_product_texts E self = (Ok tt, self)).
  { unfold SemanticService._prepare_product_texts. rewrite Htexts.
    destruct Hkb as [-> | [kb [-> ->]]]; reflexivity. }
  unfold SemanticService.find_similar_products, try_except, bind at 1.
  unfold SemanticService.build_embeddings. rewrite Hemb.
  unfold bind at 1. rewrite Hprep. unfold bind, get. rewrite Htexts.
  reflexivity.
Qed.

(** X12: a failure to construct the model is not remembered: the query
    returns the empty result, no embeddings are stored and the model is
    still missing, so the next query tries again. *)
Theorem find_similar_products_model_failure query top_k threshold self e :
  SemanticService._embeddings self = None ->
  SemanticService._model self = false ->
  SentenceTransformer E (SemanticService.model_name self) = Raise e ->
  exists self',
    SemanticService.find_similar_products E query top_k threshold self
    = (Ok [], self')
    /\ SemanticService._embeddings self' = None
    /\ SemanticService._model self' = false.
Proof.
  intros Hemb Hmodel Hload.
  unfold SemanticService.find_similar_products, try_except, bind at 1.
  unfold SemanticService.build_embeddings. rewrite Hemb.
  unfold bind at 1.
  destruct (SemanticService._prepare_product_texts E self) as [r1 s1] eqn:Hprep.
  apply _prepare_product_texts_keeps in Hprep.
  destruct Hprep as [Hm [He [Hn _]]].
  destruct r1 as [[]|e1];
    [|exists s1; repeat split; [congruence | congruence]].
  unfold bind, get.
  destruct (SemanticService._product_texts s1) as [|text texts].
  - exists s1. repeat split; congruence.
  - unfold try_except, bind, SemanticService.model.
    rewrite Hm, Hmodel, Hn, Hload. simpl.
    exists s1. repeat split; congruence.
Qed.

End RetrieverProperties.

Lemma find_similar_products_returns_catalog_entries_witness :
  exists self',
    In (lit "C") (SemanticService._product_keys self')
    /\ exists kb,
         SemanticService._knowledge_base Demo.service = Some kb
         /\ dict_get (lit "C") (products kb) = Some (Demo.product (lit "C")).
Proof.
  eexists.
  eapply (find_similar_products_returns_catalog_entries Demo.collaborators
            (lit "ab") 2 (3 # 10)%Q Demo.service _ _ (lit "C")
            (Demo.product (lit "C")) 1%Q).
  - vm_compute. reflexivity.
  - left. reflexivity.
Defined.

Lemma build_embeddings_memoized_witness :
  exists embeddings self',
    SemanticService.build_embeddings Demo.collaborators Demo.service
    = (Ok embeddings, self')
    /\ forall E' : Collaborators,
         SemanticService.build_embeddings E' self' = (Ok embeddings, self').
Proof.
  do 2 eexists. split; [vm_compute; reflexivity|].
  apply (build_embeddings_memoized Demo.collaborators Demo.service).
  - vm_compute. reflexivity.
  - discriminate.
Defined.

Lemma find_similar_products_without_catalog_witness :
  SemanticService.find_similar_products Demo.collaborators (lit "ab") 3
    (3 # 10)%Q (SemanticService.__init__ (lit "m"))
  = (Ok [], SemanticService.__init__ (lit "m")).
Proof.
  apply find_similar_products_without_catalog;
    [left; reflexivity | reflexivity | reflexivity].
Defined.

Lemma find_similar_products_model_failure_witness :
  exists self',
    SemanticService.find_similar_products Samples.offline (lit "ab") 3
      (3 # 10)%Q Demo.service = (Ok [], self')
    /\ SemanticService._embeddings self' = None
    /\ SemanticService._model self' = false.
Proof.
  apply (find_similar_products_model_failure Samples.offline (lit "ab") 3
           (3 # 10)%Q Demo.service (RuntimeError 3));
    reflexivity.
Defined.

Section IndexContents.

Variable E : Collaborators.

Lemma _prepare_product_texts_indexes kb self r self' :
  SemanticService._knowledge_base self = Some kb ->
  (SemanticService._product_keys self = []
   /\ SemanticService._product_texts self = []
   \/ indexes E kb self) ->
  SemanticService._prepare_product_texts E self = (r, self') ->
  indexes E kb self'.
Proof.
  intros Hkb Hstate. unfold SemanticService._prepare_product_texts.
  destruct (SemanticService._product_texts self) as [|text texts] eqn:Htexts.
  - assert (Hkeys : SemanticService._product_keys self = []).
    { destruct Hstate as [[Hk _] | [_ [Hk Ht]]]; [exact Hk|].
      rewrite Hk. destruct (prepared E (products kb)); [reflexivity|].
      rewrite Htexts in Ht. discriminate. }
    rewrite Hkb. destruct (products kb) as [|item items] eqn:Hitems.
    + intros H. inversion H; subst. unfold indexes.
      rewrite Hkb, Hitems, Hkeys, Htexts. auto.
    + intros H. apply prepare_loop_keeps in H.
      destruct H as [_ [_ [_ [Hk [Hkeys' Htexts']]]]].
      unfold indexes. rewrite Hitems, Hk, Hkeys', Htexts', Hkeys, Htexts.
      auto.
  - intros H. inversion H; subst.
    destruct Hstate as [[_ Ht] | Hidx]; [congruence | exact Hidx].
Qed.

Lemma build_embeddings_indexes kb self r self' :
  SemanticService._knowledge_base self = Some kb ->
  (SemanticService._embeddings self = None
   /\ SemanticService._product_keys self = []
   /\ SemanticService._product_texts self = []
   \/ indexes E kb self) ->
  SemanticService.build_embeddings E self = (r, self') ->
  indexes E kb self'.
Proof.
  intros Hkb Hstate. unfold SemanticService.build_embeddings.
  destruct (SemanticService._embeddings self) as [cached|] eqn:Hemb.
  - intros H. inversion H; subst.
    destruct Hstate as [[He _] | Hidx]; [congruence | exact Hidx].
  - unfold bind at 1.
    destruct (SemanticService._prepare_product_texts E self) as [r1 s1] eqn:Hprep.
    assert (Hs1 : indexes E kb s1).
    { apply (_prepare_product_texts_indexes kb self r1 s1 Hkb); [|exact Hprep].
      destruct Hstate as [[_ Hnil] | Hidx]; [left; exact Hnil | right; exact Hidx]. }
    destruct r1 as [[]|e]; [|intros H; inversion H; subst; exact Hs1].
    unfold bind, get.
    destruct (SemanticService._product_texts s1) as [|text texts] eqn:Htexts;
      [intros H; inversion H; subst; exact Hs1|].
    unfold try_except, bind, lift, modify, ret.
    destruct (SemanticService.model E s1) as [r2 s2] eqn:Hmodel.
    apply model_frame in Hmodel.
    destruct Hmodel as [Hk [Ht [_ [Hkb2 _]]]].
    assert (Hs2 : indexes E kb s2).
    { destruct Hs1 as [H1 [H2 H3]]. unfold indexes.
      rewrite Hkb2, Hk, Ht, Htexts. rewrite Htexts in H3. auto. }
    destruct r2 as [[]|e]; [|intros H; inversion H; subst; exact Hs2].
    destruct (encode E (text :: texts)); intros H; inversion H; subst;
      exact Hs2.
Qed.

Lemma find_similar_products_indexes kb query top_k threshold self r self' :
  SemanticService._knowledge_base self = Some kb ->
  (SemanticService._embeddings self = None
   /\ SemanticService._product_keys self = []
   /\ SemanticService._product_texts self = []
   \/ indexes E kb self) ->
  SemanticService.find_similar_products E query top_k threshold self = (r, self') ->
  indexes E kb self'.
Proof.
  intros Hkb Hstate.
  unfold SemanticService.find_similar_products, try_except, bind.
  destruct (SemanticService.build_embeddings E self) as [r1 s1] eqn:Hbuild.
  apply (build_embeddings_indexes kb self r1 s1 Hkb Hstate) in Hbuild.
  destruct r1 as [embeddings|e]; [|intros H; inversion H; subst; exact Hbuild].
  destruct (SemanticService.size embeddings =? 0);
    [intros H; inversion H; subst; exact Hbuild|].
  destruct (SemanticService.model E s1) as [r2 s2] eqn:Hmodel.
  apply model_frame in Hmodel. destruct Hmodel as [Hk [Ht [_ [Hkb2 _]]]].
  assert (Hs2 : indexes E kb s2).
  { destruct Hbuild as [H1 [H2 H3]]. unfold indexes.
    rewrite Hkb2, Hk, Ht. auto. }
  destruct r2 as [[]|e]; [|intros H; inversion H; subst; exact Hs2].
  unfold lift, get, ret.
  destruct (encode E [query]) as [[|q qs]|e];
    try solve [intros H; inversion H; subst; exact Hs2].
  destruct (SemanticService.collect s2 threshold
              (map (cosine_similarity E q) embeddings)
              (SemanticService.slice_to top_k
                 (rev (SemanticService.argsort
                         (map (cosine_similarity E q) embeddings)))));
    intros H; inversion H; subst; exact Hs2.
Qed.

(** X13: after the knowledge base has been set and at least one query or
    build has run, the index holds exactly the products that come before
    the first product whose text cannot be built, in catalog order, and
    no later query or build changes that: a product with a malformed
    field hides itself and every product after it from the search. *)
Theorem index_is_prepared_prefix (kb : KnowledgeBase) (calls : list call)
    (self : SemanticService.t) :
  calls <> [] ->
  Forall is_query calls ->
  let self' :=
    run_calls E calls (snd (SemanticService.set_knowledge_base kb self)) in
  SemanticService._product_keys self' = map fst (prepared E (products kb))
  /\ SemanticService._product_texts self' = map snd (prepared E (products kb)).
Proof.
  intros Hne Hq.
  assert (Hstep : forall c s,
             is_query c ->
             SemanticService._knowledge_base s = Some kb ->
             (SemanticService._embeddings s = None
              /\ SemanticService._product_keys s = []
              /\ SemanticService._product_texts s = []
              \/ indexes E kb s) ->
             indexes E kb (run_call E c s)).
  { intros c s Hc Hkb Hs. destruct c as [kb'| |query top_k threshold]; simpl.
    - destruct Hc.
    - destruct (SemanticService.build_embeddings E s) as [r s'] eqn:Hrun.
      exact (build_embeddings_indexes kb s r s' Hkb Hs Hrun).
    - destruct (SemanticService.find_similar_products E query top_k threshold s)
        as [r s'] eqn:Hrun.
      exact (find_similar_products_indexes kb _ _ _ s r s' Hkb Hs Hrun). }
  assert (Hall : forall l s,
             Forall is_query l -> indexes E kb s -> indexes E kb (run_calls E l s)).
  { unfold run_calls. induction l as [|c l IH]; intros s Hl Hs; simpl;
      [exact Hs|].
    inversion Hl as [|c' l' Hc Hrest]; subst. apply IH; [assumption|].
    apply Hstep; [assumption | apply Hs | right; exact Hs]. }
  destruct calls as [|c calls]; [contradiction|].
  inversion Hq as [|c' calls' Hc Hrest]; subst. simpl.
  assert (Hfirst :
            indexes E kb
              (run_call E c (snd (SemanticService.set_knowledge_base kb self)))).
  { apply Hstep; [assumption | reflexivity | left; auto]. }
  destruct (Hall calls _ Hrest Hfirst) as [_ Hidx]. exact Hidx.
Qed.

(** The contract of the embedding model, as for the alignment. *)
Hypothesis encode_length :
  forall texts embeddings,
    encode E texts = Ok embeddings ->
    List.length embeddings = List.length texts.

(** X14: statistics that are reported as ready count the stored
    embeddings: the number of products is the number of vectors and of
    texts, it is not zero, the dimension is the length of the first
    vector, and the model name is the one of the service. *)
Theorem get_embedding_stats_ready self n d model_name total self' :
  aligned self ->
  SemanticService.get_embedding_stats E self
  = (Ok (SemanticService.ready n d model_name total), self') ->
  0 < n
  /\ model_name = SemanticService.model_name self
  /\ List.length (SemanticService._product_texts self') = n
  /\ exists v embeddings,
       SemanticService._embeddings self' = Some (v :: embeddings)
       /\ List.length (v :: embeddings) = n
       /\ List.length v = d.
Proof.
  intros Hal. unfold SemanticService.get_embedding_stats, bind at 1.
  destruct (SemanticService.build_embeddings E self) as [[embeddings|e] s1]
    eqn:Hbuild; [|discriminate].
  destruct (SemanticService.size embeddings =? 0) eqn:Hsize; [discriminate|].
  unfold bind, get, ret. intros H. inversion H; subst. clear H.
  destruct embeddings as [|v embeddings]; [discriminate|].
  pose proof (build_embeddings_stored E _ _ _ Hbuild) as Hstored.
  specialize (Hstored ltac:(discriminate)).
  pose proof (build_embeddings_aligned E encode_length _ _ _ Hbuild Hal)
    as [Hlen Hvec].
  pose proof (build_embeddings_frame E _ _ _ Hbuild) as [Hname _].
  specialize (Hvec _ Hstored).
  split; [rewrite <- Hvec; simpl; lia|].
  split; [exact Hname|]. split; [symmetry; exact Hlen|].
  exists v, embeddings. auto.
Qed.

End IndexContents.

Lemma index_is_prepared_prefix_witness :
  SemanticService._product_keys
    (run_calls Demo.collaborators
       [FindSimilarProducts (lit "ab") 3 (3 # 10)%Q; BuildEmbeddings]
       (snd (SemanticService.set_knowledge_base Samples.kb
               (SemanticService.__init__ (lit "m")))))
  = [lit "A"].
Proof.
  apply (proj1 (index_is_prepared_prefix Demo.collaborators Samples.kb
                  [FindSimilarProducts (lit "ab") 3 (3 # 10)%Q; BuildEmbeddings]
                  (SemanticService.__init__ (lit "m"))
                  ltac:(discriminate)
                  ltac:(repeat constructor))).
Defined.

Lemma get_embedding_stats_ready_witness :
  exists n d model_name total self',
    SemanticService.get_embedding_stats Demo.collaborators Demo.service
    = (Ok (SemanticService.ready n d model_name total), self')
    /\ 0 < n
    /\ List.length (SemanticService._product_texts self') = n.
Proof.
  do 5 eexists.
  assert (Hrun : SemanticService.get_embedding_stats Demo.collaborators
                   Demo.service
                 = (Ok (SemanticService.ready 3 1
                          (SemanticService.model_name Demo.service) 6),
                    snd (SemanticService.build_embeddings Demo.collaborators
                           Demo.service)))
    by (vm_compute; reflexivity).
  split; [exact Hrun|].
  assert (Hal : aligned Demo.service) by (split; [reflexivity | discriminate]).
  assert (Henc : forall texts embeddings,
             encode Demo.collaborators texts = Ok embeddings ->
             List.length embeddings = List.length texts).
  { intros texts embeddings H. simpl in H. unfold Demo.encoder in H.
    inversion H. apply length_map. }
  destruct (get_embedding_stats_ready Demo.collaborators Henc Demo.service
              _ _ _ _ _ Hal Hrun) as [Hn [_ [Ht _]]].
  split; assumption.
Defined.

(** ** The generative service *)

Section GeminiProperties.

Variable E : Collaborators.

Lemma attempts_first_answer prompt max_retries n :
  forall a,
    a + n = max_retries + 1 ->
    match GeminiService.attempts E prompt max_retries (seq a n) with
    | Some text =>
        exists attempt raw,
          a <= attempt <= max_retries
          /\ generate_content E attempt prompt = Ok raw
          /\ nonempty raw = true
          /\ text = strip raw
          /\ forall earlier,
               a <= earlier < attempt -> unanswered E prompt earlier
    | None =>
        forall attempt,
          a <= attempt <= max_retries -> unanswered E prompt attempt
    end.
Proof.
  induction n as [|n IH]; intros a Hsum; simpl.
  - intros attempt Hrange. lia.
  - specialize (IH (S a) ltac:(lia)).
    destruct (generate_content E a prompt) as [raw|e] eqn:Hgen.
    + destruct (nonempty raw) eqn:Hraw.
      * exists a, raw.
        refine (conj _ (conj Hgen (conj Hraw (conj eq_refl _)))); [lia|].
        intros earlier Hrange. lia.
      * assert (Ha : unanswered E prompt a).
        { intros raw' Hraw'. rewrite Hgen in Hraw'. inversion Hraw'; subst.
          destruct raw'; [reflexivity | discriminate]. }
        destruct (GeminiService.attempts E prompt max_retries (seq (S a) n))
          as [text|].
        -- destruct IH as [attempt [raw' [Hrange [Hg [Hne [Htext Hearlier]]]]]].
           exists attempt, raw'.
           refine (conj _ (conj Hg (conj Hne (conj Htext _)))); [lia|].
           intros earlier Hr.
           destruct (Nat.eq_dec earlier a) as [-> | Hneq]; [exact Ha|].
           apply Hearlier. lia.
        -- intros attempt Hr.
           destruct (Nat.eq_dec attempt a) as [-> | Hneq]; [exact Ha|].
           apply IH. lia.
    + assert (Ha : unanswered E prompt a).
      { intros raw' Hraw'. rewrite Hgen in Hraw'. discriminate. }
      destruct (a =? max_retries) eqn:Hlast.
      * apply Nat.eqb_eq in Hlast. intros attempt Hr.
        replace attempt with a by lia. exact Ha.
      * destruct (GeminiService.attempts E prompt max_retries (seq (S a) n))
          as [text|].
        -- destruct IH as [attempt [raw' [Hrange [Hg [Hne [Htext Hearlier]]]]]].
           exists attempt, raw'.
           refine (conj _ (conj Hg (conj Hne (conj Htext _)))); [lia|].
           intros earlier Hr.
           destruct (Nat.eq_dec earlier a) as [-> | Hneq]; [exact Ha|].
           apply Hearlier. lia.
        -- intros attempt Hr.
           destruct (Nat.eq_dec attempt a) as [-> | Hneq]; [exact Ha|].
           apply IH. lia.
Qed.

(** X15: the generative service returns the stripped text of the first
    attempt, among attempts 0 to [max_retries], whose text is not empty,
    every earlier attempt having raised or answered nothing; it returns
    nothing when the service is unavailable or when each of these attempts
    raises or answers nothing. No attempt beyond [max_retries] is made. *)
Theorem gemini_generate_response_first_answer (self : GeminiService.t)
    (prompt : str) (max_retries : nat) :
  match GeminiService.generate_response E self prompt max_retries with
  | Some text =>
      GeminiService.is_available self = true
      /\ GeminiService.model self = true
      /\ exists attempt raw,
           attempt <= max_retries
           /\ generate_content E attempt prompt = Ok raw
           /\ nonempty raw = true
           /\ text = strip raw
           /\ forall earlier, earlier < attempt -> unanswered E prompt earlier
  | None =>
      GeminiService.is_available self = false
      \/ GeminiService.model self = false
      \/ forall attempt, attempt <= max_retries -> unanswered E prompt attempt
  end.
Proof.
  unfold GeminiService.generate_response.
  destruct (GeminiService.is_available self); simpl; [|left; reflexivity].
  destruct (GeminiService.model self); simpl; [|right; left; reflexivity].
  pose proof (attempts_first_answer prompt max_retries (max_retries + 1) 0
                eq_refl) as H.
  destruct (GeminiService.attempts E prompt max_retries
              (seq 0 (max_retries + 1))) as [text|].
  - destruct H as [attempt [raw [Hrange [Hg [Hne [Htext Hearlier]]]]]].
    split; [reflexivity|]. split; [reflexivity|].
    exists attempt, raw.
    refine (conj _ (conj Hg (conj Hne (conj Htext _)))); [lia|].
    intros earlier Hr. apply Hearlier. lia.
  - right. right. intros attempt Hr. apply H. lia.
Qed.

Lemma last_items_last_items {A} (l : list A) :
  ConversationContext.last_items 3 (ConversationContext.last_items 3 l)
  = ConversationContext.last_items 3 l.
Proof.
  unfold ConversationContext.last_items.
  rewrite length_skipn.
  replace (List.length l - (List.length l - 3) - 3) with 0 by lia.
  reflexivity.
Qed.

Lemma last_items_empty {A} (l : list A) :
  ConversationContext.last_items 3 l = [] -> l = [].
Proof.
  unfold ConversationContext.last_items. intros H.
  destruct l as [|x l]; [reflexivity|]. exfalso.
  apply (f_equal (@List.length A)) in H. rewrite length_skipn in H.
  cbn [List.length] in H. lia.
Qed.

(** X16: the prompt reads only the first three relevant products and the
    last three turns of the context it is given. *)
Theorem create_structured_prompt_local (user_input language : str)
    (relevant_products : list (str * Product * Q))
    (recent_context : list HistoryRecord) :
  GeminiService.create_structured_prompt E user_input language
    relevant_products recent_context
  = GeminiService.create_structured_prompt E user_input language
      (firstn 3 relevant_products)
      (ConversationContext.last_items 3 recent_context).
Proof.
  unfold GeminiService.create_structured_prompt.
  rewrite firstn_firstn, last_items_last_items. simpl Nat.min.
  assert (Hctx :
            forall (X : Type) (a b : X),
              match recent_context with [] => a | _ :: _ => b end
              = match ConversationContext.last_items 3 recent_context with
                | [] => a
                | _ :: _ => b
                end).
  { intros X a b.
    destruct (ConversationContext.last_items 3 recent_context) eqn:Hlast.
    - apply last_items_empty in Hlast. rewrite Hlast. reflexivity.
    - destruct recent_context; [discriminate | reflexivity]. }
  rewrite <- Hctx.
  destruct relevant_products as [|r rs]; reflexivity.
Qed.






End GeminiProperties.

Lemma gemini_still_answers_on_third_attempt :
  GeminiService.generate_response Samples.talkative Samples.gemini (lit "q") 2
  = Some (lit "Visa Gold has no annual fee.")
  /\ GeminiService.generate_response Samples.talkative Samples.gemini (lit "q") 1
     = None.
Proof. split; reflexivity. Qed.

(** X18: a constructed generative service is available exactly when it
    holds a model, and that is exactly when the client library is
    installed, the key (the argument or, without one, the environment
    variable) is neither empty nor the placeholder of the sample
    configuration, and both the configuration call and the construction of
    the model succeed. *)
Theorem gemini_init_availability (genai : bool) (getenv : option str)
    (configure GenerativeModel : str -> result unit)
    (api_key : option str) (model_name : str) :
  let self :=
    GeminiService.__init__ genai getenv configure GenerativeModel api_key
      model_name in
  GeminiService.is_available self = GeminiService.model self
  /\ GeminiService.model_name self = model_name
  /\ (GeminiService.is_available self = true <->
      genai = true
      /\ exists key,
           match api_key with
           | Some given => given = key
           | None => getenv = Some key
           end
           /\ nonempty key = true
           /\ key <> lit "your_gemini_api_key_here"
           /\ configure key = Ok tt
           /\ GenerativeModel model_name = Ok tt).
Proof.
  simpl. unfold GeminiService.__init__, GeminiService._setup_model.
  destruct genai; simpl;
    [|repeat split; try discriminate; intros [H _]; discriminate].
  set (chosen := match api_key with None => getenv | Some key => Some key end).
  assert (Hchosen : forall key,
             chosen = Some key <->
             match api_key with
             | Some given => given = key
             | None => getenv = Some key
             end).
  { intros key. unfold chosen. destruct api_key as [given|]; [|tauto].
    split; [intros H; inversion H; reflexivity | intros ->; reflexivity]. }
  destruct chosen as [key|] eqn:Hkey.
  - destruct (nonempty key) eqn:Hne; simpl.
    + destruct (eqb key (lit "your_gemini_api_key_here")) eqn:Hph; simpl.
      * apply eqb_eq in Hph. repeat split; try discriminate.
        intros [_ [key' [Hk [_ [Hneq _]]]]].
        apply Hchosen in Hk. inversion Hk; subst. congruence.
      * apply eqb_neq in Hph.
        destruct (configure key) as [[]|e] eqn:Hconf; simpl.
        -- destruct (GenerativeModel model_name) as [[]|e] eqn:Hgm; simpl.
           ++ repeat split; auto.
              exists key. repeat split; auto. apply Hchosen. reflexivity.
           ++ repeat split; try discriminate.
              intros [_ [key' [_ [_ [_ [_ Hgm']]]]]]. discriminate.
        -- repeat split; try discriminate.
           intros [_ [key' [Hk [_ [_ [Hconf' _]]]]]].
           apply Hchosen in Hk. inversion Hk; subst. congruence.
    + repeat split; try discriminate.
      intros [_ [key' [Hk [Hne' _]]]].
      apply Hchosen in Hk. inversion Hk; subst. congruence.
  - repeat split; try discriminate.
    intros [_ [key' [Hk _]]]. apply Hchosen in Hk. discriminate.
Qed.


(** ** The chatbot, beyond the turn as a whole *)

Section ChatbotProperties.

Variable E : Collaborators.

Lemma match_patterns_cases text_lower intent patterns best :
  FibankChatbot.match_patterns E text_lower intent patterns best = best
  \/ (FibankChatbot.match_patterns E text_lower intent patterns best
      = (intent, (8 # 10)%Q)
      /\ exists pattern,
           In pattern patterns /\ search E pattern text_lower = true).
Proof.
  induction patterns as [|p r IH]; simpl; [left; reflexivity|].
  destruct (search E p text_lower) eqn:Hp.
  - destruct (Qltb (snd best) (8 # 10)).
    + right. split; [reflexivity|]. exists p. auto.
    + destruct IH as [IH | [IH [q [Hq Hs]]]]; [left; exact IH|].
      right. split; [exact IH|]. exists q. auto.
  - destruct IH as [IH | [IH [q [Hq Hs]]]]; [left; exact IH|].
    right. split; [exact IH|]. exists q. auto.
Qed.

(** X19: the classifier answers [general] with confidence 0.0, or a
    category of the configuration with confidence 0.8, and then one of the
    patterns of that category matches the lowercased text: no other
    intent and no other confidence ever comes out. *)
Theorem find_intent_range (self : FibankChatbot.t) (text : str) :
  FibankChatbot.find_intent E self text = (lit "general", 0%Q)
  \/ exists intent patterns pattern,
       FibankChatbot.find_intent E self text = (intent, (8 # 10)%Q)
       /\ In (intent, patterns) (FibankChatbot.intent_patterns self)
       /\ In pattern patterns
       /\ search E pattern (lower E text) = true.
Proof.
  unfold FibankChatbot.find_intent.
  generalize (lower E text). intros text_lower.
  assert (H : forall (config : dict (list str)) best,
             let out :=
               fold_left
                 (fun best (entry : str * list str) =>
                    let (intent, patterns) := entry in
                    FibankChatbot.match_patterns E text_lower intent patterns
                      best) config best in
             out = best
             \/ exists intent patterns pattern,
                  out = (intent, (8 # 10)%Q)
                  /\ In (intent, patterns) config
                  /\ In pattern patterns
                  /\ search E pattern text_lower = true).
  { induction config as [|[i ps] r IH]; intros best; simpl;
      [left; reflexivity|].
    destruct (match_patterns_cases text_lower i ps best)
      as [Hsame | [Hnew [p [Hp Hs]]]].
    - rewrite Hsame. destruct (IH best) as [H | [i' [ps' [p' [H1 [H2 H3]]]]]];
        [left; exact H|].
      right. exists i', ps', p'. split; [exact H1|]. split; [right; exact H2|].
      exact H3.
    - rewrite Hnew. rewrite classify_fold_kept.
      right. exists i, ps, p. split; [reflexivity|].
      split; [left; reflexivity|]. auto. }
  apply H.
Qed.

(** The classifier reads the patterns only. *)
Lemma find_intent_with_context f self text :
  FibankChatbot.find_intent E (FibankChatbot.with_context f self) text
  = FibankChatbot.find_intent E self text.
Proof. reflexivity. Qed.

(** X20: a turn on an input that is not blank and whose language is
    detected appends exactly one record to the history, holding the input,
    the clock reading, the detected language and the intent and confidence
    of the classifier, and makes that language the language of the
    conversation. *)
Theorem generate_response_records_turn now user_input self language :
  blank user_input = false ->
  I18n.detect_language E user_input = Ok language ->
  let self' := snd (FibankChatbot.generate_response E now user_input self) in
  ConversationContext.conversation_history (FibankChatbot.context self')
  = ConversationContext.conversation_history (FibankChatbot.context self)
    ++ [{| user := user_input;
           timestamp := now;
           language := language;
           intent := fst (FibankChatbot.find_intent E self user_input);
           confidence := snd (FibankChatbot.find_intent E self user_input) |}]
  /\ FibankChatbot.user_language self' = language.
Proof.
  intros Hblank Hdetect.
  destruct (FibankChatbot.find_intent E self user_input)
    as [intent confidence] eqn:Hintent.
  destruct (generate_response_body_recorded E now user_input self language
              intent confidence Hblank Hdetect)
    as [response [self' [Hbody [s [-> _]]]]].
  { rewrite find_intent_with_context. exact Hintent. }
  unfold FibankChatbot.generate_response, try_except. rewrite Hbody.
  simpl. split; reflexivity.
Qed.

(** X21: a turn classified as [credit_cards] or [loans] is answered by
    the keyword handler on the chatbot as recorded, followed by the
    footer; it leaves the semantic service and the generative service
    untouched, so no embedding is built and no model is asked. *)
Theorem generate_response_keyword_intents now user_input self language :
  blank user_input = false ->
  I18n.detect_language E user_input = Ok language ->
  let intent := fst (FibankChatbot.find_intent E self user_input) in
  let confidence := snd (FibankChatbot.find_intent E self user_input) in
  let self' := recorded now user_input language intent confidence self in
  (intent = lit "credit_cards" ->
   FibankChatbot.generate_response E now user_input self
   = (Ok (FibankChatbot.handle_credit_card_inquiry E self' user_input
          ++ FibankChatbot.contact_footer language), self'))
  /\ (intent = lit "loans" ->
      FibankChatbot.generate_response E now user_input self
      = (Ok (FibankChatbot.handle_loan_inquiry E self' user_input
             ++ FibankChatbot.contact_footer language), self'))
  /\ FibankChatbot.semantic_service self' = FibankChatbot.semantic_service self
  /\ FibankChatbot.gemini_service self' = FibankChatbot.gemini_service self.
Proof.
  intros Hblank Hdetect.
  destruct (FibankChatbot.find_intent E self user_input)
    as [intent confidence] eqn:Hintent.
  simpl fst. simpl snd. cbv zeta.
  assert (Hbody :
            FibankChatbot.generate_response_body E now user_input self
            = (let s2 := recorded now user_input language intent confidence self in
               let (r, s3) :=
                 (if eqb intent (lit "credit_cards")
                  then (Ok (FibankChatbot.handle_credit_card_inquiry E s2
                              user_input), s2)
                  else if eqb intent (lit "loans")
                  then (Ok (FibankChatbot.handle_loan_inquiry E s2 user_input),
                        s2)
                  else FibankChatbot._generate_ai_or_fallback_response E
                         user_input intent confidence s2) in
               match r with
               | Ok response =>
                   (Ok (response
                        ++ FibankChatbot.contact_footer
                             (FibankChatbot.user_language s3)), s3)
               | Raise e => (Raise e, s3)
               end)).
  { unfold FibankChatbot.generate_response_body.
    rewrite Hblank. unfold bind, lift, modify, get, ret.
    rewrite Hdetect. cbv beta iota. rewrite find_intent_with_context, Hintent.
    cbv beta iota zeta.
    destruct (eqb intent (lit "credit_cards")); [reflexivity|].
    destruct (eqb intent (lit "loans")); reflexivity. }
  unfold FibankChatbot.generate_response, try_except. rewrite Hbody.
  cbv zeta. split; [|split; [|split; reflexivity]].
  - intros ->. rewrite eqb_refl. reflexivity.
  - intros ->.
    replace (eqb (lit "loans") (lit "credit_cards")) with false by reflexivity.
    rewrite eqb_refl. reflexivity.
Qed.

Lemma try_except_returns {S A} (c : M S A) (h : exn -> M S A) (s : S) a s' :
  c s = (Ok a, s') -> try_except c h s = (Ok a, s').
Proof. unfold try_except. intros ->. reflexivity. Qed.

Lemma ai_or_fallback_offline user_input intent confidence self response s :
  GeminiService.is_available (FibankChatbot.gemini_service self) = false ->
  FibankChatbot._generate_semantic_fallback_response E user_input self
  = (Ok response, s) ->
  FibankChatbot._generate_ai_or_fallback_response E user_input intent
    confidence self
  = (Ok response, s).
Proof.
  intros Hoff Hrun.
  unfold FibankChatbot._generate_ai_or_fallback_response.
  apply try_except_returns.
  unfold bind, get, ret. rewrite Hoff. exact Hrun.
Qed.

(** X22: without an available generative service the answer to a general
    question is the answer of the semantic fallback, and no prompt is
    built. *)
Theorem ai_or_fallback_unavailable user_input intent confidence self :
  GeminiService.is_available (FibankChatbot.gemini_service self) = false ->
  FibankChatbot._generate_ai_or_fallback_response E user_input intent
    confidence self
  = FibankChatbot._generate_semantic_fallback_response E user_input self.
Proof.
  intros Hoff.
  destruct (semantic_fallback_returns E user_input self)
    as [response [s [Hrun _]]].
  rewrite Hrun. apply ai_or_fallback_offline; assumption.
Qed.

(** X23: with no generative service, a question that is neither about
    cards nor about loans and for which the retriever finds no product
    above the threshold is answered, in the detected language, by the
    notice that nothing relevant was found, followed by the footer; the
    chatbot keeps the semantic service as the retriever left it. *)
Theorem generate_response_nothing_relevant now user_input self language s :
  blank user_input = false ->
  I18n.detect_language E user_input = Ok language ->
  fst (FibankChatbot.find_intent E self user_input) <> lit "credit_cards" ->
  fst (FibankChatbot.find_intent E self user_input) <> lit "loans" ->
  GeminiService.is_available (FibankChatbot.gemini_service self) = false ->
  SemanticService.find_similar_products E user_input 5 (3 # 10)%Q
    (FibankChatbot.semantic_service self) = (Ok [], s) ->
  FibankChatbot.generate_response E now user_input self
  = (Ok ((if eqb language bg
          then Fore_YELLOW
               ++ lit "Съжалявам, не намерих релевантна информация за вашия въпрос. "
               ++ lit "Можете да попитате за кредитни карти или кредити."
               ++ RESET_ALL
          else Fore_YELLOW
               ++ lit "Sorry, I couldn't find relevant information for your question. "
               ++ lit "You can ask about credit cards or loans." ++ RESET_ALL)
         ++ FibankChatbot.contact_footer language),
     FibankChatbot.with_semantic_service s
       (recorded now user_input language
          (fst (FibankChatbot.find_intent E self user_input))
          (snd (FibankChatbot.find_intent E self user_input)) self)).
Proof.
  intros Hblank Hdetect Hcards Hloans Hoff Hfind.
  destruct (FibankChatbot.find_intent E self user_input)
    as [intent confidence] eqn:Hintent.
  simpl fst in *. simpl snd in *.
  apply eqb_neq in Hcards. apply eqb_neq in Hloans.
  set (s2 := recorded now user_input language intent confidence self).
  assert (Hfallback :
            FibankChatbot._generate_semantic_fallback_response E user_input s2
            = (Ok (if eqb language bg
                   then Fore_YELLOW
                        ++ lit "Съжалявам, не намерих релевантна информация за вашия въпрос. "
                        ++ lit "Можете да попитате за кредитни карти или кредити."
                        ++ RESET_ALL
                   else Fore_YELLOW
                        ++ lit "Sorry, I couldn't find relevant information for your question. "
                        ++ lit "You can ask about credit cards or loans."
                        ++ RESET_ALL),
               FibankChatbot.with_semantic_service s s2)).
  { unfold FibankChatbot._generate_semantic_fallback_response, try_except.
    unfold bind at 1. unfold FibankChatbot.on_semantic_service.
    replace (FibankChatbot.semantic_service s2)
      with (FibankChatbot.semantic_service self) by reflexivity.
    rewrite Hfind. unfold bind, get, ret.
    replace (FibankChatbot.user_language
               (FibankChatbot.with_semantic_service s s2))
      with language by reflexivity.
    destruct (eqb language bg); reflexivity. }
  unfold FibankChatbot.generate_response.
  apply try_except_returns.
  unfold FibankChatbot.generate_response_body.
  rewrite Hblank. unfold bind at 1. unfold lift at 1. rewrite Hdetect.
  unfold bind at 1. unfold modify at 1. unfold bind at 1. unfold get at 1.
  rewrite find_intent_with_context, Hintent.
  unfold bind at 1. unfold modify at 1.
  replace (FibankChatbot.user_language
             (FibankChatbot.with_context
                (ConversationContext.set_user_language language) self))
    with language by reflexivity.
  fold (recorded now user_input language intent confidence self). fold s2.
  unfold bind at 1. rewrite Hcards, Hloans.
  rewrite (ai_or_fallback_offline user_input intent confidence s2 _ _
             Hoff Hfallback).
  unfold bind, get, ret. reflexivity.
Qed.

End ChatbotProperties.

Lemma generate_response_records_turn_witness :
  ConversationContext.conversation_history
    (FibankChatbot.context
       (snd (FibankChatbot.generate_response Demo.collaborators Demo.now
               (lit "Loan rate") (Demo.bot bg))))
  = ConversationContext.conversation_history
      (FibankChatbot.context (Demo.bot bg))
    ++ [{| user := lit "Loan rate"; timestamp := Demo.now; language := en;
           intent :=
             fst (FibankChatbot.find_intent Demo.collaborators (Demo.bot bg)
                    (lit "Loan rate"));
           confidence :=
             snd (FibankChatbot.find_intent Demo.collaborators (Demo.bot bg)
                    (lit "Loan rate")) |}].
Proof.
  apply (proj1 (generate_response_records_turn Demo.collaborators Demo.now
                  (lit "Loan rate") (Demo.bot bg) en eq_refl eq_refl)).
Defined.

Lemma generate_response_keyword_intents_witness :
  FibankChatbot.semantic_service
    (recorded Demo.now (lit "Loan rate") en
       (fst (FibankChatbot.find_intent Demo.collaborators (Demo.bot bg)
               (lit "Loan rate")))
       (snd (FibankChatbot.find_intent Demo.collaborators (Demo.bot bg)
               (lit "Loan rate")))
       (Demo.bot bg))
  = FibankChatbot.semantic_service (Demo.bot bg).
Proof.
  apply (proj1 (proj2 (proj2 (generate_response_keyword_intents
                                Demo.collaborators Demo.now (lit "Loan rate")
                                (Demo.bot bg) en eq_refl eq_refl)))).
Defined.

Lemma ai_or_fallback_unavailable_witness :
  FibankChatbot._generate_ai_or_fallback_response Demo.collaborators
    (lit "hello") (lit "general") 0%Q (Demo.bot en)
  = FibankChatbot._generate_semantic_fallback_response Demo.collaborators
      (lit "hello") (Demo.bot en).
Proof.
  apply ai_or_fallback_unavailable. reflexivity.
Defined.

Lemma generate_response_nothing_relevant_witness :
  exists self',
    FibankChatbot.generate_response Demo.collaborators Demo.now (lit "hello")
      (Demo.bot bg)
    = (Ok ((if eqb en bg
            then Fore_YELLOW
                 ++ lit "Съжалявам, не намерих релевантна информация за вашия въпрос. "
                 ++ lit "Можете да попитате за кредитни карти или кредити."
                 ++ RESET_ALL
            else Fore_YELLOW
                 ++ lit "Sorry, I couldn't find relevant information for your question. "
                 ++ lit "You can ask about credit cards or loans." ++ RESET_ALL)
           ++ FibankChatbot.contact_footer en), self').
Proof.
  eexists.
  apply (generate_response_nothing_relevant Demo.collaborators Demo.now
           (lit "hello") (Demo.bot bg) en
           (snd (SemanticService.find_similar_products Demo.collaborators
                   (lit "hello") 5 (3 # 10)%Q Demo.service))).
  - reflexivity.
  - reflexivity.
  - vm_compute. discriminate.
  - vm_compute. discriminate.
  - reflexivity.
  - vm_compute. reflexivity.
Defined.

(** ** The keys of the catalog *)

Lemma dict_set_keys {V} (k : str) (v : V) (d : dict V) :
  map fst (dict_set k v d)
  = if existsb (eqb k) (map fst d) then map fst d else map fst d ++ [k].
Proof.
  induction d as [|[k' v'] r IH]; simpl; [reflexivity|].
  destruct (eqb k k'); simpl; [reflexivity|].
  rewrite IH. destruct (existsb (eqb k) (map fst r)); reflexivity.
Qed.

Lemma fold_write_keys (writes : list (str * Product)) (combined : dict Product) :
  let result := fold_left write writes combined in
  (NoDup (map fst combined) -> NoDup (map fst result))
  /\ (forall key, In key (map fst result)
                  <-> In key (map fst combined) \/ In key (map fst writes))
  /\ List.length result <= List.length combined + List.length writes.
Proof.
  revert combined. induction writes as [|[k p] r IH]; intros combined; simpl.
  - split; [auto|]. split; [intros key; tauto | lia].
  - destruct (IH (write combined (k, p))) as [Hnd [Hin Hlen]].
    assert (Hkeys : map fst (write combined (k, p))
                    = if existsb (eqb k) (map fst combined)
                      then map fst combined else map fst combined ++ [k])
      by apply dict_set_keys.
    split; [|split].
    + intros H. apply Hnd. rewrite Hkeys.
      destruct (existsb (eqb k) (map fst combined)) eqn:Hk; [exact H|].
      apply NoDup_snoc; [exact H|].
      intros Hin'. apply existsb_eqb_In in Hin'. congruence.
    + intros key. rewrite Hin, Hkeys.
      destruct (existsb (eqb k) (map fst combined)) eqn:Hk.
      * apply existsb_eqb_In in Hk. intuition (subst; auto).
      * rewrite in_app_iff. simpl. intuition (subst; auto).
    + assert (Hone : List.length (write combined (k, p))
                     <= S (List.length combined)).
      { rewrite <- (length_map fst), Hkeys.
        destruct (existsb (eqb k) (map fst combined));
          [rewrite length_map; lia|].
        rewrite length_app, length_map. simpl. lia. }
      lia.
Qed.

Lemma cp_in_filter (c : N) (f : N -> bool) (s : str) :
  f c = false -> cp_in c (filter f s) = false.
Proof.
  intros Hc. unfold cp_in.
  induction s as [|x r IH]; simpl; [reflexivity|].
  destruct (f x) eqn:Hx; simpl; [|exact IH].
  rewrite IH. destruct (N.eqb_spec c x) as [-> | _]; [congruence | reflexivity].
Qed.

Lemma strip_quotes_clean (product_name : str) :
  cp_in 34 (strip_quotes product_name) = false
  /\ cp_in 8222 (strip_quotes product_name) = false.
Proof.
  unfold strip_quotes. split; apply cp_in_filter; reflexivity.
Qed.

Lemma writes_of_keys kind (data : dataset) key :
  In key (map fst (writes_of kind data)) ->
  exists product_name, key = strip_quotes product_name.
Proof.
  intros H. apply in_map_iff in H. destruct H as [[k p] [Hk Hin]].
  simpl in Hk. subst k. apply writes_of_fields in Hin.
  exists (name p). tauto.
Qed.

(** X24: the built catalog is a proper dictionary whose keys are
    normalized: no key occurs twice, no key contains the quote characters
    U+0022 and U+201E, the keys are exactly the normalized names of the
    source entries, and there are no more products than source entries
    (fewer when two names collide). *)
Theorem combine_products_keys (cards loans : dataset) :
  let combined := FibankChatbot._combine_products cards loans in
  NoDup (map fst combined)
  /\ (forall key, In key (map fst combined) ->
                  cp_in 34 key = false /\ cp_in 8222 key = false)
  /\ (forall key, In key (map fst combined)
                  <-> In key (map fst (catalog_writes cards loans)))
  /\ List.length combined <= List.length (catalog_writes cards loans).
Proof.
  simpl. unfold FibankChatbot._combine_products.
  rewrite !combine_dataset_writes, <- fold_left_app.
  fold (catalog_writes cards loans).
  destruct (fold_write_keys (catalog_writes cards loans) [])
    as [Hnd [Hin Hlen]].
  split; [apply Hnd; constructor|].
  assert (Hiff : forall key,
             In key (map fst (fold_left write (catalog_writes cards loans) []))
             <-> In key (map fst (catalog_writes cards loans))).
  { intros key. rewrite Hin. simpl. tauto. }
  split; [|split; [exact Hiff | simpl in Hlen; exact Hlen]].
  intros key Hkey. apply Hiff in Hkey.
  unfold catalog_writes in Hkey. rewrite map_app in Hkey.
  apply in_app_or in Hkey.
  destruct Hkey as [Hkey | Hkey]; apply writes_of_keys in Hkey;
    destruct Hkey as [product_name ->]; apply strip_quotes_clean.
Qed.

(** ** The loan inquiry *)

Lemma category_mapping_nonempty loan_type category :
  dict_get loan_type FibankChatbot.category_mapping = Some category ->
  nonempty category = true.
Proof.
  unfold FibankChatbot.category_mapping. simpl.
  repeat match goal with
         | |- context [if ?c then _ else _] => destruct c
         end;
    intros H; inversion H; reflexivity.
Qed.

Section LoanInquiry.

Variable E : Collaborators.

(** X25: the loan handler shows one category exactly when the input
    mentions the keywords of exactly one configured loan type and that
    type is one of the four the handler maps to a category; with no type,
    several types, or a type the handler does not map, it shows the
    overview of all categories. *)
Theorem handle_loan_inquiry_dispatch (self : FibankChatbot.t) (user_input : str) :
  let mentioned_types :=
    map fst
      (filter
         (fun entry : str * list str =>
            FibankChatbot.mentioned E (lower E user_input) (snd entry))
         (dict_get_default (lit "loans") [] (FibankChatbot.keywords self))) in
  (forall loan_type category,
      mentioned_types = [loan_type] ->
      dict_get loan_type FibankChatbot.category_mapping = Some category ->
      FibankChatbot.handle_loan_inquiry E self user_input
      = FibankChatbot._show_loan_category E self category)
  /\ (List.length mentioned_types <> 1
      \/ (exists loan_type,
             mentioned_types = [loan_type]
             /\ dict_get loan_type FibankChatbot.category_mapping = None) ->
      FibankChatbot.handle_loan_inquiry E self user_input
      = FibankChatbot._show_all_loan_categories self).
Proof.
  cbv zeta. unfold FibankChatbot.handle_loan_inquiry. cbv zeta.
  generalize (map fst
                (filter
                   (fun entry : str * list str =>
                      FibankChatbot.mentioned E (lower E user_input) (snd entry))
                   (dict_get_default (lit "loans") []
                      (FibankChatbot.keywords self)))).
  intros mentioned_types. split.
  - intros loan_type category -> Hmap. rewrite Hmap.
    rewrite (category_mapping_nonempty _ _ Hmap). reflexivity.
  - intros [Hlen | [loan_type [-> Hmap]]].
    + destruct mentioned_types as [|t1 [|t2 ts]]; try reflexivity.
      simpl in Hlen. contradiction.
    + rewrite Hmap. reflexivity.
Qed.

End LoanInquiry.

Lemma handle_loan_inquiry_dispatch_witness :
  FibankChatbot.handle_loan_inquiry Demo.collaborators Samples.banker
    (lit "Ипотека?")
  = FibankChatbot._show_loan_category Demo.collaborators Samples.banker
      (lit "Жилищни и ипотечни кредити")
  /\ FibankChatbot.handle_loan_inquiry Demo.collaborators Samples.banker
       (lit "ипотека или overdraft")
     = FibankChatbot._show_all_loan_categories Samples.banker.
Proof.
  destruct (handle_loan_inquiry_dispatch Demo.collaborators Samples.banker
              (lit "Ипотека?")) as [Hone _].
  destruct (handle_loan_inquiry_dispatch Demo.collaborators Samples.banker
              (lit "ипотека или overdraft")) as [_ Hall].
  split.
  - apply (Hone (lit "housing")); reflexivity.
  - apply Hall. left. vm_compute. discriminate.
Defined.

(** ** The session *)






Section Session.

Variable E : Collaborators.

Lemma generate_response_returns now user_input self :
  exists response self',
    FibankChatbot.generate_response E now user_input self = (Ok response, self').
Proof.
  unfold FibankChatbot.generate_response, try_except.
  destruct (FibankChatbot.generate_response_body E now user_input self)
    as [[response|e] s].
  - exists response, s. reflexivity.
  - exists (FibankChatbot._generate_error_response s), s. reflexivity.
Qed.




Lemma conversation_loop_stops exn_text before ev after out self :
  stops E ev = true ->
  FibankChatbot.conversation_loop E exn_text (before ++ ev :: after) out self
  = FibankChatbot.conversation_loop E exn_text (before ++ [ev]) out self.
Proof.
  intros Hstop. revert out self.
  induction before as [|b before IH]; intros out self.
  - destruct ev as [text now| |]; [|reflexivity|reflexivity].
    cbn [app FibankChatbot.conversation_loop]. cbn [stops] in Hstop.
    rewrite Hstop. reflexivity.
  - destruct b as [text now| |]; [|reflexivity|reflexivity].
    cbn [app FibankChatbot.conversation_loop].
    destruct (existsb (eqb (lower E (strip text))) FibankChatbot.exit_commands);
      [reflexivity|].
    destruct (negb (nonempty (strip text))); [apply IH|].
    destruct (FibankChatbot.generate_response E now (strip text) self)
      as [[response|e] self']; apply IH.
Qed.

(** X27: whatever follows the first exit command, end of input or
    interrupt is not read: the text written, the chatbot left behind and
    the way the loop ends are those of the session cut after that event. *)
Theorem start_conversation_stops exn_text before ev after self :
  stops E ev = true ->
  FibankChatbot.start_conversation E exn_text (before ++ ev :: after) self
  = FibankChatbot.start_conversation E exn_text (before ++ [ev]) self.
Proof.
  intros Hstop. unfold FibankChatbot.start_conversation.
  apply conversation_loop_stops. exact Hstop.
Qed.

Lemma conversation_loop_no_error_report exn_text exn_text' events out self :
  FibankChatbot.conversation_loop E exn_text events out self
  = FibankChatbot.conversation_loop E exn_text' events out self.
Proof.
  revert out self. induction events as [|ev rest IH]; intros out self;
    [reflexivity|].
  destruct ev as [text now| |]; [|reflexivity|reflexivity].
  cbn [FibankChatbot.conversation_loop].
  destruct (existsb (eqb (lower E (strip text))) FibankChatbot.exit_commands);
    [reflexivity|].
  destruct (negb (nonempty (strip text))); [apply IH|].
  destruct (generate_response_returns now (strip text) self)
    as [response [self' Hturn]].
  rewrite Hturn. apply IH.
Qed.

(** X28: the loop's own error report is never written: since the
    orchestrator answers every input, the session does not depend on how
    an exception would be put into words. *)
Theorem start_conversation_no_error_report exn_text exn_text' events self :
  FibankChatbot.start_conversation E exn_text events self
  = FibankChatbot.start_conversation E exn_text' events self.
Proof.
  unfold FibankChatbot.start_conversation.
  apply conversation_loop_no_error_report.
Qed.

End Session.

Lemma start_conversation_stops_witness :
  FibankChatbot.start_conversation Demo.collaborators (fun _ => [])
    ([FibankChatbot.Line (lit "  hello ") Demo.now]
     ++ FibankChatbot.Line (lit " QUIT ") Demo.now
     :: [FibankChatbot.Line (lit "cards") Demo.now])
    (Demo.bot en)
  = FibankChatbot.start_conversation Demo.collaborators (fun _ => [])
      ([FibankChatbot.Line (lit "  hello ") Demo.now]
       ++ [FibankChatbot.Line (lit " QUIT ") Demo.now])
      (Demo.bot en).
Proof.
  apply (start_conversation_stops Demo.collaborators (fun _ => [])
           [FibankChatbot.Line (lit "  hello ") Demo.now]
           (FibankChatbot.Line (lit " QUIT ") Demo.now)
           [FibankChatbot.Line (lit "cards") Demo.now] (Demo.bot en)).
  vm_compute. reflexivity.
Defined.

(** ** The credit card inquiry *)

Lemma find_first {A} (f : A -> bool) (before : list A) x (after : list A) :
  Forall (fun y => f y = false) before ->
  f x = true ->
  find f (before ++ x :: after) = Some x.
Proof.
  intros Hbefore Hx. induction Hbefore as [|y l Hy _ IH]; simpl.
  - rewrite Hx. reflexivity.
  - rewrite Hy. exact IH.
Qed.

Section CardInquiry.

Variable E : Collaborators.

(** X29: a keyword of a specific Visa card decides the credit card
    inquiry, whatever else the input mentions: the answer is the one for
    the first configured Visa type with a keyword in the lowercased input,
    also when Mastercard or brand keywords occur in it. *)
Theorem handle_credit_card_inquiry_visa_first (self : FibankChatbot.t)
    (user_input : str) before card_type keywords after :
  dict_get_default (lit "visa") [] (FibankChatbot.keywords self)
  = before ++ (card_type, keywords) :: after ->
  Forall
    (fun entry : str * list str =>
       FibankChatbot.mentioned E (lower E user_input) (snd entry) = false)
    before ->
  FibankChatbot.mentioned E (lower E user_input) keywords = true ->
  FibankChatbot.handle_credit_card_inquiry E self user_input
  = FibankChatbot._show_specific_card E self (lit "Visa")
      (lit "Visa " ++ title E card_type).
Proof.
  intros Hvisa Hbefore Hhere.
  unfold FibankChatbot.handle_credit_card_inquiry. cbv zeta.
  rewrite Hvisa.
  rewrite (find_first
             (fun entry : str * list str =>
                FibankChatbot.mentioned E (lower E user_input) (snd entry))
             before (card_type, keywords) after Hbefore Hhere).
  reflexivity.
Qed.

End CardInquiry.

Lemma handle_credit_card_inquiry_visa_first_witness :
  FibankChatbot.handle_credit_card_inquiry Demo.collaborators Samples.banker
    (lit "Visa Gold or Mastercard Gold?")
  = FibankChatbot._show_specific_card Demo.collaborators Samples.banker
      (lit "Visa") (lit "Visa " ++ title Demo.collaborators (lit "gold")).
Proof.
  apply (handle_credit_card_inquiry_visa_first Demo.collaborators
           Samples.banker (lit "Visa Gold or Mastercard Gold?")
           [(lit "classic", [lit "visa classic"; lit "виза класик"])]
           (lit "gold")
           [lit "visa gold"; lit "виза голд"; lit "златна виза"]
           []).
  - reflexivity.
  - repeat constructor.
  - vm_compute. reflexivity.
Defined.
